(** * Conference agenda importer and lookup: specification against the code

    A shallow embedding of the agenda tool (utils.py, constants.py, models.py,
    db_table.py, import_agenda.py, lookup_agenda.py) together with the
    theorems that settle the statements made about it.

    Layout:
    - [Py]      the Python values and [str] methods the program calls;
    - [Utils]   utils.py, the value codec;
    - [Sqlite], [Engine]  the store engine, as far as the generated
      statements use it;
    - [DbTable] db_table.py, the table handle;
    - [ImportAgenda]  import_agenda.py;
    - [LookupAgenda]  lookup_agenda.py;
    - the theorems. *)

From Stdlib Require Import ZArith Ascii String List Bool Lia.
From Stdlib Require Import DecimalString DecimalZ.
From stdpp Require Import base option list strings gmap.

Local Open Scope string_scope.
Local Open Scope list_scope.
Local Open Scope Z_scope.

(* ===================================================================== *)
(** * Python values and string methods *)
(* ===================================================================== *)

Module Py.

(** A Python [str] is modelled as a [string]; one character is one code
    point below 256.  The values that flow through the program are text,
    integers (Python [int], numpy [int64]), [None] and the float [nan] that
    pandas uses for an empty cell. *)
Inductive value : Type :=
  | VNone
  | VNaN
  | VInt (z : Z)
  | VStr (s : string).

#[global] Instance value_eq_dec : EqDecision value.
Proof. solve_decision. Defined.

(** [isinstance(v, str)] *)
Definition is_str (v : value) : bool :=
  match v with VStr _ => true | _ => false end.

(** [pd.notna(v)] / [pd.isna(v)] on a scalar *)
Definition notna (v : value) : bool :=
  match v with VNone | VNaN => false | _ => true end.

Definition isna (v : value) : bool := negb (notna v).

(** Decimal rendering of an integer, [str(n)]. *)
Definition str_of_Z (z : Z) : string := NilZero.string_of_int (Z.to_int z).

(** [str(v)], which is also what ["%s" % v] and an f-string field give. *)
Definition str (v : value) : string :=
  match v with
  | VNone => "None"
  | VNaN => "nan"
  | VInt z => str_of_Z z
  | VStr s => s
  end.

(** The characters [str.strip()] removes: those for which
    [str.isspace()] holds, here the ones below code point 256. *)
Definition is_space (c : ascii) : bool :=
  let n := nat_of_ascii c in
  ((9 <=? n) && (n <=? 13) || (28 <=? n) && (n <=? 32)
   || (n =? 133) || (n =? 160))%nat.

Definition is_empty (s : string) : bool :=
  match s with EmptyString => true | _ => false end.

Fixpoint lstrip (s : string) : string :=
  match s with
  | EmptyString => EmptyString
  | String c s' => if is_space c then lstrip s' else s
  end.

Fixpoint rstrip (s : string) : string :=
  match s with
  | EmptyString => EmptyString
  | String c s' =>
      let r := rstrip s' in
      if is_space c && is_empty r then EmptyString else String c r
  end.

(** [s.strip()] *)
Definition strip (s : string) : string := lstrip (rstrip s).

(** [s.startswith(p)] *)
Fixpoint startswith (p s : string) : bool :=
  match p with
  | EmptyString => true
  | String a p' =>
      match s with
      | String b s' => Ascii.eqb a b && startswith p' s'
      | EmptyString => false
      end
  end.

(** [sub in s] *)
Fixpoint contains (sub s : string) : bool :=
  startswith sub s ||
  match s with
  | EmptyString => false
  | String _ s' => contains sub s'
  end.

(** [s.replace(old, new)] for a non-empty [old]: occurrences are found from
    the left and do not overlap.  [skip] counts the characters of a matched
    occurrence that are still to be dropped. *)
Fixpoint replace_from (old new : string) (skip : nat) (s : string) : string :=
  match s with
  | EmptyString => EmptyString
  | String c s' =>
      match skip with
      | S k => replace_from old new k s'
      | O =>
          if startswith old s
          then new +:+ replace_from old new (Nat.pred (String.length old)) s'
          else String c (replace_from old new O s')
      end
  end.

Definition replace (old new s : string) : string := replace_from old new O s.

(** [s.split(sep)] for a one-character separator. *)
Fixpoint split (sep : ascii) (s : string) : list string :=
  match s with
  | EmptyString => [EmptyString]
  | String c s' =>
      let r := split sep s' in
      if Ascii.eqb c sep then EmptyString :: r
      else match r with
           | h :: t => String c h :: t
           | [] => [String c EmptyString]
           end
  end.

(** [sep.join(parts)] *)
Fixpoint join (sep : string) (parts : list string) : string :=
  match parts with
  | [] => EmptyString
  | [p] => p
  | p :: rest => p +:+ sep +:+ join sep rest
  end.

End Py.

(* ===================================================================== *)
(** * utils.py *)
(* ===================================================================== *)

Module Utils.
Import Py.

(** [preprocess_value]: a string has each apostrophe doubled and is then
    trimmed; anything else is returned as it is. *)
Definition preprocess_value (v : value) : value :=
  match v with
  | VStr s => VStr (strip (replace "'" "''" s))
  | _ => v
  end.

(** [postprocess_value]: a string has each pair of apostrophes replaced by
    one; anything else is returned as it is. *)
Definition postprocess_value (v : value) : value :=
  match v with
  | VStr s => VStr (replace "''" "'" s)
  | _ => v
  end.

End Utils.

(* ===================================================================== *)
(** * constants.py and models.py *)
(* ===================================================================== *)

Module Constants.

Definition IMPORT_INCORRECT_ARG_AMOUNT_ERROR : string :=
  "Expected 1 additional argument with xls file path".
Definition IMPORT_INVALID_PATH_ERROR : string := "Provided an invalid path".
Definition IMPORT_INVALID_FILENAME_ERROR : string := "Invalid xls file name".
Definition LOOKUP_NOT_ENOUGH_ARGS_ERROR : string :=
  "Expected 2 or more additional arguments with column and value".
Definition LOOKUP_INVALID_COLUMN_ERROR : string := "Invalid query column".

Definition SESSIONS_COLUMNS : list string :=
  ["date"; "time_start"; "time_end"; "title"; "location"; "description"].

Definition QUERY_COLUMNS : list string :=
  ["date"; "time_start"; "time_end"; "title"; "location"; "description";
   "speaker"].

Definition DISPLAY_COLUMNS : list string :=
  ["title"; "date"; "time_start"; "time_end"; "location"; "description"].

End Constants.

Module Models.

(** A schema as models.py writes it: the column declarations in order and
    the table constraints, all as SQL text. *)
Record schema_decl : Type := {
  columns : list (string * string);
  constraints : list string
}.

Definition sessions_schema : schema_decl := {|
  columns := [("id", "INTEGER PRIMARY KEY AUTOINCREMENT");
              ("date", "VARCHAR(10)");
              ("time_start", "VARCHAR(8)");
              ("time_end", "VARCHAR(8)");
              ("title", "VARCHAR(255)");
              ("location", "VARCHAR(255)");
              ("description", "TEXT");
              ("supersession_id", "INTEGER")];
  constraints := ["FOREIGN KEY (supersession_id) REFERENCES sessions(id)"]
|}.

Definition sessions_speakers_schema : schema_decl := {|
  columns := [("session_id", "INTEGER"); ("speaker_id", "INTEGER")];
  constraints := ["PRIMARY KEY (session_id, speaker_id)";
                  "FOREIGN KEY (session_id) REFERENCES sessions(id)";
                  "FOREIGN KEY (speaker_id) REFERENCES speakers(id)"]
|}.

Definition speakers_schema : schema_decl := {|
  columns := [("id", "INTEGER PRIMARY KEY AUTOINCREMENT");
              ("name", "VARCHAR(255) UNIQUE")];
  constraints := []
|}.

End Models.

(* ===================================================================== *)
(** * The store engine *)
(* ===================================================================== *)

(** db_table.py hands SQL text to SQLite through Python's [sqlite3] module.
    This module describes the engine's behaviour on the statement shapes
    that db_table.py generates.  A statement is kept in structured form, its
    leaves being the pieces of text that db_table.py formats into the SQL
    string.  What is left out: REAL and BLOB values, integers outside 64
    bits, row deletion, and, for a column of INTEGER affinity, the
    conversion of numeric text other than an optionally signed digit
    string.  Two things that db_table.py lets through are left out as
    well: a statement whose text holds a NUL character, which [sqlite3]
    refuses before the engine sees it, and a key of a payload or of a
    filter that is more than a column name, since the keys are pasted
    into the statement as they are.  The statements below that speak of
    every input say so with the hypothesis that no cell holds a NUL
    character; the keys the program uses are the constants of
    constants.py.  Since nothing is ever deleted, a row without a given rowid
    gets one more than the largest rowid of its table, with or without
    AUTOINCREMENT.  A join is evaluated as nested loops in the order of the
    FROM clause; the engine is free to choose another order, and nothing
    below depends on the order of a joined result.  Foreign keys are
    checked only on a connection whose [foreign_keys] setting is on, which
    it is not on a new connection. *)
Module Sqlite.
Import Py.

(** Exceptions that reach the entry points, with [str(e)] as [message]. *)
Inductive exn : Type :=
  | ValueError (msg : string)
  | RuntimeError (msg : string)
  | TypeError (msg : string)
  | IndexError (msg : string)
  | KeyError (key : string)
  | OperationalError (msg : string)
  | IntegrityError (msg : string).

Definition message (e : exn) : string :=
  match e with
  | ValueError m | RuntimeError m | TypeError m | IndexError m
  | OperationalError m | IntegrityError m => m
  | KeyError k => "'" +:+ k +:+ "'"
  end.

(** Storage classes. *)
Inductive sval : Type :=
  | SNull
  | SInt (z : Z)
  | SText (s : string).

#[global] Instance sval_eq_dec : EqDecision sval.
Proof. solve_decision. Defined.

Definition is_null (v : sval) : bool :=
  match v with SNull => true | _ => false end.

Inductive affinity : Type := AffInteger | AffText.

#[global] Instance affinity_eq_dec : EqDecision affinity.
Proof. solve_decision. Defined.

(** What the engine retains of a [CREATE TABLE] statement. *)
Record schema : Type := {
  s_columns : list (string * affinity);
  s_rowid_alias : option string;           (* INTEGER PRIMARY KEY column *)
  s_unique : list (list string);           (* UNIQUE / PRIMARY KEY groups *)
  s_foreign : list (string * (string * string))
                                (* FOREIGN KEY (c) REFERENCES t(c') *)
}.

Record row : Type := {
  r_id : Z;                                (* rowid *)
  r_cells : list (string * sval)
}.

Record table : Type := {
  t_schema : schema;
  t_rows : list row                        (* in rowid order *)
}.

(** The database file: its tables by name. *)
Abbreviation store := (gmap string table).

(** ** Reading the declarations *)

Fixpoint strip_prefix (p s : string) : option string :=
  match p, s with
  | EmptyString, _ => Some s
  | String a p', String b s' =>
      if Ascii.eqb a b then strip_prefix p' s' else None
  | String _ _, EmptyString => None
  end.

(** Column affinity from the declared type; only the INTEGER and TEXT rules
    are needed. *)
Definition column_affinity (ty : string) : option affinity :=
  if contains "INT" ty then Some AffInteger
  else if contains "CHAR" ty || contains "CLOB" ty || contains "TEXT" ty
       then Some AffText
       else None.

Definition is_rowid_alias (ty : string) : bool :=
  startswith "INTEGER PRIMARY KEY" ty.

Definition parse_primary_key (c : string) : option (list string) :=
  match strip_prefix "PRIMARY KEY (" c with
  | Some rest =>
      match split ")" rest with
      | [inner; EmptyString] => Some (map strip (split "," inner))
      | _ => None
      end
  | None => None
  end.

Definition parse_foreign_key (c : string)
  : option (string * (string * string)) :=
  match strip_prefix "FOREIGN KEY (" c with
  | Some rest =>
      match split ")" rest with
      | [col; ref; EmptyString] =>
          match strip_prefix " REFERENCES " ref with
          | Some target =>
              match split "(" target with
              | [t; c'] => Some (strip col, (strip t, strip c'))
              | _ => None
              end
          | None => None
          end
      | _ => None
      end
  | None => None
  end.

Definition elaborate_columns (cols : list (string * string))
  : option (list (string * affinity)) :=
  mapM (fun '(c, ty) => a ← column_affinity ty; Some (c, a)) cols.

Definition elaborate (d : Models.schema_decl) : option schema :=
  cols ← elaborate_columns (Models.columns d);
  _ ← head cols;                          (* a table has a column *)
  Some {|
    s_columns := cols;
    s_rowid_alias :=
      fst <$> head (filter (fun '(_, ty) => is_rowid_alias ty = true)
                           (Models.columns d));
    s_unique :=
      map (fun '(c, _) => [c])
          (filter (fun '(_, ty) => contains "UNIQUE" ty = true)
                  (Models.columns d))
      ++ omap parse_primary_key (Models.constraints d);
    s_foreign := omap parse_foreign_key (Models.constraints d)
  |}.

(** ** Statements *)

(** [INSERT INTO t (c1, ..) VALUES ('v1', ..)]: [ins_values] holds, for each
    value, the text that stands between the two quotes. *)
Record insert_stmt : Type := {
  ins_table : string;
  ins_columns : list string;
  ins_values : list string
}.

(** One conjunct of a [WHERE] clause, as db_table.py formats it:
    [lhs = 'body'], or [lhs IN (i1, i2, ..)] with the items unquoted. *)
Inductive cond : Type :=
  | CEq (lhs : string) (body : string)
  | CIn (lhs : string) (items : list string).

(** [SELECT t.c1, c2, .. FROM t JOIN t2 ON t1.a = t2.b .. WHERE .. AND ..];
    a join is kept as (t1, t2, a, b). *)
Record select_stmt : Type := {
  sel_table : string;
  sel_columns : list string;
  sel_joins : list (string * string * string * string);
  sel_where : list cond
}.

Inductive stmt : Type :=
  | SCreate (name : string) (d : Models.schema_decl)
  | SInsert (q : insert_stmt)
  | SSelect (q : select_stmt).

(** The state a run acts on: the database file, the statements executed so
    far (for what is said about what is or is not attempted), and the text
    printed to standard output, one entry per call of [print]. *)
Record state : Type := {
  db : store;
  log : list stmt;
  out : list string
}.

Inductive outcome (A : Type) : Type :=
  | Ok (a : A)
  | Raise (e : exn).
Arguments Ok {A} a.
Arguments Raise {A} e.

Definition M (A : Type) : Type := state -> outcome A * state.

Definition ret {A} (a : A) : M A := fun st => (Ok a, st).
Definition raise {A} (e : exn) : M A := fun st => (Raise e, st).
Definition bind {A B} (m : M A) (k : A -> M B) : M B :=
  fun st =>
    match m st with
    | (Ok a, st') => k a st'
    | (Raise e, st') => (Raise e, st')
    end.

Definition record (s : stmt) : M unit :=
  fun st => (Ok tt, {| db := db st; log := log st ++ [s]; out := out st |}).

Definition print (s : string) : M unit :=
  fun st => (Ok tt, {| db := db st; log := log st; out := out st ++ [s] |}).

End Sqlite.

Notation "'let*' x ':=' m 'in' k" := (Sqlite.bind m (fun x => k))
  (at level 10, x name, m at level 100, k at level 200).

Module Engine.
Import Py Sqlite.

(** ** Literals and comparison *)

(** The text denoted by a quoted literal whose body is [s]: a pair of
    apostrophes stands for one; a single apostrophe would end the literal
    early, which makes the statement malformed. *)
Fixpoint unquote (s : string) : option string :=
  match s with
  | EmptyString => Some EmptyString
  | String c s' =>
      if Ascii.eqb c "'"
      then match s' with
           | String c' s'' =>
               if Ascii.eqb c' "'" then String "'" <$> unquote s'' else None
           | EmptyString => None
           end
      else String c <$> unquote s'
  end.

(** An unquoted token is read as an integer literal. *)
Definition parse_integer (tok : string) : option Z :=
  Z.of_int <$> NilZero.int_of_string tok.

(** Conversion of a value to the affinity of a column. *)
Definition coerce (a : affinity) (v : sval) : sval :=
  match a, v with
  | AffInteger, SText t =>
      match parse_integer t with
      | Some z => SInt z
      | None => SText t
      end
  | AffText, SInt z => SText (str_of_Z z)
  | _, _ => v
  end.

(** [x = y] between two columns: an INTEGER side converts the other side;
    NULL is equal to nothing. *)
Definition compare_eq (a1 : affinity) (v1 : sval) (a2 : affinity) (v2 : sval)
  : bool :=
  let v1' := match a2 with AffInteger => coerce AffInteger v1 | AffText => v1 end in
  let v2' := match a1 with AffInteger => coerce AffInteger v2 | AffText => v2 end in
  negb (is_null v1') && bool_decide (v1' = v2').

(** ** Rows *)

Fixpoint assoc {A : Type} (k : string) (l : list (string * A)) : option A :=
  match l with
  | [] => None
  | (k', a) :: rest => if decide (k = k') then Some a else assoc k rest
  end.

Definition cell (cells : list (string * sval)) (c : string) : sval :=
  default SNull (assoc c cells).

Definition max_rowid (rows : list row) : Z :=
  fold_right (fun r m => Z.max (r_id r) m) 0 rows.

(** The rowid given to a row that does not supply one. *)
Definition next_rowid (rows : list row) : Z := max_rowid rows + 1.

Fixpoint insert_row (r : row) (rows : list row) : list row :=
  match rows with
  | [] => [r]
  | r' :: rest =>
      if r_id r <? r_id r' then r :: rows else r' :: insert_row r rest
  end.

Definition dquote : string := String (ascii_of_nat 34) EmptyString.

Definition syntax_error (tok : string) : exn :=
  OperationalError ("near " +:+ dquote +:+ tok +:+ dquote +:+ ": syntax error").

(** ** CREATE TABLE IF NOT EXISTS *)

(** The first word of a table constraint, such as PRIMARY or FOREIGN. *)
Fixpoint first_word (s : string) : string :=
  match s with
  | EmptyString => EmptyString
  | String c s' =>
      if Ascii.eqb c " " || Ascii.eqb c "("
      then EmptyString else String c (first_word s')
  end.

(** Where the parser stops when the column list is empty: at the closing
    parenthesis, or at the table constraint that stands where a column
    is expected. *)
Definition no_column_token (d : Models.schema_decl) : string :=
  match Models.constraints d with
  | [] => ")"
  | c :: _ => first_word c
  end.

(** The statement is parsed before the table is looked up, so an empty
    column list is an error also when the table exists. *)
Definition exec_create (name : string) (d : Models.schema_decl) : M unit :=
  let* _ := record (SCreate name d) in
  fun st =>
    match Models.columns d with
    | [] => (Raise (syntax_error (no_column_token d)), st)
    | _ :: _ =>
        match db st !! name with
        | Some _ => (Ok tt, st)
        | None =>
            match elaborate d with
            | Some sch =>
                (Ok tt, {| db := <[name := {| t_schema := sch; t_rows := [] |}]>
                                   (db st);
                           log := log st; out := out st |})
            | None => (Raise (syntax_error name), st)
            end
        end
    end.

(** ** Engine steps that may stop with an error *)

Definition sbind {A B : Type} (x : exn + A) (k : A -> exn + B) : exn + B :=
  match x with
  | inl e => inl e
  | inr a => k a
  end.

Notation "'try' x ':=' m 'in' k" := (sbind m (fun x => k))
  (at level 10, x pattern, m at level 100, k at level 200).

(** ** INSERT *)

Definition has_column (sch : schema) (c : string) : bool :=
  bool_decide (is_Some (assoc c (s_columns sch))).

(** The cells of the new row before a rowid is chosen: a supplied value is
    converted to the column's affinity, a column that is not named is NULL. *)
Definition new_cells (sch : schema) (supplied : list (string * string))
  : list (string * sval) :=
  map (fun '(c, a) =>
         (c, match assoc c supplied with
             | Some t => coerce a (SText t)
             | None => SNull
             end))
      (s_columns sch).

Definition set_cell (c : string) (v : sval) (cells : list (string * sval))
  : list (string * sval) :=
  map (fun '(c', v') => if decide (c = c') then (c', v) else (c', v')) cells.

(** An existing row [r] blocks the new cells on the key [g] when the new
    key has no NULL and equals the key of [r]. *)
Definition conflicts (g : list string) (cells : list (string * sval)) (r : row)
  : bool :=
  forallb (fun c => negb (is_null (cell cells c))) g
  && bool_decide (map (cell cells) g = map (cell (r_cells r)) g).

Definition violated_key (sch : schema) (cells : list (string * sval))
  (rows : list row) : option (list string) :=
  head (filter (fun g => existsb (conflicts g cells) rows = true) (s_unique sch)).

(** A foreign key is satisfied by NULL or by a parent row holding the value;
    the new row may be its own parent. *)
Definition foreign_ok (st : store) (tname : string) (new : row)
  (fk : string * (string * string)) : bool :=
  let '(c, (pt, pc)) := fk in
  let v := cell (r_cells new) c in
  is_null v
  || existsb (fun p => bool_decide (cell (r_cells p) pc = v))
       ((if decide (pt = tname) then [new] else [])
        ++ match st !! pt with Some t => t_rows t | None => [] end).

Definition unique_failed (tname : string) (g : list string) : exn :=
  IntegrityError
    ("UNIQUE constraint failed: "
     +:+ join ", " (map (fun c => tname +:+ "." +:+ c) g)).

(** The checks made when the statement is compiled; the result pairs each
    named column with the text of its value. *)
Definition prepare_insert (tname : string) (sch : schema)
  (cols vals : list string) : exn + list (string * string) :=
  match cols with
  | [] => inl (syntax_error ")")
  | _ =>
      match filter (fun c => has_column sch c = false) cols with
      | c :: _ =>
          inl (OperationalError
                 ("table " +:+ tname +:+ " has no column named " +:+ c))
      | [] =>
          if negb (length vals =? length cols)%nat
          then inl (OperationalError
                      (str_of_Z (Z.of_nat (length vals)) +:+ " values for "
                       +:+ str_of_Z (Z.of_nat (length cols)) +:+ " columns"))
          else match mapM unquote vals with
               | None => inl (syntax_error "'")
               | Some texts => inr (zip cols texts)
               end
      end
  end.

(** The rowid of the new row: the value given for the INTEGER PRIMARY KEY
    column when there is one, otherwise the next free rowid. *)
Definition choose_rowid (tname : string) (sch : schema)
  (cells0 : list (string * sval)) (rows : list row) : exn + Z :=
  match s_rowid_alias sch with
  | None => inr (next_rowid rows)
  | Some a =>
      match cell cells0 a with
      | SNull => inr (next_rowid rows)
      | SInt z =>
          if existsb (fun r => r_id r =? z) rows
          then inl (unique_failed tname [a])
          else inr z
      | SText _ => inl (IntegrityError "datatype mismatch")
      end
  end.

(** The row an INSERT adds, or the error it stops with.  [foreign_keys] is
    the connection's setting of that name. *)
Definition build_row (foreign_keys : bool) (st : store) (tname : string)
  (t : table) (cols vals : list string) : exn + row :=
  let sch := t_schema t in
  try supplied := prepare_insert tname sch cols vals in
  let cells0 := new_cells sch supplied in
  try id := choose_rowid tname sch cells0 (t_rows t) in
  let cells := match s_rowid_alias sch with
               | Some a => set_cell a (SInt id) cells0
               | None => cells0
               end in
  match violated_key sch cells (t_rows t) with
  | Some g => inl (unique_failed tname g)
  | None =>
      let new := {| r_id := id; r_cells := cells |} in
      if foreign_keys
         && negb (forallb (foreign_ok st tname new) (s_foreign sch))
      then inl (IntegrityError "FOREIGN KEY constraint failed")
      else inr new
  end.

(** Executes the INSERT and commits; the result is the new row's rowid
    ([cursor.lastrowid]). *)
Definition exec_insert (foreign_keys : bool) (q : insert_stmt) : M Z :=
  let* _ := record (SInsert q) in
  fun st =>
    match db st !! ins_table q with
    | None => (Raise (OperationalError ("no such table: " +:+ ins_table q)), st)
    | Some t =>
        match build_row foreign_keys (db st) (ins_table q) t
                (ins_columns q) (ins_values q) with
        | inl e => (Raise e, st)
        | inr r =>
            (Ok (r_id r),
             {| db := <[ins_table q :=
                          {| t_schema := t_schema t;
                             t_rows := insert_row r (t_rows t) |}]> (db st);
                log := log st; out := out st |})
        end
    end.

(** ** SELECT *)

Definition no_such_column (c : string) : exn :=
  OperationalError ("no such column: " +:+ c).

(** The tables of the FROM clause, in order. *)
Definition sources (st : store) (q : select_stmt)
  : exn + list (string * table) :=
  let names := sel_table q :: map (fun j => j.1.1.2) (sel_joins q) in
  let missing := filter (fun n => st !! n = None) names in
  match missing with
  | n :: _ => inl (OperationalError ("no such table: " +:+ n))
  | [] => inr (omap (fun n => pair n <$> st !! n) names)
  end.

(** A column written [t.c]. *)
Definition resolve_in (srcs : list (string * table)) (tn c : string)
  : exn + affinity :=
  match assoc tn srcs with
  | Some t =>
      match assoc c (s_columns (t_schema t)) with
      | Some a => inr a
      | None => inl (no_such_column (tn +:+ "." +:+ c))
      end
  | None => inl (no_such_column (tn +:+ "." +:+ c))
  end.

(** A column written without its table: exactly one table of the FROM
    clause must have it. *)
Definition resolve (srcs : list (string * table)) (c : string)
  : exn + (string * affinity) :=
  match omap (fun '(n, t) => pair n <$> assoc c (s_columns (t_schema t))) srcs with
  | [hit] => inr hit
  | [] => inl (no_such_column c)
  | _ => inl (OperationalError ("ambiguous column name: " +:+ c))
  end.

(** One row of the join: the current row of each table joined so far. *)
Definition env : Type := list (string * row).

Definition lookup_env (e : env) (tn c : string) : sval :=
  match assoc tn e with
  | Some r => cell (r_cells r) c
  | None => SNull
  end.

(** [.. JOIN t2 ON t1.c1 = t2.c2], as a nested loop over the rows so far. *)
Definition join_step (srcs : list (string * table))
  (j : string * string * string * string) (envs : list env)
  : exn + list env :=
  let '(t1, t2, c1, c2) := j in
  try a1 := resolve_in srcs t1 c1 in
  try a2 := resolve_in srcs t2 c2 in
  let rows2 := match assoc t2 srcs with Some t => t_rows t | None => [] end in
  inr (flat_map
         (fun e =>
            map (fun r2 => e ++ [(t2, r2)])
                (filter (fun r2 => compare_eq a1 (lookup_env e t1 c1)
                                              a2 (cell (r_cells r2) c2) = true)
                        rows2))
         envs).

Fixpoint join_all (srcs : list (string * table))
  (js : list (string * string * string * string)) (envs : list env)
  : exn + list env :=
  match js with
  | [] => inr envs
  | j :: rest =>
      try envs' := join_step srcs j envs in
      join_all srcs rest envs'
  end.

(** The test a conjunct of the WHERE clause makes on a joined row.  A
    literal is converted to the column's affinity; a comparison with NULL
    is never true; [lhs] may carry a trailing NOT for [NOT IN]. *)
Definition eval_cond (srcs : list (string * table)) (c : cond)
  : exn + (env -> bool) :=
  match c with
  | CEq lhs body =>
      match split " " lhs with
      | [col] =>
          try hit := resolve srcs col in
          match unquote body with
          | Some t =>
              inr (fun e =>
                     let v := lookup_env e hit.1 col in
                     negb (is_null v)
                     && bool_decide (v = coerce hit.2 (SText t)))
          | None => inl (syntax_error "'")
          end
      | _ => inl (syntax_error "=")
      end
  | CIn lhs items =>
      try target :=
        match split " " lhs with
        | [col] => inr (col, false)
        | [col; "NOT"] => inr (col, true)
        | _ => inl (syntax_error "IN")
        end in
      try hit := resolve srcs target.1 in
      match mapM parse_integer items with
      | Some zs =>
          inr (fun e =>
                 let v := lookup_env e hit.1 target.1 in
                 match zs with
                 | [] => target.2
                 | _ =>
                     negb (is_null v)
                     && xorb target.2
                          (existsb
                             (fun z => bool_decide (v = coerce hit.2 (SInt z)))
                             zs)
                 end)
      | None => inl (no_such_column (join ", " items))
      end
  end.

Fixpoint eval_where (srcs : list (string * table)) (cs : list cond)
  : exn + (env -> bool) :=
  match cs with
  | [] => inr (fun _ => true)
  | c :: rest =>
      try p := eval_cond srcs c in
      try ps := eval_where srcs rest in
      inr (fun e => p e && ps e)
  end.

(** The result columns: the first is written [t.c] with [t] the table the
    statement selects from, the others are written bare. *)
Definition result_columns (srcs : list (string * table)) (q : select_stmt)
  : exn + list (string * string) :=
  match sel_columns q with
  | [] => inl (syntax_error "FROM")
  | c0 :: cs =>
      try _ := resolve_in srcs (sel_table q) c0 in
      try rest :=
        fold_right
          (fun c acc =>
             try hit := resolve srcs c in
             try l := acc in
             inr ((hit.1, c) :: l))
          (inr []) cs in
      inr ((sel_table q, c0) :: rest)
  end.

Definition select_rows (st : store) (q : select_stmt)
  : exn + list (list sval) :=
  try srcs := sources st q in
  try cols := result_columns srcs q in
  let base := match assoc (sel_table q) srcs with
              | Some t => map (fun r => [(sel_table q, r)]) (t_rows t)
              | None => []
              end in
  try envs := join_all srcs (sel_joins q) base in
  try p := eval_where srcs (sel_where q) in
  inr (map (fun e => map (fun tc => lookup_env e tc.1 tc.2) cols)
           (filter (fun e => p e = true) envs)).

(** Executes the SELECT; the rows come in the order of the nested loops. *)
Definition exec_select (q : select_stmt) : M (list (list sval)) :=
  let* _ := record (SSelect q) in
  fun st =>
    match select_rows (db st) q with
    | inl e => (Raise e, st)
    | inr rows => (Ok rows, st)
    end.

End Engine.

(* ===================================================================== *)
(** * db_table.py *)
(* ===================================================================== *)

Module DbTable.
Import Py Utils Sqlite Engine.

(** A handle: [self.name], [self.columns], [self.constraints].  Its
    connection [self.db_conn] comes from [sqlite3.connect(DB_NAME)] and is
    never configured further, so every handle works on the same file with
    the engine's default settings. *)
Record db_table : Type := {
  name : string;
  columns : list (string * string);
  constraints : list string
}.

(** The [foreign_keys] setting of a connection that [sqlite3.connect] has
    just opened: enforcement is off until the connection executes
    [PRAGMA foreign_keys = ON], and db_table.py has no such statement. *)
Definition connection_foreign_keys : bool := false.

(** A Python [dict] whose order matters, as an association list. *)
Abbreviation dict := (list (string * value)).

Definition dict_get (k : string) (d : dict) : option value := assoc k d.

(** [d[k] = v] *)
Fixpoint dict_set (k : string) (v : value) (d : dict) : dict :=
  match d with
  | [] => [(k, v)]
  | (k', v') :: rest =>
      if decide (k = k') then (k', v) :: rest else (k', v') :: dict_set k v rest
  end.

(** [create_table] *)
Definition create_table (self : db_table) : M unit :=
  exec_create (name self)
    {| Models.columns := columns self; Models.constraints := constraints self |}.

(** [__init__]; a schema of models.py is a non-empty dict, so only the
    name can be rejected. *)
Definition init (name : string) (schema : Models.schema_decl) : M db_table :=
  if is_empty name then raise (RuntimeError "invalid table name")
  else
    let self := {| name := name;
                   columns := Models.columns schema;
                   constraints := Models.constraints schema |} in
    let* _ := create_table self in
    ret self.

(** A value of the [where] mapping: one value, or a list of values. *)
Inductive where_value : Type :=
  | One (v : value)
  | Many (vs : list value).

(** What [sqlite3] returns for a stored value. *)
Definition of_sval (v : sval) : value :=
  match v with
  | SNull => VNone
  | SInt z => VInt z
  | SText s => VStr s
  end.

Definition where_cond (kv : string * where_value) : cond :=
  match kv.2 with
  | Many vs => CIn kv.1 (map (fun val => str (preprocess_value val)) vs)
  | One v => CEq kv.1 (str (preprocess_value v))
  end.

(** [result_row[columns[i]] = postprocess_value(row[i])] for each [i] *)
Definition result_row (columns : list string) (r : list sval) : dict :=
  fold_left (fun d cv => dict_set cv.1 (postprocess_value (of_sval cv.2)) d)
            (zip columns r) [].

(** [select(columns, join, where)] *)
Definition select (self : db_table) (columns : list string)
  (join : list (db_table * db_table * string * string))
  (where_ : list (string * where_value)) : M (list dict) :=
  let columns := match columns with
                 | [] => map fst (DbTable.columns self)
                 | _ => columns
                 end in
  let* rows :=
    exec_select
      {| sel_table := name self;
         sel_columns := columns;
         sel_joins := map (fun j => (name j.1.1.1, name j.1.1.2, j.1.2, j.2)) join;
         sel_where := map where_cond where_ |} in
  ret (map (result_row columns) rows).

(** [insert(item)] *)
Definition insert (self : db_table) (item : dict) : M Z :=
  exec_insert connection_foreign_keys
    {| ins_table := name self;
       ins_columns := map fst item;
       ins_values := map (fun kv => str (preprocess_value kv.2)) item |}.

End DbTable.

(* ===================================================================== *)
(** * import_agenda.py *)
(* ===================================================================== *)

Module ImportAgenda.
Import Py Utils Sqlite Engine DbTable Constants.

(** One record of [excel_df.to_dict("records")]: the eight cells of a
    spreadsheet row under the names of [EXCEL_COLUMNS]. *)
Record excel_row : Type := {
  date : value;
  time_start : value;
  time_end : value;
  session_type : value;
  title : value;
  location : value;
  description : value;
  speakers : value
}.

(** [row[key]] for a key of [EXCEL_COLUMNS]. *)
Definition row_get (row : excel_row) (key : string) : value :=
  if decide (key = "date") then date row
  else if decide (key = "time_start") then time_start row
  else if decide (key = "time_end") then time_end row
  else if decide (key = "session_type") then session_type row
  else if decide (key = "title") then title row
  else if decide (key = "location") then location row
  else if decide (key = "description") then description row
  else speakers row.

(** [Path(p).name] on a POSIX path: the last component, where empty
    components and the components "." do not count; empty when there is
    none. *)
Definition path_name (p : string) : string :=
  List.last (filter (fun part => part <> EmptyString /\ part <> ".")
                    (split "/" p))
            EmptyString.

(** [Path(p).suffix]: the name from its last dot on ([name[i:]] with
    [i = name.rfind('.')]), when that dot is neither the first nor the last
    character of the name ([0 < i < len(name) - 1]); empty otherwise. *)
Definition path_suffix (p : string) : string :=
  match rev (split "." (path_name p)) with
  | ext :: stem :: rest =>
      if is_empty ext || (is_empty stem && bool_decide (rest = []))
      then EmptyString else "." +:+ ext
  | _ => EmptyString
  end.

(** [validate_path]; [argv] is [sys.argv] and [is_file] answers
    [Path(p).is_file()]. *)
Definition validate_path (argv : list string) (is_file : string -> bool)
  : M unit :=
  if negb (length argv =? 2)%nat
  then raise (ValueError IMPORT_INCORRECT_ARG_AMOUNT_ERROR)
  else
    let path := nth 1 argv EmptyString in
    if negb (is_file path) then raise (ValueError IMPORT_INVALID_PATH_ERROR)
    else if negb (bool_decide (path_suffix path = ".xls"))
         then raise (ValueError IMPORT_INVALID_FILENAME_ERROR)
         else ret tt.

(** The payload of one row: the present values among [SESSIONS_COLUMNS]. *)
Definition session_payload (row : excel_row) : dict :=
  filter (fun kv => notna kv.2 = true)
         (map (fun key => (key, row_get row key)) SESSIONS_COLUMNS).

(** The loop of [process_session_data], from the rows still to insert and
    the current [last_session_id]; the result lists the ids in row order. *)
Fixpoint session_loop (sessions_table : db_table) (rows : list excel_row)
  (last_session_id : value) : M (list Z) :=
  match rows with
  | [] => ret []
  | row :: rest =>
      let session_data := session_payload row in
      let session_data :=
        if bool_decide (session_type row = VStr "Sub")
        then dict_set "supersession_id" last_session_id session_data
        else session_data in
      let* id := insert sessions_table session_data in
      let last_session_id :=
        if bool_decide (session_type row = VStr "Session")
        then VInt id else last_session_id in
      let* ids := session_loop sessions_table rest last_session_id in
      ret (id :: ids)
  end.

Definition process_session_data (excel_df : list excel_row)
  (sessions_table : db_table) : M (list Z) :=
  session_loop sessions_table excel_df VNone.

(** The two accumulators of [process_speaker_data]. *)
Record speaker_acc : Type := {
  sessions_speakers : list (Z * string);
  speaker_ids : gmap string value
}.

(** The names of one [speakers] cell. *)
Definition speaker_names (speakers : value) : list string :=
  map strip (split ";" (str speakers)).

(** The inner loop, over the names of the row at position [index]. *)
Fixpoint name_loop (speakers_table : db_table) (session_ids : list Z)
  (index : nat) (names : list string) (acc : speaker_acc) : M speaker_acc :=
  match names with
  | [] => ret acc
  | name :: rest =>
      match session_ids !! index with
      | None => raise (IndexError "index out of bounds")
      | Some session_id =>
          let pending := sessions_speakers acc ++ [(session_id, name)] in
          let speaker_data := [("name", VStr name)] in
          let* speakers_match :=
            select speakers_table ["id"] [] [("name", One (VStr name))] in
          let* id :=
            match speakers_match with
            | first :: _ =>
                match dict_get "id" first with
                | Some v => ret v
                | None => raise (KeyError "id")
                end
            | [] =>
                let* new_id := insert speakers_table speaker_data in
                ret (VInt new_id)
            end in
          name_loop speakers_table session_ids index rest
            {| sessions_speakers := pending;
               speaker_ids := <[name := id]> (speaker_ids acc) |}
      end
  end.

(** The outer loop, over the [speakers] cells from position [index] on. *)
Fixpoint row_loop (speakers_table : db_table) (session_ids : list Z)
  (index : nat) (cells : list value) (acc : speaker_acc) : M speaker_acc :=
  match cells with
  | [] => ret acc
  | speakers :: rest =>
      if isna speakers
      then row_loop speakers_table session_ids (S index) rest acc
      else
        let* acc' := name_loop speakers_table session_ids index
                       (speaker_names speakers) acc in
        row_loop speakers_table session_ids (S index) rest acc'
  end.

(** The final loop: one association row per pending pair. *)
Fixpoint association_loop (sessions_speakers_table : db_table)
  (speaker_ids : gmap string value) (pending : list (Z * string)) : M unit :=
  match pending with
  | [] => ret tt
  | (session_id, name) :: rest =>
      match speaker_ids !! name with
      | None => raise (KeyError name)
      | Some speaker_id =>
          let* _ := insert sessions_speakers_table
                      [("session_id", VInt session_id);
                       ("speaker_id", speaker_id)] in
          association_loop sessions_speakers_table speaker_ids rest
      end
  end.

Definition process_speaker_data (excel_df : list excel_row)
  (session_ids : list Z) (speakers_table sessions_speakers_table : db_table)
  : M unit :=
  let* acc := row_loop speakers_table session_ids 0 (map speakers excel_df)
                {| sessions_speakers := []; speaker_ids := ∅ |} in
  association_loop sessions_speakers_table (speaker_ids acc)
    (sessions_speakers acc).

(** What [main] does once the spreadsheet has been read. *)
Definition import_rows (excel_df : list excel_row) : M unit :=
  let* sessions_table := init "sessions" Models.sessions_schema in
  let* speakers_table := init "speakers" Models.speakers_schema in
  let* sessions_speakers_table :=
    init "sessions_speakers" Models.sessions_speakers_schema in
  let* session_ids := process_session_data excel_df sessions_table in
  process_speaker_data excel_df session_ids speakers_table
    sessions_speakers_table.

(** The body of the [try] block; [read_excel] stands for
    [pd.read_excel(filename, skiprows=ROWS_TO_SKIP, names=EXCEL_COLUMNS)]. *)
Definition body (argv : list string) (is_file : string -> bool)
  (read_excel : string -> exn + list excel_row) : M unit :=
  let* _ := validate_path argv is_file in
  let filename := nth 1 argv EmptyString in
  let* excel_df := match read_excel filename with
                   | inl e => raise e
                   | inr rows => ret rows
                   end in
  import_rows excel_df.

(** [main]: the result is the exit status of the process. *)
Definition main (argv : list string) (is_file : string -> bool)
  (read_excel : string -> exn + list excel_row) (st : state) : Z * state :=
  match body argv is_file read_excel st with
  | (Ok _, st') => (0, st')
  | (Raise e, st') =>
      match print ("Error occured: " +:+ message e) st' with
      | (_, st'') => (1, st'')
      end
  end.

End ImportAgenda.

(* ===================================================================== *)
(** * lookup_agenda.py *)
(* ===================================================================== *)

Module LookupAgenda.
Import Py Utils Sqlite Engine DbTable Constants.

(** [validate_query] *)
Definition validate_query (argv : list string) : M unit :=
  if (length argv <? 3)%nat
  then raise (ValueError LOOKUP_NOT_ENOUGH_ARGS_ERROR)
  else
    let column := nth 1 argv EmptyString in
    if negb (bool_decide (column ∈ QUERY_COLUMNS))
    then raise (ValueError LOOKUP_INVALID_COLUMN_ERROR)
    else ret tt.

(** [d[key]] on a result row. *)
Definition getitem (d : dict) (key : string) : M value :=
  match dict_get key d with
  | Some v => ret v
  | None => raise (KeyError key)
  end.

(** A list comprehension whose element expression may raise. *)
Fixpoint for_each {A B : Type} (f : A -> M B) (l : list A) : M (list B) :=
  match l with
  | [] => ret []
  | a :: rest =>
      let* b := f a in
      let* bs := for_each f rest in
      ret (b :: bs)
  end.

(** [get_all_matches] *)
Definition get_all_matches (column : string) (value : Py.value)
  (sessions_table sessions_speakers_table speakers_table : db_table)
  : M (list dict) :=
  let* sessions_match :=
    if bool_decide (column = "speaker")
    then select sessions_table []
           [(sessions_table, sessions_speakers_table, "id", "session_id");
            (sessions_speakers_table, speakers_table, "speaker_id", "id")]
           [("name", One value)]
    else select sessions_table [] [] [(column, One value)] in
  match sessions_match with
  | [] => raise (ValueError "No matches found for the given query.")
  | _ =>
      let* selected_session_ids :=
        for_each (fun session => getitem session "id") sessions_match in
      let* subsessions :=
        select sessions_table [] []
          [("supersession_id", Many selected_session_ids);
           ("id NOT", Many selected_session_ids)] in
      ret (sessions_match ++ subsessions)
  end.

(** [get_speaker_names] *)
Definition get_speaker_names (session : dict)
  (speakers_table sessions_speakers_table : db_table) : M (list value) :=
  let* id := getitem session "id" in
  let* found :=
    select speakers_table ["name"]
      [(speakers_table, sessions_speakers_table, "id", "speaker_id")]
      [("session_id", One id)] in
  for_each (fun speaker => getitem speaker "name") found.

Definition bar : string :=
  "===============================================================".

Definition newline : string := String (ascii_of_nat 10) EmptyString.

(** [type(v).__name__] *)
Definition type_name (v : value) : string :=
  match v with
  | VNone => "NoneType"
  | VNaN => "float"
  | VInt _ => "int"
  | VStr _ => "str"
  end.

(** The message of [str.join] for the first item, counted from [i], that
    is no [str]. *)
Fixpoint join_error (i : nat) (items : list value) : string :=
  match items with
  | [] => EmptyString
  | VStr _ :: rest => join_error (S i) rest
  | v :: _ =>
      "sequence item " +:+ str_of_Z (Z.of_nat i)
      +:+ ": expected str instance, " +:+ type_name v +:+ " found"
  end.

(** ['; '.join(speaker_names)], which needs every item to be a [str]. *)
Definition join_names (speaker_names : list value) : M string :=
  match mapM (fun v => match v with VStr s => Some s | _ => None end)
             speaker_names with
  | Some names => ret (join "; " names)
  | None => raise (TypeError (join_error 0 speaker_names))
  end.

(** [print_session]: one entry of [out] per call of [print]. *)
Definition print_session (session : dict) (speaker_names : list value)
  : M unit :=
  let* _ := print bar in
  let* _ :=
    for_each (fun key =>
                let* v := getitem session key in
                print (key +:+ ": " +:+ str v +:+ newline))
             DISPLAY_COLUMNS in
  let* shown := match speaker_names with
                | [] => ret "None"
                | _ => join_names speaker_names
                end in
  let* _ := print ("speakers: " +:+ shown) in
  print (bar +:+ newline).

(** The body of the [try] block. *)
Definition body (argv : list string) : M unit :=
  let* _ := validate_query argv in
  let column := nth 1 argv EmptyString in
  let value := VStr (join " " (drop 2 argv)) in
  let* sessions_table := init "sessions" Models.sessions_schema in
  let* speakers_table := init "speakers" Models.speakers_schema in
  let* sessions_speakers_table :=
    init "sessions_speakers" Models.sessions_speakers_schema in
  let* all_matched_sessions :=
    get_all_matches column value sessions_table sessions_speakers_table
      speakers_table in
  let* _ :=
    for_each (fun session =>
                let* speaker_names :=
                  get_speaker_names session speakers_table
                    sessions_speakers_table in
                print_session session speaker_names)
             all_matched_sessions in
  ret tt.

(** [main]: the result is the exit status of the process. *)
Definition main (argv : list string) (st : state) : Z * state :=
  match body argv st with
  | (Ok _, st') => (0, st')
  | (Raise e, st') =>
      match print ("Error occured: " +:+ message e) st' with
      | (_, st'') => (1, st'')
      end
  end.

End LookupAgenda.

(* ===================================================================== *)
(** * Vocabulary of the statements *)
(* ===================================================================== *)

(** The functions and predicates in which the theorems below describe
    what the program does to the store: the rows a loop is expected to
    append, the statements it sends, the invariants of the tables, and the
    small stores used as examples. *)
Section Vocabulary.
Import Py Utils Sqlite Engine DbTable Constants ImportAgenda LookupAgenda.

(** A run of [k] apostrophes. *)
Fixpoint apostrophes (k : nat) : string :=
  match k with
  | O => EmptyString
  | S k' => String "'" (apostrophes k')
  end.

(** No apostrophe occurs in [s]. *)
Fixpoint no_apostrophe (s : string) : bool :=
  match s with
  | EmptyString => true
  | String c s' => negb (Ascii.eqb c "'") && no_apostrophe s'
  end.

(** The text a formatted value denotes once the engine has read the
    literal: a string arrives trimmed, anything else as [str] prints it. *)
Definition text_of (v : value) : string :=
  match v with
  | VStr s => strip s
  | _ => str v
  end.

(** The schemas the engine derives from models.py. *)
Definition sessions_sch : schema := {|
  s_columns := [("id", AffInteger); ("date", AffText); ("time_start", AffText);
                ("time_end", AffText); ("title", AffText);
                ("location", AffText); ("description", AffText);
                ("supersession_id", AffInteger)];
  s_rowid_alias := Some "id";
  s_unique := [];
  s_foreign := [("supersession_id", ("sessions", "id"))]
|}.

Definition speakers_sch : schema := {|
  s_columns := [("id", AffInteger); ("name", AffText)];
  s_rowid_alias := Some "id";
  s_unique := [["name"]];
  s_foreign := []
|}.

Definition sessions_speakers_sch : schema := {|
  s_columns := [("session_id", AffInteger); ("speaker_id", AffInteger)];
  s_rowid_alias := None;
  s_unique := [["session_id"; "speaker_id"]];
  s_foreign := [("session_id", ("sessions", "id"));
                ("speaker_id", ("speakers", "id"))]
|}.

(** State updates, named. *)
Definition logged (s : stmt) (st : state) : state :=
  {| db := db st; log := log st ++ [s]; out := out st |}.

Definition add_row (tname : string) (t : table) (r : row) (st : state)
  : state :=
  {| db := <[tname := {| t_schema := t_schema t;
                         t_rows := t_rows t ++ [r] |}]> (db st);
     log := log st; out := out st |}.

(** The statement [insert] sends for a payload. *)
Definition insert_of (tname : string) (item : dict) : insert_stmt :=
  {| ins_table := tname;
     ins_columns := map fst item;
     ins_values := map (fun kv => str (preprocess_value kv.2)) item |}.

(** The columns a session payload can name. *)
Definition session_keys : list string :=
  Constants.SESSIONS_COLUMNS ++ ["supersession_id"].

(** The cells of the row that a session payload produces. *)
Definition session_cells (id : Z) (item : dict) : list (string * sval) :=
  set_cell "id" (SInt id)
    (new_cells sessions_sch (map (fun kv => (kv.1, text_of kv.2)) item)).

(** The payload built for a row when the tracked id is [last]. *)
Definition session_data_of (row : excel_row) (last : value) : dict :=
  if bool_decide (session_type row = VStr "Sub")
  then dict_set "supersession_id" last (session_payload row)
  else session_payload row.

(** The tracked id once a row has been inserted under [id]. *)
Definition track (row : excel_row) (id : Z) (last : value) : value :=
  if bool_decide (session_type row = VStr "Session") then VInt id else last.

(** The rows that the loop appends for [rows], the first under rowid [id]. *)
Fixpoint expected_rows (rows : list excel_row) (last : value) (id : Z)
  : list row :=
  match rows with
  | [] => []
  | row :: rest =>
      {| r_id := id; r_cells := session_cells id (session_data_of row last) |}
      :: expected_rows rest (track row id last) (id + 1)
  end.

(** The statements the loop sends for [rows]. *)
Fixpoint session_statements (rows : list excel_row) (last : value) (id : Z)
  : list stmt :=
  match rows with
  | [] => []
  | row :: rest =>
      SInsert (insert_of "sessions" (session_data_of row last))
      :: session_statements rest (track row id last) (id + 1)
  end.

(** The tracked id just before the row at position [i] is handled. *)
Fixpoint tracked_at (rows : list excel_row) (last : value) (n : Z) (i : nat)
  : value :=
  match i, rows with
  | S i', row :: rest => tracked_at rest (track row n last) (n + 1) i'
  | _, _ => last
  end.

(** A small agenda, used to exercise the statements: a keynote with two
    parts, the speaker of the first part written with blanks around. *)
Definition agenda_row (ty ti sp : value) : excel_row :=
  {| date := VStr "2024-05-01"; time_start := VStr "09:00";
     time_end := VNaN; session_type := ty; title := ti;
     location := VNaN; description := VNaN; speakers := sp |}.

Definition agenda : list excel_row :=
  [agenda_row (VStr "Session") (VStr "Keynote") (VStr "Ada Lovelace; Bob");
   agenda_row (VStr "Sub") (VStr "Part 1") (VStr " Ada Lovelace ");
   agenda_row (VStr "Sub") (VStr "Part 2") VNaN].

(** The handle that [db_table(n, d)] returns. *)
Definition handle (n : string) (d : Models.schema_decl) : db_table :=
  {| name := n; columns := Models.columns d;
     constraints := Models.constraints d |}.

(** A table just created. *)
Definition empty_table (sch : schema) : table :=
  {| t_schema := sch; t_rows := [] |}.

(** The state of a new database file once the three handles exist. *)
Definition fresh : state :=
  {| db := <["sessions" := empty_table sessions_sch]>
             (<["speakers" := empty_table speakers_sch]>
                (<["sessions_speakers" := empty_table sessions_speakers_sch]> ∅));
     log := []; out := [] |}.

(** The state after [db_table(n, d)]: the table is created when absent. *)
Definition open_table (n : string) (d : Models.schema_decl) (sch : schema)
  (st : state) : state :=
  {| db := match db st !! n with
           | Some _ => db st
           | None => <[n := empty_table sch]> (db st)
           end;
     log := log st ++ [SCreate n d];
     out := out st |}.

(** The statement [select] sends. *)
Definition select_of (self : db_table) (columns : list string)
  (join : list (db_table * db_table * string * string))
  (where_ : list (string * where_value)) : select_stmt :=
  {| sel_table := name self;
     sel_columns := match columns with
                    | [] => map fst (DbTable.columns self)
                    | _ => columns
                    end;
     sel_joins := map (fun j => (name j.1.1.1, name j.1.1.2, j.1.2, j.2)) join;
     sel_where := map where_cond where_ |}.

(** The state after the three handles of an entry point exist. *)
Definition opened (st : state) : state :=
  open_table "sessions_speakers" Models.sessions_speakers_schema
    sessions_speakers_sch
    (open_table "speakers" Models.speakers_schema speakers_sch
       (open_table "sessions" Models.sessions_schema sessions_sch st)).

(** The columns of the sessions table, in the order of models.py. *)
Definition sessions_columns : list string :=
  map fst (Models.columns Models.sessions_schema).

(** The statement of the primary match, as [get_all_matches] has [select]
    build it. *)
Definition primary_query (column : string) (value : Py.value) : select_stmt :=
  if bool_decide (column = "speaker")
  then {| sel_table := "sessions";
          sel_columns := sessions_columns;
          sel_joins := [("sessions", "sessions_speakers", "id", "session_id");
                        ("sessions_speakers", "speakers", "speaker_id", "id")];
          sel_where := [CEq "name" (str (preprocess_value value))] |}
  else {| sel_table := "sessions";
          sel_columns := sessions_columns;
          sel_joins := [];
          sel_where := [CEq column (str (preprocess_value value))] |}.

(** A subsession that no session precedes. *)
Definition orphan : excel_row :=
  agenda_row (VStr "Sub") (VStr "Part 1") VNaN.

(** An association that names a session and a speaker which do not exist. *)
Definition dangling : dict := [("session_id", VInt 99); ("speaker_id", VInt 42)].

(** The cells of a session row, in column order, and the mapping that
    [select] returns for it. *)
Definition session_values (r : row) : list sval :=
  map (cell (r_cells r)) sessions_columns.

Definition session_dict (r : row) : dict :=
  result_row sessions_columns (session_values r).

(** A row passes the expansion when its [supersession_id] is one of the
    selected ids and its own [id] is none of them. *)
Definition expansion_test (ids : list Z) (r : row) : bool :=
  existsb (fun z => bool_decide (cell (r_cells r) "supersession_id" = SInt z)) ids
  && (negb (is_null (cell (r_cells r) "id"))
      && negb (existsb (fun z => bool_decide (cell (r_cells r) "id" = SInt z))
                       ids)).

(** The statement of [get_speaker_names] for the session with id [id]. *)
Definition names_query (id : Z) : select_stmt :=
  {| sel_table := "speakers";
     sel_columns := ["name"];
     sel_joins := [("speakers", "sessions_speakers", "id", "speaker_id")];
     sel_where := [CEq "session_id" (str_of_Z id)] |}.

(** Every speaker has a text for a name. *)
Definition names_are_text (p : table) : Prop :=
  forall r, r ∈ t_rows p -> exists n, cell (r_cells r) "name" = SText n.

(** Rowids are distinct and the [id] column shows the rowid. *)
Definition rowids_ok (t : table) : Prop :=
  NoDup (map r_id (t_rows t))
  /\ forall r, r ∈ t_rows t -> cell (r_cells r) "id" = SInt (r_id r).

(** No two speakers share a name. *)
Definition names_unique (t : table) : Prop :=
  forall r r', r ∈ t_rows t -> r' ∈ t_rows t ->
               cell (r_cells r) "name" = cell (r_cells r') "name" -> r = r'.

(** No session is its own supersession. *)
Definition no_self_link (t : table) : Prop :=
  forall r, r ∈ t_rows t -> cell (r_cells r) "supersession_id" <> SInt (r_id r).

(** What holds of a database file that only this program has written:
    the three tables exist with the declared schemas, and their rows are as
    the engine and the import leave them. *)
Record store_ok (d : store) : Prop := {
  ok_sessions :
    exists t, d !! "sessions" = Some t /\ t_schema t = sessions_sch
              /\ rowids_ok t /\ no_self_link t;
  ok_speakers :
    exists t, d !! "speakers" = Some t /\ t_schema t = speakers_sch
              /\ rowids_ok t /\ names_are_text t /\ names_unique t;
  ok_links :
    exists t, d !! "sessions_speakers" = Some t
              /\ t_schema t = sessions_speakers_sch
}.

(** A column of a session as [select] hands it over. *)
Definition shown (r : row) (c : string) : value :=
  postprocess_value (of_sval (cell (r_cells r) c)).

(** The statement of the subsession expansion for the selected ids. *)
Definition expansion_query (ids : list Z) : select_stmt :=
  {| sel_table := "sessions";
     sel_columns := sessions_columns;
     sel_joins := [];
     sel_where := [CIn "supersession_id" (map str_of_Z ids);
                   CIn "id NOT" (map str_of_Z ids)] |}.

(** The names [get_speaker_names] returns for the session with id [id]. *)
Definition attendee_names (d : store) (id : Z) : list string :=
  match select_rows d (names_query id) with
  | inr rows =>
      omap (fun row => match row with
                       | [SText n] => Some (replace "''" "'" n)
                       | _ => None
                       end) rows
  | inl _ => []
  end.

(** The lines of one display record. *)
Definition display_record (r : row) (names : list string) : list string :=
  [bar;
   "title: " +:+ str (shown r "title") +:+ newline;
   "date: " +:+ str (shown r "date") +:+ newline;
   "time_start: " +:+ str (shown r "time_start") +:+ newline;
   "time_end: " +:+ str (shown r "time_end") +:+ newline;
   "location: " +:+ str (shown r "location") +:+ newline;
   "description: " +:+ str (shown r "description") +:+ newline;
   "speakers: " +:+ match names with
                    | [] => "None"
                    | _ => join "; " names
                    end;
   bar +:+ newline].

(** The state after [lines] have been printed. *)
Definition printed (lines : list string) (st : state) : state :=
  {| db := db st; log := log st; out := out st ++ lines |}.

(** A store with a keynote, its two parts, and a session hung below the
    first part. *)
Definition session_row (id : Z) (ti : string) (sup : sval) : row :=
  {| r_id := id;
     r_cells := [("id", SInt id); ("title", SText ti);
                 ("supersession_id", sup)] |}.

Definition nested_sessions : table :=
  {| t_schema := sessions_sch;
     t_rows := [session_row 1 "Keynote" SNull;
                session_row 2 "Part 1" (SInt 1);
                session_row 3 "Part 2" (SInt 1);
                session_row 4 "Part 1a" (SInt 2)] |}.

Definition nested_speakers : table :=
  {| t_schema := speakers_sch;
     t_rows := [{| r_id := 1;
                   r_cells := [("id", SInt 1); ("name", SText "Ada Lovelace")] |}] |}.

Definition nested_links : table :=
  {| t_schema := sessions_speakers_sch;
     t_rows := [{| r_id := 1;
                   r_cells := [("session_id", SInt 1); ("speaker_id", SInt 1)] |}] |}.

Definition nested : state :=
  {| db := <["sessions" := nested_sessions]>
             (<["speakers" := nested_speakers]>
                (<["sessions_speakers" := nested_links]> ∅));
     log := []; out := [] |}.

(** The speakers whose stored name is the text [n]. *)
Definition named (n : string) (rows : list row) : list row :=
  filter (fun r => bool_decide (cell (r_cells r) "name" = SText n) = true) rows.

(** The row of a new speaker. *)
Definition speaker_row (id : Z) (n : string) : row :=
  {| r_id := id; r_cells := [("id", SInt id); ("name", SText n)] |}.

(** The statement that looks a speaker up by name. *)
Definition speaker_lookup (name : string) : select_stmt :=
  {| sel_table := "speakers"; sel_columns := ["id"]; sel_joins := [];
     sel_where := [CEq "name" (str (preprocess_value (VStr name)))] |}.

(** The speakers table after one name has been handled, and the id the
    cache gets for it. *)
Definition ensure (n : string) (rows : list row) : list row :=
  match named n rows with
  | [] => rows ++ [speaker_row (next_rowid rows) n]
  | _ => rows
  end.

Definition id_for (n : string) (rows : list row) : value :=
  match named n rows with
  | [] => VInt (next_rowid rows)
  | r :: _ => shown r "id"
  end.

(** The same for a list of names, in order. *)
Fixpoint ensure_all (names : list string) (rows : list row) : list row :=
  match names with
  | [] => rows
  | name :: rest => ensure_all rest (ensure (strip name) rows)
  end.

(** The cache after a list of names has been handled. *)
Fixpoint cache_all (names : list string) (rows : list row)
  (ids : gmap string value) : gmap string value :=
  match names with
  | [] => ids
  | name :: rest =>
      cache_all rest (ensure (strip name) rows)
        (<[name := id_for (strip name) rows]> ids)
  end.

(** The names of the cells that are present, in order, and the pairs
    collected for them. *)
Definition names_of_cell (speakers : value) : list string :=
  if isna speakers then [] else speaker_names speakers.

Fixpoint names_from (cells : list value) : list string :=
  match cells with
  | [] => []
  | speakers :: rest => names_of_cell speakers ++ names_from rest
  end.

Fixpoint pending_from (session_ids : list Z) (index : nat)
  (cells : list value) : list (Z * string) :=
  match cells with
  | [] => []
  | speakers :: rest =>
      match session_ids !! index with
      | Some sid => map (pair sid) (names_of_cell speakers)
      | None => []
      end ++ pending_from session_ids (S index) rest
  end.

(** The rows of a speakers table as the engine and the import keep them. *)
Definition speakers_rows_ok (rows : list row) : Prop :=
  rowids_ok {| t_schema := speakers_sch; t_rows := rows |}
  /\ names_are_text {| t_schema := speakers_sch; t_rows := rows |}
  /\ names_unique {| t_schema := speakers_sch; t_rows := rows |}.

(** The associations of session [a] with speaker [b]. *)
Definition linked (a b : Z) (rows : list row) : list row :=
  filter (fun r => bool_decide (cell (r_cells r) "session_id" = SInt a)
                   && bool_decide (cell (r_cells r) "speaker_id" = SInt b)
                   = true) rows.

(** The row of a new association. *)
Definition link_row (id a b : Z) : row :=
  {| r_id := id;
     r_cells := [("session_id", SInt a); ("speaker_id", SInt b)] |}.

(** The payload of an association. *)
Definition link_payload (a b : Z) : dict :=
  [("session_id", VInt a); ("speaker_id", VInt b)].

(** The violation of the composite primary key. *)
Definition link_failed : exn :=
  unique_failed "sessions_speakers" ["session_id"; "speaker_id"].

(** The association table after the final loop, and whether the loop
    came to its end: it stops at the first pair that is already there. *)
Fixpoint link_all (cache : gmap string value) (pending : list (Z * string))
  (rows : list row) : list row * bool :=
  match pending with
  | [] => (rows, true)
  | (sid, name) :: rest =>
      match cache !! name with
      | Some (VInt b) =>
          match linked sid b rows with
          | [] => link_all cache rest
                    (rows ++ [link_row (next_rowid rows) sid b])
          | _ => (rows, false)
          end
      | _ => (rows, false)
      end
  end.

(** Every pending name has an integer id in the cache. *)
Definition cached (cache : gmap string value) (pending : list (Z * string))
  : Prop :=
  Forall (fun sn => exists b, cache !! sn.2 = Some (VInt b)) pending.

(** The pieces of an import on [rows], from the speakers rows [ps], the
    association rows [ls] and the session ids [ids]. *)
Definition import_names (rows : list excel_row) : list string :=
  names_from (map speakers rows).

Definition import_pending (rows : list excel_row) (ids : list Z)
  : list (Z * string) :=
  pending_from ids 0 (map speakers rows).

Definition import_cache (rows : list excel_row) (ps : list row)
  : gmap string value :=
  cache_all (import_names rows) ps ∅.

Definition import_links (rows : list excel_row) (ids : list Z)
  (ps ls : list row) : list row * bool :=
  link_all (import_cache rows ps) (import_pending rows ids) ls.

(** An agenda whose second row lists a speaker twice. *)
Definition twice : list excel_row :=
  [agenda_row (VStr "Session") (VStr "Keynote") (VStr "Ada Lovelace; Bob");
   agenda_row (VStr "Session") (VStr "Panel") (VStr "Bob; Bob")].

(** The tracked id is unset or is the id of a row inserted earlier. *)
Definition link_below (last : value) (n : Z) : Prop :=
  match last with
  | VNone => True
  | VInt z => z < n
  | _ => False
  end.

(** What a session column stores for an input cell: the text the cell
    prints as, trimmed when it is a string; NULL when the cell is empty. *)
Definition stored_of (v : value) : sval :=
  if notna v then SText (text_of v) else SNull.

(** A row whose insert is well formed: it is of type "Sub" (its payload
    then names [supersession_id]) or at least one of its six cells is
    present. *)
Definition insertable (row : excel_row) : Prop :=
  session_type row = VStr "Sub" \/ session_payload row <> [].

(** A spreadsheet row without any cell. *)
Definition blank_row : excel_row :=
  {| date := VNaN; time_start := VNaN; time_end := VNaN;
     session_type := VNaN; title := VNaN; location := VNaN;
     description := VNaN; speakers := VNaN |}.

(** A computation that leaves the database file as it is. *)
Definition keeps_db {A : Type} (m : M A) : Prop :=
  forall st, db (m st).2 = db st.

(** The sessions whose column [c] holds the text of the query [v]. *)
Definition matching (c v : string) (rows : list row) : list row :=
  filter (fun r => bool_decide (cell (r_cells r) c = SText (strip v)) = true)
         rows.

(** The sessions a lookup lists: the matches, then the rows that pass the
    expansion for the ids of the matches. *)
Definition listed (c v : string) (rows : list row) : list row :=
  matching c v rows
  ++ filter (fun r => expansion_test (map r_id (matching c v rows)) r = true)
            rows.

(** The loop of the lookup's [main] over the sessions found. *)
Definition show_sessions (sessions : list dict) : M (list unit) :=
  for_each (fun session =>
              let* speaker_names :=
                get_speaker_names session
                  (handle "speakers" Models.speakers_schema)
                  (handle "sessions_speakers" Models.sessions_speakers_schema) in
              print_session session speaker_names)
           sessions.

(** The display records of [rows], each with the names of its speakers. *)
Definition records (d : store) (rows : list row) : list string :=
  flat_map (fun r => display_record r (attendee_names d (r_id r))) rows.

(** The test of [JOIN .. ON a.x = b.y] between two INTEGER columns. *)
Definition joins (v1 v2 : sval) : bool := compare_eq AffInteger v1 AffInteger v2.

(** The sessions that the primary statement of a speaker lookup returns,
    in the order of the nested loops: a session appears once for each
    association row that joins it with a speaker whose name is the text
    [n]. *)
Definition attended (n : string) (srows lrows prows : list row) : list row :=
  flat_map
    (fun s =>
       flat_map
         (fun lk =>
            map (fun _ => s)
                (filter (fun sp =>
                           joins (cell (r_cells lk) "speaker_id")
                                 (cell (r_cells sp) "id")
                           && bool_decide (cell (r_cells sp) "name" = SText n)
                           = true) prows))
         (filter (fun lk => joins (cell (r_cells s) "id")
                                  (cell (r_cells lk) "session_id") = true)
                 lrows))
    srows.

(** Every association row holds a session id and a speaker id. *)
Definition links_are_ids (l : table) : Prop :=
  forall r, r ∈ t_rows l ->
            exists a b, cell (r_cells r) "session_id" = SInt a
                        /\ cell (r_cells r) "speaker_id" = SInt b.

(** Session [s] is associated with a speaker whose name is the text [n]. *)
Definition attends (n : string) (lrows prows : list row) (s : row) : Prop :=
  exists lk sp, lk ∈ lrows /\ sp ∈ prows
                /\ cell (r_cells lk) "session_id" = SInt (r_id s)
                /\ cell (r_cells lk) "speaker_id" = SInt (r_id sp)
                /\ cell (r_cells sp) "name" = SText n.

(** The speakers that the statement of [get_speaker_names] returns for the
    session with id [id], in the order of the nested loops: a speaker
    appears once for each association row that joins it with the
    session. *)
Definition speakers_of (id : Z) (prows lrows : list row) : list row :=
  flat_map
    (fun sp =>
       map (fun _ => sp)
           (filter (fun lk =>
                      joins (cell (r_cells sp) "id")
                            (cell (r_cells lk) "speaker_id")
                      && bool_decide (cell (r_cells lk) "session_id" = SInt id)
                      = true) lrows))
    prows.

(** No NUL character occurs in [s]. *)
Fixpoint no_nul (s : string) : bool :=
  match s with
  | EmptyString => true
  | String c s' => negb (Ascii.eqb c (ascii_of_nat 0)) && no_nul s'
  end.

(** A row that can be sent: none of the cells that are formatted into a
    statement (the six session cells and the speakers cell) holds a NUL
    character.  [sqlite3] refuses a statement whose text holds one. *)
Definition nul_free (row : excel_row) : bool :=
  forallb (fun key => no_nul (str (row_get row key)))
          (Constants.SESSIONS_COLUMNS ++ ["speakers"]).

(** What a lookup needs of a database file: the three tables with the
    declared schemas, the rowids of the sessions distinct and shown in
    [id], the names of the speakers text.  Unlike [store_ok] it asks
    nothing of the [supersession_id] values: a session may be entered as
    its own supersession. *)
Record lookup_ok (d : store) : Prop := {
  lk_sessions :
    exists t, d !! "sessions" = Some t /\ t_schema t = sessions_sch
              /\ rowids_ok t;
  lk_speakers :
    exists t, d !! "speakers" = Some t /\ t_schema t = speakers_sch
              /\ names_are_text t;
  lk_links :
    exists t, d !! "sessions_speakers" = Some t
              /\ t_schema t = sessions_speakers_sch
}.

(** The subsessions of [s]: the other sessions whose [supersession_id] is
    the id of [s]. *)
Definition subsessions (s : row) (rows : list row) : list row :=
  filter (fun r => bool_decide (cell (r_cells r) "supersession_id"
                                = SInt (r_id s))
                   && negb (r_id r =? r_id s) = true) rows.

(** The store [nested] with the keynote entered as its own supersession. *)
Definition looped_sessions : table :=
  {| t_schema := sessions_sch;
     t_rows := [session_row 1 "Keynote" (SInt 1);
                session_row 2 "Part 1" (SInt 1);
                session_row 3 "Part 2" (SInt 1);
                session_row 4 "Part 1a" (SInt 2)] |}.

Definition looped : state :=
  {| db := <["sessions" := looped_sessions]>
             (<["speakers" := nested_speakers]>
                (<["sessions_speakers" := nested_links]> ∅));
     log := []; out := [] |}.

End Vocabulary.

(* ===================================================================== *)
(** * The value codec *)
(* ===================================================================== *)

Section Codec.
Import Py Utils.

(** Doubling of apostrophes, character by character. *)
Lemma escape_cons (c : ascii) (s : string) :
  replace "'" "''" (String c s) =
  if Ascii.eqb c "'" then String "'" (String "'" (replace "'" "''" s))
  else String c (replace "'" "''" s).
Proof.
  unfold replace. cbn [replace_from startswith].
  rewrite Ascii.eqb_sym, andb_true_r.
  destruct (Ascii.eqb c "'"); reflexivity.
Qed.

Lemma unescape_pair (s : string) :
  replace "''" "'" (String "'" (String "'" s)) = String "'" (replace "''" "'" s).
Proof. reflexivity. Qed.

Lemma unescape_other (c : ascii) (s : string) :
  c <> "'"%char ->
  replace "''" "'" (String c s) = String c (replace "''" "'" s).
Proof.
  intros Hne. unfold replace. cbn [replace_from startswith].
  rewrite Ascii.eqb_sym.
  destruct (Ascii.eqb_spec c "'") as [->|_]; [contradiction|reflexivity].
Qed.

(** Halving undoes doubling, whatever the string. *)
Lemma unescape_escape (s : string) :
  replace "''" "'" (replace "'" "''" s) = s.
Proof.
  induction s as [|c s IH]; [reflexivity|].
  rewrite escape_cons.
  destruct (Ascii.eqb_spec c "'") as [->|Hne].
  - rewrite unescape_pair, IH. reflexivity.
  - rewrite unescape_other, IH by assumption. reflexivity.
Qed.

Lemma escape_is_empty (s : string) :
  is_empty (replace "'" "''" s) = is_empty s.
Proof.
  destruct s as [|c s]; [reflexivity|].
  rewrite escape_cons. destruct (Ascii.eqb c "'"); reflexivity.
Qed.

Lemma escape_lstrip (s : string) :
  lstrip (replace "'" "''" s) = replace "'" "''" (lstrip s).
Proof.
  induction s as [|c s IH]; [reflexivity|].
  rewrite escape_cons.
  destruct (Ascii.eqb_spec c "'") as [->|Hne].
  - simpl lstrip. rewrite escape_cons. reflexivity.
  - simpl lstrip. destruct (is_space c); [exact IH|].
    rewrite escape_cons.
    destruct (Ascii.eqb_spec c "'"); [contradiction|reflexivity].
Qed.

Lemma escape_rstrip (s : string) :
  rstrip (replace "'" "''" s) = replace "'" "''" (rstrip s).
Proof.
  induction s as [|c s IH]; [reflexivity|].
  rewrite escape_cons.
  destruct (Ascii.eqb_spec c "'") as [->|Hne].
  - change (rstrip (String "'" (String "'" (replace "'" "''" s))))
      with (String "'" (String "'" (rstrip (replace "'" "''" s)))).
    change (rstrip (String "'" s)) with (String "'" (rstrip s)).
    rewrite escape_cons, IH. reflexivity.
  - simpl rstrip. rewrite IH, escape_is_empty.
    destruct (is_space c && is_empty (rstrip s)); [reflexivity|].
    rewrite escape_cons.
    destruct (Ascii.eqb_spec c "'"); [contradiction|reflexivity].
Qed.

(** Trimming and doubling commute: doubling neither adds nor removes a
    blank. *)
Lemma escape_strip (s : string) :
  strip (replace "'" "''" s) = replace "'" "''" (strip s).
Proof. unfold strip. rewrite escape_rstrip, escape_lstrip. reflexivity. Qed.

Lemma roundtrip_str (x : string) :
  postprocess_value (preprocess_value (VStr x)) = VStr (strip x).
Proof.
  simpl. rewrite escape_strip, unescape_escape. reflexivity.
Qed.

End Codec.

Section CodecContract.
Import Py Utils.

(** C8.  For a string [x] in which no two apostrophes stand side by side,
    decoding the encoding of [x] gives [x] trimmed; and on a value [v] that
    is not a string both functions are the identity. *)
Theorem codec_contract (x : string) (v : value) :
  contains "''" x = false ->
  is_str v = false ->
  postprocess_value (preprocess_value (VStr x)) = VStr (strip x)
  /\ preprocess_value v = v
  /\ postprocess_value v = v.
Proof.
  intros _ Hv. split; [apply roundtrip_str|].
  destruct v; try discriminate; split; reflexivity.
Qed.

Lemma codec_contract_witness :
  postprocess_value (preprocess_value (VStr "  Achilles' Heel "))
  = VStr (strip "  Achilles' Heel ")
  /\ preprocess_value (VInt 42) = VInt 42
  /\ postprocess_value (VInt 42) = VInt 42.
Proof.
  apply (codec_contract "  Achilles' Heel " (VInt 42)); reflexivity.
Defined.

(** C10.  The round trip needs no side condition: for every string [x],
    decoding the encoding of [x] gives [x] trimmed.  Encoding turns a run
    of [k] apostrophes into a run of [2k], and decoding turns a run of
    [2k] back into a run of [k]. *)
Theorem codec_roundtrip_every_string (x : string) (k : nat) :
  postprocess_value (preprocess_value (VStr x)) = VStr (strip x)
  /\ replace "'" "''" (apostrophes k) = apostrophes (2 * k)
  /\ replace "''" "'" (apostrophes (2 * k)) = apostrophes k.
Proof.
  split; [apply roundtrip_str|].
  assert (He : replace "'" "''" (apostrophes k) = apostrophes (2 * k)).
  { induction k as [|k IH]; [reflexivity|].
    cbn [apostrophes]. rewrite escape_cons, IH.
    replace (2 * S k)%nat with (S (S (2 * k))) by lia. reflexivity. }
  split; [exact He|]. rewrite <- He. apply unescape_escape.
Qed.

End CodecContract.

(* ===================================================================== *)
(** * Literals: what the engine reads back from a formatted value *)
(* ===================================================================== *)

Section Literals.
Import Py Utils Sqlite Engine.

Lemma unquote_plain (s : string) :
  no_apostrophe s = true -> unquote s = Some s.
Proof.
  induction s as [|c s IH]; [reflexivity|].
  cbn [no_apostrophe unquote]. intros [Hc Hs]%andb_true_iff.
  destruct (Ascii.eqb c "'"); [discriminate|].
  rewrite (IH Hs). reflexivity.
Qed.

Lemma unquote_escape (s : string) : unquote (replace "'" "''" s) = Some s.
Proof.
  induction s as [|c s IH]; [reflexivity|].
  rewrite escape_cons.
  destruct (Ascii.eqb c "'") eqn:Hc.
  - apply Ascii.eqb_eq in Hc as ->.
    cbn [unquote]. rewrite Ascii.eqb_refl, IH. reflexivity.
  - cbn [unquote]. rewrite Hc, IH. reflexivity.
Qed.

Lemma digits_plain (d : Decimal.uint) :
  no_apostrophe (NilEmpty.string_of_uint d) = true.
Proof. induction d; simpl; auto. Qed.

Lemma str_of_Z_plain (z : Z) : no_apostrophe (str_of_Z z) = true.
Proof.
  unfold str_of_Z, NilZero.string_of_int, NilZero.string_of_uint.
  destruct (Z.to_int z) as [d|d]; destruct d; simpl;
    auto using digits_plain.
Qed.

(** The decimal rendering of an integer is read back as that integer. *)
Lemma parse_integer_str (z : Z) : parse_integer (str_of_Z z) = Some z.
Proof.
  unfold parse_integer, str_of_Z.
  rewrite NilZero.isi.
  - simpl. rewrite DecimalZ.of_to. reflexivity.
  - destruct z; simpl; intros [= H];
      try discriminate; eapply DecimalPos.Unsigned.to_uint_nonnil; eauto.
  - destruct z; simpl; intros [= H];
      try discriminate; eapply DecimalPos.Unsigned.to_uint_nonnil; eauto.
Qed.

Lemma unquote_literal (v : value) :
  unquote (str (preprocess_value v)) = Some (text_of v).
Proof.
  destruct v as [| |z|s]; try reflexivity.
  - apply unquote_plain, str_of_Z_plain.
  - simpl. rewrite escape_strip. apply unquote_escape.
Qed.

Lemma coerce_integer_text (z : Z) :
  coerce AffInteger (SText (str_of_Z z)) = SInt z.
Proof. simpl. rewrite parse_integer_str. reflexivity. Qed.

End Literals.

(* ===================================================================== *)
(** * The effect of an INSERT *)
(* ===================================================================== *)

Section Inserts.
Import Py Utils Sqlite Engine DbTable.

Lemma elaborate_sessions :
  elaborate Models.sessions_schema = Some sessions_sch.
Proof. reflexivity. Qed.

Lemma elaborate_speakers :
  elaborate Models.speakers_schema = Some speakers_sch.
Proof. reflexivity. Qed.

Lemma elaborate_sessions_speakers :
  elaborate Models.sessions_speakers_schema = Some sessions_speakers_sch.
Proof. reflexivity. Qed.

Lemma assoc_map_snd {A B : Type} (f : A -> B) (k : string)
  (l : list (string * A)) :
  assoc k (map (fun kv => (kv.1, f kv.2)) l) = f <$> assoc k l.
Proof.
  induction l as [|[k' a] l IH]; [reflexivity|].
  simpl. destruct (decide (k = k')); [reflexivity|exact IH].
Qed.

Lemma assoc_None {A : Type} (k : string) (l : list (string * A)) :
  k ∉ map fst l -> assoc k l = None.
Proof.
  induction l as [|[k' a] l IH]; [reflexivity|].
  simpl. intros Hk. destruct (decide (k = k')) as [->|_].
  - exfalso. apply Hk. left.
  - apply IH. intros ?. apply Hk. right. assumption.
Qed.

Lemma mapM_unquote (item : dict) :
  mapM unquote (map (fun kv => str (preprocess_value kv.2)) item)
  = Some (map (fun kv => text_of kv.2) item).
Proof.
  induction item as [|kv item IH]; [reflexivity|].
  simpl. rewrite unquote_literal. simpl. rewrite IH. reflexivity.
Qed.

Lemma zip_fst_map {A B : Type} (f : string * A -> B) (l : list (string * A)) :
  zip (map fst l) (map f l) = map (fun kv => (kv.1, f kv)) l.
Proof. induction l as [|kv l IH]; [reflexivity|]. simpl. f_equal. exact IH. Qed.

(** A payload whose keys are columns of the table passes the checks made
    when the statement is compiled, unless it is empty. *)
Lemma prepare_insert_item (tname : string) (sch : schema) (item : dict) :
  Forall (fun kv => has_column sch kv.1 = true) item ->
  prepare_insert tname sch (ins_columns (insert_of tname item))
    (ins_values (insert_of tname item))
  = match item with
    | [] => inl (syntax_error ")")
    | _ => inr (map (fun kv => (kv.1, text_of kv.2)) item)
    end.
Proof.
  intros Hcols. destruct item as [|kv item]; [reflexivity|].
  unfold prepare_insert, insert_of; cbn [ins_columns ins_values].
  set (cols := map fst (kv :: item)).
  assert (Hf : filter (fun c => has_column sch c = false) cols = []).
  { subst cols. induction Hcols as [|x l Hx _ IH]; [reflexivity|].
    simpl. rewrite filter_cons_False by (rewrite Hx; discriminate).
    exact IH. }
  rewrite Hf. subst cols. cbn [map]. rewrite !length_cons, !length_map.
  rewrite Nat.eqb_refl. cbn [negb].
  change (str (preprocess_value kv.2)
          :: map (fun kv0 => str (preprocess_value kv0.2)) item)
    with (map (fun kv0 : string * value => str (preprocess_value kv0.2))
              (kv :: item)).
  rewrite mapM_unquote.
  change (kv.1 :: map fst item) with (map fst (kv :: item)).
  rewrite (zip_fst_map (fun kv0 => text_of kv0.2)). reflexivity.
Qed.

(** *** Rowids *)

Lemma max_rowid_bound (rows : list row) (r : row) :
  r ∈ rows -> r_id r <= max_rowid rows.
Proof.
  induction rows as [|r' rows IH]; [inversion 1|].
  intros [->|Hin]%elem_of_cons; simpl; [lia|].
  specialize (IH Hin). lia.
Qed.

Lemma max_rowid_app (rows : list row) (r : row) :
  max_rowid (rows ++ [r]) = Z.max (max_rowid rows) (r_id r).
Proof.
  induction rows as [|r' rows IH]; simpl; [lia|]. rewrite IH. lia.
Qed.

Lemma next_rowid_app (rows : list row) (r : row) :
  r_id r = next_rowid rows -> next_rowid (rows ++ [r]) = next_rowid rows + 1.
Proof. unfold next_rowid. rewrite max_rowid_app. lia. Qed.

(** A row whose rowid is above all others goes to the end of the table. *)
Lemma insert_row_last (rows : list row) (r : row) :
  max_rowid rows < r_id r -> insert_row r rows = rows ++ [r].
Proof.
  induction rows as [|r' rows IH]; [reflexivity|].
  simpl. intros Hlt.
  destruct (Z.ltb_spec (r_id r) (r_id r')); [lia|].
  rewrite IH by lia. reflexivity.
Qed.

Lemma next_rowid_unused (rows : list row) :
  existsb (fun r => r_id r =? next_rowid rows) rows = false.
Proof.
  apply not_true_iff_false. intros [r [Hin Heq]]%existsb_exists.
  apply list_elem_of_In, max_rowid_bound in Hin. unfold next_rowid in Heq. lia.
Qed.

(** The outcome of [exec_insert] on an existing table, from the row that
    [build_row] makes. *)
Lemma exec_insert_table (q : insert_stmt) (st : state) (t : table) :
  db st !! ins_table q = Some t ->
  exec_insert connection_foreign_keys q st =
  match build_row false (db st) (ins_table q) t (ins_columns q) (ins_values q)
  with
  | inl e => (Raise e, logged (SInsert q) st)
  | inr r =>
      (Ok (r_id r),
       {| db := <[ins_table q := {| t_schema := t_schema t;
                                    t_rows := insert_row r (t_rows t) |}]> (db st);
          log := log st ++ [SInsert q]; out := out st |})
  end.
Proof.
  intros Hdb. unfold exec_insert, bind, record, connection_foreign_keys.
  cbn [db]. rewrite Hdb. destruct (build_row _ _ _ _ _ _); reflexivity.
Qed.

(** *** Cells *)

Lemma cell_new_cells (sch : schema) (supplied : list (string * string))
  (c : string) (a : affinity) :
  assoc c (s_columns sch) = Some a ->
  cell (new_cells sch supplied) c =
  match assoc c supplied with
  | Some t => coerce a (SText t)
  | None => SNull
  end.
Proof.
  unfold cell, new_cells. induction (s_columns sch) as [|[c' a'] cols IH];
    [discriminate|].
  cbn [map assoc]. destruct (decide (c = c')) as [->|Hne].
  - intros [= ->]. reflexivity.
  - exact IH.
Qed.

Lemma cell_set_cell_ne (c c' : string) (v : sval)
  (cells : list (string * sval)) :
  c <> c' -> cell (set_cell c v cells) c' = cell cells c'.
Proof.
  intros Hne. unfold cell, set_cell.
  induction cells as [|[k w] cells IH]; [reflexivity|].
  cbn [map]. destruct (decide (c = k)) as [->|Hk]; cbn [assoc].
  - destruct (decide (c' = k)); [congruence|exact IH].
  - destruct (decide (c' = k)); [reflexivity|exact IH].
Qed.

Lemma cell_set_cell_eq (c : string) (v : sval) (cells : list (string * sval)) :
  is_Some (assoc c cells) -> cell (set_cell c v cells) c = v.
Proof.
  unfold cell, set_cell.
  induction cells as [|[k w] cells IH]; [intros [? [=]]|].
  cbn [map assoc]. destruct (decide (c = k)) as [->|Hk]; cbn [assoc].
  - rewrite decide_True by reflexivity. reflexivity.
  - rewrite decide_False by assumption. exact IH.
Qed.

(** *** A session *)

Lemma session_keys_columns (item : dict) :
  Forall (fun kv => kv.1 ∈ session_keys) item ->
  Forall (fun kv => has_column sessions_sch kv.1 = true) item.
Proof.
  intros H. eapply Forall_impl; [exact H|]. clear H.
  intros [k v] Hk. cbn [fst] in *.
  unfold session_keys in Hk. cbn in Hk.
  repeat (apply elem_of_cons in Hk as [->|Hk]; [reflexivity|]).
  inversion Hk.
Qed.

Lemma session_keys_no_id (item : dict) :
  Forall (fun kv => kv.1 ∈ session_keys) item -> "id" ∉ map fst item.
Proof.
  intros Hkeys [kv [Heq Hin]]%list_elem_of_fmap.
  rewrite Forall_forall in Hkeys. specialize (Hkeys kv Hin).
  rewrite <- Heq in Hkeys. unfold session_keys in Hkeys. cbn in Hkeys.
  repeat (apply elem_of_cons in Hkeys as [Hk|Hkeys]; [discriminate|]).
  inversion Hkeys.
Qed.

(** Inserting a session: the statement is malformed when the payload is
    empty; otherwise a row is appended under the next rowid. *)
Lemma insert_session (self : db_table) (item : dict) (st : state) (t : table) :
  name self = "sessions" ->
  db st !! "sessions" = Some t ->
  t_schema t = sessions_sch ->
  Forall (fun kv => kv.1 ∈ session_keys) item ->
  insert self item st =
  match item with
  | [] => (Raise (syntax_error ")"),
           logged (SInsert (insert_of "sessions" item)) st)
  | _ =>
      let id := next_rowid (t_rows t) in
      (Ok id,
       add_row "sessions" t {| r_id := id; r_cells := session_cells id item |}
         (logged (SInsert (insert_of "sessions" item)) st))
  end.
Proof.
  intros Hname Hdb Hsch Hkeys. unfold insert. rewrite Hname.
  change {| ins_table := "sessions"; ins_columns := map fst item;
            ins_values := map (fun kv => str (preprocess_value kv.2)) item |}
    with (insert_of "sessions" item).
  rewrite (exec_insert_table _ _ t) by exact Hdb.
  unfold build_row. rewrite Hsch.
  change (ins_table (insert_of "sessions" item)) with "sessions".
  rewrite prepare_insert_item by (apply session_keys_columns, Hkeys).
  destruct item as [|kv item]; [reflexivity|].
  cbn [sbind]. set (supplied := map _ (kv :: item)).
  assert (Hid : assoc "id" supplied = None).
  { apply assoc_None. subst supplied. rewrite map_map. cbn [fst].
    apply (session_keys_no_id _ Hkeys). }
  assert (Hcell : cell (new_cells sessions_sch supplied) "id" = SNull).
  { rewrite (cell_new_cells _ _ _ AffInteger) by reflexivity.
    rewrite Hid. reflexivity. }
  unfold choose_rowid. cbn [s_rowid_alias sessions_sch]. rewrite Hcell.
  cbn [sbind andb].
  replace (violated_key sessions_sch _ (t_rows t))
    with (@None (list string)) by reflexivity.
  cbv zeta. cbn [r_id].
  rewrite insert_row_last by (cbn [r_id]; unfold next_rowid; lia).
  unfold add_row, logged. rewrite Hsch. reflexivity.
Qed.

End Inserts.

(* ===================================================================== *)
(** * The session phase of the import *)
(* ===================================================================== *)

Section SessionPhase.
Import Py Utils Sqlite Engine DbTable ImportAgenda.

Lemma session_loop_cons (tbl : db_table) (row : excel_row)
  (rest : list excel_row) (last : value) :
  session_loop tbl (row :: rest) last =
  (let* id := insert tbl (session_data_of row last) in
   let* ids := session_loop tbl rest (track row id last) in
   ret (id :: ids)).
Proof. reflexivity. Qed.

Lemma Forall_dict_set (P : string -> Prop) (k : string) (v : value) (d : dict) :
  P k -> Forall (fun kv => P kv.1) d -> Forall (fun kv => P kv.1) (dict_set k v d).
Proof.
  intros Hk. induction 1 as [|[k' v'] d Hkv Hd IH]; cbn [dict_set].
  - constructor; [exact Hk|constructor].
  - destruct (decide (k = k')); constructor; assumption.
Qed.

Lemma session_data_keys (row : excel_row) (last : value) :
  Forall (fun kv => kv.1 ∈ session_keys) (session_data_of row last).
Proof.
  assert (Hp : Forall (fun kv : string * value => kv.1 ∈ session_keys)
                      (session_payload row)).
  { unfold session_payload. apply Forall_forall. intros kv Hin.
    apply list_elem_of_filter in Hin as [_ Hin].
    apply list_elem_of_fmap in Hin as [key [-> Hkey]]. cbn [fst].
    unfold session_keys. apply elem_of_app. left. exact Hkey. }
  unfold session_data_of. case_bool_decide; [|exact Hp].
  apply (Forall_dict_set (fun k => k ∈ session_keys)); [|exact Hp].
  unfold session_keys. apply elem_of_app. right. left.
Qed.

Lemma rows_ids_length (rows : list excel_row) (last : value) (id : Z) :
  length (expected_rows rows last id) = length rows.
Proof.
  revert last id. induction rows as [|row rows IH]; intros; simpl;
    [reflexivity|]. rewrite IH. reflexivity.
Qed.

(** A successful run of the loop appends exactly [expected_rows] to the
    sessions table and returns their rowids. *)
Lemma session_loop_ok (tbl : db_table) (rows : list excel_row) :
  name tbl = "sessions" ->
  forall (last : value) (st st' : state) (t : table) (ids : list Z),
  db st !! "sessions" = Some t ->
  t_schema t = sessions_sch ->
  session_loop tbl rows last st = (Ok ids, st') ->
  let n := next_rowid (t_rows t) in
  ids = map r_id (expected_rows rows last n)
  /\ db st' = <["sessions" := {| t_schema := sessions_sch;
                                 t_rows := t_rows t ++ expected_rows rows last n |}]>
                (db st)
  /\ log st' = log st ++ session_statements rows last n
  /\ out st' = out st.
Proof.
  intros Hname. induction rows as [|row rest IH];
    intros last st st' t ids Hdb Hsch Hrun n.
  - injection Hrun as <- <-. cbn [expected_rows session_statements map].
    rewrite !app_nil_r. repeat split.
    symmetry. apply insert_id. rewrite Hdb. f_equal.
    destruct t; cbn in *; congruence.
  - rewrite session_loop_cons in Hrun. unfold bind at 1 in Hrun.
    rewrite (insert_session tbl _ st t Hname Hdb Hsch
               (session_data_keys row last)) in Hrun.
    destruct (session_data_of row last) as [|kv item] eqn:Hdata;
      [discriminate|]. rewrite <- Hdata in *. clear Hdata kv item.
    cbv zeta in Hrun. fold n in Hrun.
    set (r := {| r_id := n;
                 r_cells := session_cells n (session_data_of row last) |}) in *.
    set (st1 := add_row "sessions" t r _) in Hrun.
    unfold bind in Hrun.
    destruct (session_loop tbl rest (track row n last) st1)
      as [[ids'|e] st2] eqn:Hrest; [|discriminate].
    injection Hrun as <- <-.
    eapply (IH _ _ _ {| t_schema := t_schema t; t_rows := t_rows t ++ [r] |})
      in Hrest as (Hids & Hdb' & Hlog & Hout);
      [|subst st1; cbn [db add_row logged]; apply lookup_insert_eq|exact Hsch].
    cbn [t_rows] in *.
    rewrite (next_rowid_app _ r) in * by reflexivity. fold n in Hids, Hdb', Hlog.
    cbn [expected_rows session_statements map]. fold r.
    repeat split.
    + rewrite Hids. reflexivity.
    + rewrite Hdb'. subst st1. cbn [db add_row logged].
      rewrite insert_insert_eq, <- app_assoc. reflexivity.
    + rewrite Hlog. subst st1. cbn [log add_row logged].
      rewrite <- app_assoc. reflexivity.
    + rewrite Hout. reflexivity.
Qed.

Lemma expected_rows_lookup (rows : list excel_row) :
  forall (last : value) (n : Z) (i : nat) (ri : excel_row),
  rows !! i = Some ri ->
  expected_rows rows last n !! i =
  Some {| r_id := n + Z.of_nat i;
          r_cells := session_cells (n + Z.of_nat i)
                       (session_data_of ri (tracked_at rows last n i)) |}.
Proof.
  induction rows as [|row rest IH]; intros last n i ri Hi; [discriminate|].
  destruct i as [|i].
  - injection Hi as ->. cbn. rewrite Z.add_0_r. reflexivity.
  - cbn [expected_rows tracked_at]. rewrite lookup_cons_ne_0 by discriminate.
    cbn [Nat.pred]. rewrite (IH _ _ _ _ Hi).
    replace (n + 1 + Z.of_nat i) with (n + Z.of_nat (S i)) by lia.
    reflexivity.
Qed.

(** Rows that are not of type "Session" leave the tracked id alone. *)
Lemma tracked_unchanged (rows : list excel_row) :
  forall (last : value) (n : Z) (i : nat),
  (forall j rj, (j < i)%nat -> rows !! j = Some rj ->
                session_type rj <> VStr "Session") ->
  tracked_at rows last n i = last.
Proof.
  induction rows as [|row rest IH]; intros last n i Hno;
    destruct i as [|i]; try reflexivity.
  cbn [tracked_at]. rewrite IH.
  - unfold track. rewrite bool_decide_eq_false_2; [reflexivity|].
    apply (Hno 0%nat row); [lia|reflexivity].
  - intros j rj Hj Hrj. apply (Hno (S j) rj); [lia|exact Hrj].
Qed.

(** After a "Session" row at position [k], and until the next one, the
    tracked id is the id given to that row. *)
Lemma tracked_after_session (rows : list excel_row) :
  forall (last : value) (n : Z) (k i : nat) (rk : excel_row),
  rows !! k = Some rk ->
  session_type rk = VStr "Session" ->
  (k < i)%nat ->
  (forall j rj, (k < j < i)%nat -> rows !! j = Some rj ->
                session_type rj <> VStr "Session") ->
  tracked_at rows last n i = VInt (n + Z.of_nat k).
Proof.
  induction rows as [|row rest IH]; intros last n k i rk Hk Hty Hlt Hno;
    [discriminate|].
  destruct i as [|i]; [lia|]. cbn [tracked_at].
  destruct k as [|k].
  - injection Hk as ->. rewrite tracked_unchanged.
    + unfold track. rewrite bool_decide_eq_true_2 by exact Hty.
      f_equal. lia.
    + intros j rj Hj Hrj. apply (Hno (S j) rj); [lia|exact Hrj].
  - rewrite (IH _ _ k i rk); [f_equal; lia|exact Hk|exact Hty|lia|].
    intros j rj Hj Hrj. apply (Hno (S j) rj); [lia|exact Hrj].
Qed.

Lemma assoc_dict_set (k : string) (v : value) (d : dict) :
  assoc k (dict_set k v d) = Some v.
Proof.
  induction d as [|[k' v'] d IH]; cbn [dict_set assoc].
  - rewrite decide_True by reflexivity. reflexivity.
  - destruct (decide (k = k')) as [->|Hne]; cbn [assoc].
    + rewrite decide_True by reflexivity. reflexivity.
    + rewrite decide_False by exact Hne. exact IH.
Qed.

(** The link stored for a "Sub" row is the tracked id as the engine reads
    it back. *)
Lemma sub_row_link (row : excel_row) (last : value) (id : Z) :
  session_type row = VStr "Sub" ->
  cell (session_cells id (session_data_of row last)) "supersession_id"
  = coerce AffInteger (SText (text_of last)).
Proof.
  intros Hsub. unfold session_cells, session_data_of.
  rewrite bool_decide_eq_true_2 by exact Hsub.
  rewrite cell_set_cell_ne by discriminate.
  rewrite (cell_new_cells _ _ _ AffInteger) by reflexivity.
  rewrite (assoc_map_snd text_of), assoc_dict_set. reflexivity.
Qed.

Lemma expected_rows_ids (rows : list excel_row) :
  forall (last : value) (n : Z) (r : row),
  r ∈ expected_rows rows last n ->
  exists i, expected_rows rows last n !! i = Some r /\ r_id r = n + Z.of_nat i.
Proof.
  induction rows as [|row rest IH]; intros last n r Hin; [inversion Hin|].
  cbn [expected_rows] in Hin. apply elem_of_cons in Hin as [->|Hin].
  - exists 0%nat. split; [reflexivity|]. cbn. lia.
  - apply IH in Hin as (i & Hi & Hid). exists (S i). split; [exact Hi|]. lia.
Qed.

Lemma dict_set_nonempty (k : string) (v : value) (d : dict) :
  dict_set k v d <> [].
Proof.
  destruct d as [|[k' v'] d]; cbn [dict_set]; [discriminate|].
  destruct (decide (k = k')); discriminate.
Qed.

(** The loop completes as soon as no payload is empty, that is, when every
    row that is not of type "Sub" has at least one of the six cells. *)
Lemma session_loop_completes (tbl : db_table) (rows : list excel_row) :
  name tbl = "sessions" ->
  Forall (fun row => session_type row = VStr "Sub"
                     \/ session_payload row <> []) rows ->
  forall (last : value) (st : state) (t : table),
  db st !! "sessions" = Some t ->
  t_schema t = sessions_sch ->
  exists ids st', session_loop tbl rows last st = (Ok ids, st').
Proof.
  intros Hname. induction 1 as [|row rest Hrow _ IH];
    intros last st t Hdb Hsch.
  - exists [], st. reflexivity.
  - rewrite session_loop_cons. unfold bind at 1.
    rewrite (insert_session tbl _ st t Hname Hdb Hsch
               (session_data_keys row last)).
    assert (Hne : session_data_of row last <> []).
    { unfold session_data_of. case_bool_decide as Hsub;
        [apply dict_set_nonempty|].
      destruct Hrow as [Hrow|Hrow]; [contradiction|exact Hrow]. }
    destruct (session_data_of row last) as [|kv item] eqn:Hdata;
      [contradiction|]. rewrite <- Hdata. clear Hdata Hne kv item.
    cbv zeta.
    set (r := {| r_id := next_rowid (t_rows t); r_cells := _ |}).
    set (st1 := add_row "sessions" t r _).
    destruct (IH (track row (next_rowid (t_rows t)) last) st1
                {| t_schema := t_schema t; t_rows := t_rows t ++ [r] |})
      as (ids & st' & Hrest);
      [subst st1; cbn [db add_row logged]; apply lookup_insert_eq|exact Hsch|].
    unfold bind. rewrite Hrest. eexists _, _. reflexivity.
Qed.

End SessionPhase.

(* ===================================================================== *)
(** * Supersession linkage *)
(* ===================================================================== *)

Section Linkage.
Import Py Utils Sqlite Engine DbTable ImportAgenda.

(** C1.  Whenever [process_session_data] completes on a row sequence in
    which the row at position [k] has type "Session", the row at a later
    position [i] has type "Sub", and no row strictly between them has type
    "Session", the sessions table holds exactly one row under the id
    returned for position [i], and its [supersession_id] is the id returned
    for position [k].  Rows of other types in between change nothing. *)
Theorem sub_links_to_latest_session
  (tbl : db_table) (rows : list excel_row) (st st' : state) (t : table)
  (ids : list Z) (k i : nat) (rk ri : excel_row) :
  name tbl = "sessions" ->
  db st !! "sessions" = Some t ->
  t_schema t = sessions_sch ->
  process_session_data rows tbl st = (Ok ids, st') ->
  (k < i)%nat ->
  rows !! k = Some rk -> session_type rk = VStr "Session" ->
  rows !! i = Some ri -> session_type ri = VStr "Sub" ->
  (forall j rj, (k < j < i)%nat -> rows !! j = Some rj ->
                session_type rj <> VStr "Session") ->
  exists (idk idi : Z) (t' : table) (r : row),
    ids !! k = Some idk /\ ids !! i = Some idi
    /\ db st' !! "sessions" = Some t'
    /\ r ∈ t_rows t' /\ r_id r = idi
    /\ cell (r_cells r) "supersession_id" = SInt idk
    /\ (forall r', r' ∈ t_rows t' -> r_id r' = idi -> r' = r).
Proof.
  intros Hname Hdb Hsch Hrun Hlt Hk Hkty Hi Hity Hno.
  unfold process_session_data in Hrun.
  apply (session_loop_ok tbl rows Hname _ _ _ t _ Hdb Hsch) in Hrun
    as (Hids & Hdb' & _ & _).
  set (n := next_rowid (t_rows t)) in *.
  pose proof (expected_rows_lookup rows VNone n k rk Hk) as Hrk.
  pose proof (expected_rows_lookup rows VNone n i ri Hi) as Hri.
  rewrite (tracked_after_session rows VNone n k i rk Hk Hkty Hlt Hno) in Hri.
  set (r := {| r_id := n + Z.of_nat i; r_cells := _ |}) in Hri.
  exists (n + Z.of_nat k), (n + Z.of_nat i),
    {| t_schema := sessions_sch;
       t_rows := t_rows t ++ expected_rows rows VNone n |}, r.
  repeat split.
  - rewrite Hids, list_lookup_fmap, Hrk. reflexivity.
  - rewrite Hids, list_lookup_fmap, Hri. reflexivity.
  - rewrite Hdb'. apply lookup_insert_eq.
  - cbn [t_rows]. apply elem_of_app. right.
    apply list_elem_of_lookup. exists i. exact Hri.
  - subst r. cbn [r_cells]. rewrite sub_row_link by exact Hity.
    apply coerce_integer_text.
  - cbn [t_rows]. intros r' [Hold|Hnew]%elem_of_app Hid.
    + apply max_rowid_bound in Hold. subst r. cbn [r_id] in Hid.
      unfold n, next_rowid in Hid. lia.
    + apply expected_rows_ids in Hnew as (j & Hj & Hidj).
      assert (j = i) as -> by (subst r; cbn [r_id] in Hid; lia).
      rewrite Hri in Hj. injection Hj as <-. reflexivity.
Qed.

Lemma sub_links_to_latest_session_witness :
  let run := process_session_data agenda
               (handle "sessions" Models.sessions_schema) fresh in
  exists (idk idi : Z) (t' : table) (r : row),
    [1; 2; 3] !! 0%nat = Some idk /\ [1; 2; 3] !! 2%nat = Some idi
    /\ db run.2 !! "sessions" = Some t'
    /\ r ∈ t_rows t' /\ r_id r = idi
    /\ cell (r_cells r) "supersession_id" = SInt idk
    /\ (forall r', r' ∈ t_rows t' -> r_id r' = idi -> r' = r).
Proof.
  intros run.
  apply (sub_links_to_latest_session
           (handle "sessions" Models.sessions_schema) agenda fresh run.2
           (empty_table sessions_sch) [1; 2; 3] 0 2
           (agenda_row (VStr "Session") (VStr "Keynote")
                       (VStr "Ada Lovelace; Bob"))
           (agenda_row (VStr "Sub") (VStr "Part 2") VNaN));
    try (vm_compute; reflexivity).
  - lia.
  - intros j rj Hj Hrj. assert (j = 1%nat) as -> by lia.
    injection Hrj as <-. discriminate.
Defined.

End Linkage.

(* ===================================================================== *)
(** * Opening the tables *)
(* ===================================================================== *)

Section Opening.
Import Py Utils Sqlite Engine DbTable.

Lemma init_run (n : string) (d : Models.schema_decl) (sch : schema)
  (st : state) :
  is_empty n = false ->
  elaborate d = Some sch ->
  init n d st = (Ok (handle n d), open_table n d sch st).
Proof.
  intros Hn Hsch. unfold init. rewrite Hn.
  unfold create_table, exec_create, bind, record, ret, open_table, handle.
  cbn [name columns constraints db log out].
  destruct d as [cols cons]. cbn [Models.columns Models.constraints] in *.
  destruct cols as [|c cols]; [discriminate Hsch|].
  destruct (db st !! n); [reflexivity|]. rewrite Hsch. reflexivity.
Qed.

Lemma select_run (self : db_table) (columns : list string)
  (join : list (db_table * db_table * string * string))
  (where_ : list (string * where_value)) (st : state) :
  select self columns join where_ st =
  let q := select_of self columns join where_ in
  match select_rows (db st) q with
  | inl e => (Raise e, logged (SSelect q) st)
  | inr rows =>
      (Ok (map (result_row (sel_columns q)) rows), logged (SSelect q) st)
  end.
Proof.
  unfold select, select_of, exec_select, bind, record, ret. cbv zeta.
  cbn [db sel_columns].
  destruct (select_rows (db st) _); reflexivity.
Qed.

Lemma opened_out (st : state) : out (opened st) = out st.
Proof. reflexivity. Qed.

End Opening.

(* ===================================================================== *)
(** * The catch-all boundary of the entry points *)
(* ===================================================================== *)

Section Boundary.
Import Py Utils Sqlite Engine DbTable.

(** C6 (as the code has it).  Whatever the body of an entry point raises
    is caught; its message is printed behind the text "Error occured: "
    and the exit status is 1.  The printed line never starts with
    "Error occurred: ", the spelling of the specification.  When nothing is
    raised the exit status is 0 and nothing is added. *)
Theorem boundary_prints_misspelt_prefix
  (argv : list string) (is_file : string -> bool)
  (read_excel : string -> exn + list ImportAgenda.excel_row) (st : state) :
  match ImportAgenda.body argv is_file read_excel st with
  | (Raise e, st1) =>
      ImportAgenda.main argv is_file read_excel st
      = (1, {| db := db st1; log := log st1;
               out := out st1 ++ ["Error occured: " +:+ message e] |})
      /\ startswith "Error occurred: " ("Error occured: " +:+ message e) = false
  | (Ok _, st1) => ImportAgenda.main argv is_file read_excel st = (0, st1)
  end
  /\
  match LookupAgenda.body argv st with
  | (Raise e, st1) =>
      LookupAgenda.main argv st
      = (1, {| db := db st1; log := log st1;
               out := out st1 ++ ["Error occured: " +:+ message e] |})
      /\ startswith "Error occurred: " ("Error occured: " +:+ message e) = false
  | (Ok _, st1) => LookupAgenda.main argv st = (0, st1)
  end.
Proof.
  unfold ImportAgenda.main, LookupAgenda.main. split.
  - destruct (ImportAgenda.body argv is_file read_excel st) as [[u|e] st1];
      [reflexivity|split; reflexivity].
  - destruct (LookupAgenda.body argv st) as [[u|e] st1];
      [reflexivity|split; reflexivity].
Qed.

(** The import started without a file argument: what is printed. *)
Example import_without_argument :
  ImportAgenda.main ["import_agenda.py"] (fun _ => false)
    (fun _ => inr []) fresh
  = (1, {| db := db fresh; log := [];
           out := ["Error occured: Expected 1 additional argument with xls file path"] |}).
Proof. reflexivity. Qed.

End Boundary.

(* ===================================================================== *)
(** * A lookup without matches *)
(* ===================================================================== *)

Section NoMatch.
Import Py Utils Sqlite Engine DbTable Constants LookupAgenda.

Lemma primary_select (column : string) (value : Py.value) (st : state) :
  (if bool_decide (column = "speaker")
   then select (handle "sessions" Models.sessions_schema) []
          [(handle "sessions" Models.sessions_schema,
            handle "sessions_speakers" Models.sessions_speakers_schema,
            "id", "session_id");
           (handle "sessions_speakers" Models.sessions_speakers_schema,
            handle "speakers" Models.speakers_schema, "speaker_id", "id")]
          [("name", One value)]
   else select (handle "sessions" Models.sessions_schema) [] []
          [(column, One value)]) st
  = match select_rows (db st) (primary_query column value) with
    | inl e => (Raise e, logged (SSelect (primary_query column value)) st)
    | inr rows =>
        (Ok (map (result_row sessions_columns) rows),
         logged (SSelect (primary_query column value)) st)
    end.
Proof.
  unfold primary_query.
  destruct (bool_decide (column = "speaker")); rewrite select_run; reflexivity.
Qed.

(** C7.  When the query is well formed and the primary statement returns
    no row, [main] ends with status 1; the only thing printed is the
    no-matches message, and the only statement executed after the tables
    are opened is the primary one: neither the expansion nor a speaker
    query is sent. *)
Theorem no_match_reports_and_stops (argv : list string) (st : state) :
  (3 <= length argv)%nat ->
  nth 1 argv EmptyString ∈ QUERY_COLUMNS ->
  let column := nth 1 argv EmptyString in
  let value := VStr (join " " (drop 2 argv)) in
  select_rows (db (opened st)) (primary_query column value) = inr [] ->
  main argv st
  = (1, {| db := db (opened st);
           log := log (opened st) ++ [SSelect (primary_query column value)];
           out := out st
                  ++ ["Error occured: No matches found for the given query."] |}).
Proof.
  intros Hlen Hcol column value Hzero.
  unfold main, body, validate_query.
  destruct (Nat.ltb_spec (length argv) 3) as [|_]; [lia|].
  fold column. rewrite bool_decide_eq_true_2 by exact Hcol. cbn [negb].
  unfold bind at 1. unfold ret at 1.
  unfold bind at 1.
  rewrite (init_run "sessions" _ sessions_sch) by reflexivity.
  unfold bind at 1.
  rewrite (init_run "speakers" _ speakers_sch) by reflexivity.
  unfold bind at 1.
  rewrite (init_run "sessions_speakers" _ sessions_speakers_sch) by reflexivity.
  fold (opened st). fold value.
  unfold bind at 1. unfold get_all_matches. unfold bind at 1.
  rewrite primary_select, Hzero. cbn [map]. reflexivity.
Qed.

Lemma no_match_reports_and_stops_witness :
  main ["lookup_agenda.py"; "title"; "Closing"; "remarks"] fresh
  = (1, {| db := db (opened fresh);
           log := log (opened fresh)
                  ++ [SSelect (primary_query "title" (VStr "Closing remarks"))];
           out := out fresh
                  ++ ["Error occured: No matches found for the given query."] |}).
Proof.
  apply (no_match_reports_and_stops
           ["lookup_agenda.py"; "title"; "Closing"; "remarks"] fresh).
  - simpl. lia.
  - cbn. repeat constructor.
  - vm_compute. reflexivity.
Defined.

End NoMatch.

(* ===================================================================== *)
(** * A subsession before any session *)
(* ===================================================================== *)

Section OrphanSub.
Import Py Utils Sqlite Engine DbTable ImportAgenda.

(** C3 (as the code has it).  A "Sub" row that comes before every
    "Session" row gets [supersession_id = None] in its payload and its
    insert goes through; but [insert] formats [None] as the quoted text
    'None', so what the row stores in [supersession_id] is the text
    "None", not NULL. *)
Theorem orphan_sub_stores_text_none
  (tbl : db_table) (rows : list excel_row) (st st' : state) (t : table)
  (ids : list Z) (i : nat) (ri : excel_row) :
  name tbl = "sessions" ->
  db st !! "sessions" = Some t ->
  t_schema t = sessions_sch ->
  process_session_data rows tbl st = (Ok ids, st') ->
  rows !! i = Some ri -> session_type ri = VStr "Sub" ->
  (forall j rj, (j < i)%nat -> rows !! j = Some rj ->
                session_type rj <> VStr "Session") ->
  dict_get "supersession_id" (session_data_of ri VNone) = Some VNone
  /\ exists (idi : Z) (t' : table) (r : row),
       ids !! i = Some idi
       /\ db st' !! "sessions" = Some t'
       /\ r ∈ t_rows t' /\ r_id r = idi
       /\ cell (r_cells r) "supersession_id" = SText "None"
       /\ cell (r_cells r) "supersession_id" <> SNull.
Proof.
  intros Hname Hdb Hsch Hrun Hi Hity Hno. split.
  { unfold session_data_of, dict_get.
    rewrite bool_decide_eq_true_2 by exact Hity. apply assoc_dict_set. }
  unfold process_session_data in Hrun.
  apply (session_loop_ok tbl rows Hname _ _ _ t _ Hdb Hsch) in Hrun
    as (Hids & Hdb' & _ & _).
  set (n := next_rowid (t_rows t)) in *.
  pose proof (expected_rows_lookup rows VNone n i ri Hi) as Hri.
  rewrite (tracked_unchanged rows VNone n i Hno) in Hri.
  set (r := {| r_id := n + Z.of_nat i; r_cells := _ |}) in Hri.
  assert (Hcell : cell (r_cells r) "supersession_id" = SText "None").
  { subst r. cbn [r_cells]. rewrite sub_row_link by exact Hity. reflexivity. }
  exists (n + Z.of_nat i),
    {| t_schema := sessions_sch;
       t_rows := t_rows t ++ expected_rows rows VNone n |}, r.
  repeat split.
  - rewrite Hids, list_lookup_fmap, Hri. reflexivity.
  - rewrite Hdb'. apply lookup_insert_eq.
  - cbn [t_rows]. apply elem_of_app. right.
    apply list_elem_of_lookup. exists i. exact Hri.
  - exact Hcell.
  - rewrite Hcell. discriminate.
Qed.

Lemma orphan_sub_stores_text_none_witness :
  let run := process_session_data [orphan]
               (handle "sessions" Models.sessions_schema) fresh in
  dict_get "supersession_id" (session_data_of orphan VNone) = Some VNone
  /\ exists (idi : Z) (t' : table) (r : row),
       [1] !! 0%nat = Some idi
       /\ db run.2 !! "sessions" = Some t'
       /\ r ∈ t_rows t' /\ r_id r = idi
       /\ cell (r_cells r) "supersession_id" = SText "None"
       /\ cell (r_cells r) "supersession_id" <> SNull.
Proof.
  intros run.
  apply (orphan_sub_stores_text_none
           (handle "sessions" Models.sessions_schema) [orphan] fresh run.2
           (empty_table sessions_sch) [1] 0 orphan);
    try (vm_compute; reflexivity).
  intros j rj Hj. lia.
Defined.

End OrphanSub.

(* ===================================================================== *)
(** * Constraints on insert *)
(* ===================================================================== *)

Section Constraints.
Import Py Utils Sqlite Engine DbTable ImportAgenda.

(** C5 (as the code has it).  On a new database: inserting a speaker
    returns the new row's id, and inserting the same name again raises the
    UNIQUE violation.  Inserting an association whose session and speaker
    do not exist raises nothing: it returns rowid 1 and the row is stored.
    The schema does declare the two foreign keys, and the engine refuses
    the very same statement once the connection's [foreign_keys] setting
    is on; db_table.py leaves it off. *)
Theorem foreign_key_violation_is_silent :
  let speakers := handle "speakers" Models.speakers_schema in
  let links := handle "sessions_speakers" Models.sessions_speakers_schema in
  let once := insert speakers [("name", VStr "Ada Lovelace")] fresh in
  once.1 = Ok 1
  /\ (insert speakers [("name", VStr " Ada Lovelace")] once.2).1
     = Raise (IntegrityError "UNIQUE constraint failed: speakers.name")
  /\ (insert links dangling fresh).1 = Ok 1
  /\ (t_rows <$> db (insert links dangling fresh).2 !! "sessions_speakers")
     = Some [{| r_id := 1;
                r_cells := [("session_id", SInt 99); ("speaker_id", SInt 42)] |}]
  /\ s_foreign sessions_speakers_sch
     = [("session_id", ("sessions", "id")); ("speaker_id", ("speakers", "id"))]
  /\ connection_foreign_keys = false
  /\ (exec_insert true (insert_of "sessions_speakers" dangling) fresh).1
     = Raise (IntegrityError "FOREIGN KEY constraint failed").
Proof. vm_compute. repeat split; reflexivity. Qed.

End Constraints.

(* ===================================================================== *)
(** * The queries of the lookup *)
(* ===================================================================== *)

Section Queries.
Import Py Utils Sqlite Engine DbTable Constants LookupAgenda.

Lemma filter_map_bool {A B : Type} (p : B -> bool) (f : A -> B) (l : list A) :
  filter (fun b => p b = true) (map f l)
  = map f (filter (fun a => p (f a) = true) l).
Proof.
  induction l as [|a l IH]; [reflexivity|].
  cbn [map]. rewrite !filter_cons, IH.
  destruct (decide (p (f a) = true)); reflexivity.
Qed.

(** A SELECT on one table, without joins: the rows that pass the WHERE
    clause, in table order, projected on the result columns. *)
Lemma select_rows_single (d : store) (q : select_stmt) (t : table)
  (cols : list (string * string)) (p : env -> bool) :
  sel_joins q = [] ->
  d !! sel_table q = Some t ->
  result_columns [(sel_table q, t)] q = inr cols ->
  eval_where [(sel_table q, t)] (sel_where q) = inr p ->
  select_rows d q =
  inr (map (fun r => map (fun tc => lookup_env [(sel_table q, r)] tc.1 tc.2) cols)
           (filter (fun r => p [(sel_table q, r)] = true) (t_rows t))).
Proof.
  intros Hj Hd Hcols Hp. unfold select_rows, sources. rewrite Hj. cbn [map].
  assert (Hf : filter (fun n : string => d !! n = None) [sel_table q] = []).
  { rewrite filter_cons.
    destruct (decide (d !! sel_table q = None)) as [Hnone|_]; [|reflexivity].
    rewrite Hd in Hnone. discriminate. }
  rewrite Hf. cbn [omap list_omap]. rewrite Hd. cbn [fmap option_fmap option_map].
  cbn [sbind]. rewrite Hcols. cbn [sbind assoc].
  rewrite decide_True by reflexivity. cbn [join_all sbind]. rewrite Hp.
  cbn [sbind]. f_equal.
  rewrite filter_map_bool, map_map. reflexivity.
Qed.

(** The result columns of a query for all columns of the sessions table. *)
Lemma sessions_result_columns (t : table) (js : list _) (w : list cond) :
  t_schema t = sessions_sch ->
  result_columns [("sessions", t)]
    {| sel_table := "sessions"; sel_columns := sessions_columns;
       sel_joins := js; sel_where := w |}
  = inr (map (pair "sessions") sessions_columns).
Proof.
  intros Hsch. unfold result_columns, resolve_in, resolve.
  cbn [sel_columns sel_table sessions_columns map fst Models.columns
       Models.sessions_schema fold_right assoc omap list_omap].
  rewrite !decide_True by reflexivity. rewrite Hsch. reflexivity.
Qed.

Lemma session_projection (r : row) :
  map (fun tc => lookup_env [("sessions", r)] tc.1 tc.2)
      (map (pair "sessions") sessions_columns)
  = session_values r.
Proof. reflexivity. Qed.

Lemma resolve_sessions (t : table) (c : string) (a : affinity) :
  t_schema t = sessions_sch ->
  assoc c (s_columns sessions_sch) = Some a ->
  resolve [("sessions", t)] c = inr ("sessions", a).
Proof.
  intros Hsch Hc. unfold resolve. cbn [omap list_omap].
  rewrite Hsch, Hc. reflexivity.
Qed.

(** The test of [WHERE title = '..']: the stored title is the text. *)
Lemma where_title (t : table) (body txt : string) :
  t_schema t = sessions_sch ->
  unquote body = Some txt ->
  exists p, eval_where [("sessions", t)] [CEq "title" body] = inr p
            /\ forall r, p [("sessions", r)]
                         = bool_decide (cell (r_cells r) "title" = SText txt).
Proof.
  intros Hsch Hbody. unfold eval_where, eval_cond.
  change (split " " "title") with ["title"]. cbv beta iota.
  rewrite (resolve_sessions t "title" AffText Hsch) by reflexivity.
  cbn [sbind]. rewrite Hbody. cbn [sbind fst snd coerce].
  eexists. split; [reflexivity|]. intros r. cbv beta.
  unfold lookup_env. cbn [assoc]. rewrite decide_True by reflexivity.
  rewrite andb_true_r.
  destruct (cell (r_cells r) "title"); reflexivity.
Qed.

Lemma parse_integers (ids : list Z) :
  mapM parse_integer (map str_of_Z ids) = Some ids.
Proof.
  induction ids as [|z ids IH]; [reflexivity|].
  cbn [map mapM]. rewrite parse_integer_str. cbn. rewrite IH. reflexivity.
Qed.

Lemma existsb_not_null (v : sval) (ids : list Z) :
  negb (is_null v) && existsb (fun z => bool_decide (v = SInt z)) ids
  = existsb (fun z => bool_decide (v = SInt z)) ids.
Proof.
  destruct v; cbn [is_null negb andb]; try reflexivity.
  induction ids as [|z ids IH]; [reflexivity|].
  cbn [existsb]. rewrite <- IH.
  rewrite bool_decide_eq_false_2 by discriminate. reflexivity.
Qed.

(** The test of [WHERE supersession_id IN (..) AND id NOT IN (..)]. *)
Lemma where_expansion (t : table) (z : Z) (zs : list Z) :
  t_schema t = sessions_sch ->
  let ids := z :: zs in
  exists p,
    eval_where [("sessions", t)]
      [CIn "supersession_id" (map str_of_Z ids);
       CIn "id NOT" (map str_of_Z ids)] = inr p
    /\ forall r, p [("sessions", r)] = expansion_test ids r.
Proof.
  intros Hsch ids. unfold eval_where, eval_cond.
  change (split " " "supersession_id") with ["supersession_id"].
  change (split " " "id NOT") with ["id"; "NOT"]. cbv beta iota.
  cbn [sbind fst snd].
  rewrite (resolve_sessions t "supersession_id" AffInteger Hsch) by reflexivity.
  rewrite (resolve_sessions t "id" AffInteger Hsch) by reflexivity.
  rewrite parse_integers. cbn [sbind fst snd coerce].
  eexists. split; [reflexivity|]. intros r. cbv beta.
  change (lookup_env [("sessions", r)] "sessions" "supersession_id")
    with (cell (r_cells r) "supersession_id").
  change (lookup_env [("sessions", r)] "sessions" "id")
    with (cell (r_cells r) "id").
  unfold expansion_test. subst ids. cbv iota.
  cbn [xorb]. rewrite andb_true_r.
  rewrite (existsb_not_null (cell (r_cells r) "supersession_id")).
  reflexivity.
Qed.

(** The speaker query succeeds, and each row it returns is one text. *)
Lemma names_rows (d : store) (p l : table) (id : Z) :
  d !! "speakers" = Some p -> t_schema p = speakers_sch ->
  d !! "sessions_speakers" = Some l -> t_schema l = sessions_speakers_sch ->
  names_are_text p ->
  exists rows, select_rows d (names_query id) = inr rows
               /\ Forall (fun row => exists n, row = [SText n]) rows.
Proof.
  intros Hp Hps Hl Hls Htext.
  unfold select_rows, sources, names_query.
  cbn [sel_table sel_joins sel_columns sel_where map fst snd].
  assert (Hf : filter (fun n : string => d !! n = None)
                      ["speakers"; "sessions_speakers"] = []).
  { rewrite filter_cons.
    destruct (decide (d !! "speakers" = None)) as [H|_];
      [rewrite Hp in H; discriminate|].
    rewrite filter_cons.
    destruct (decide (d !! "sessions_speakers" = None)) as [H|_];
      [rewrite Hl in H; discriminate|reflexivity]. }
  rewrite Hf. cbn [omap list_omap]. rewrite Hp, Hl.
  cbn [fmap option_fmap option_map sbind].
  unfold result_columns, resolve_in. cbn [sel_columns sel_table assoc].
  rewrite !decide_True by reflexivity. rewrite Hps.
  cbn [fold_right sbind join_all join_step].
  unfold resolve_in. cbn [assoc].
  rewrite !decide_True by reflexivity.
  rewrite decide_False by discriminate.
  rewrite !decide_True by reflexivity. rewrite Hps, Hls.
  cbn [sbind assoc s_columns speakers_sch sessions_speakers_sch].
  unfold eval_where, eval_cond.
  change (split " " "session_id") with ["session_id"]. cbv beta iota.
  unfold resolve. cbn [omap list_omap]. rewrite Hps, Hls.
  cbn [sbind fmap option_fmap option_map assoc s_columns speakers_sch
       sessions_speakers_sch].
  rewrite (unquote_plain _ (str_of_Z_plain id)). cbn [sbind].
  eexists. split; [reflexivity|].
  apply Forall_forall. intros row Hrow.
  apply list_elem_of_fmap in Hrow as [e [-> He]].
  apply list_elem_of_filter in He as [_ He].
  apply list_elem_of_In, in_flat_map in He as [e0 [He0 He]].
  apply in_map_iff in He0 as [r [<- Hr]].
  apply in_map_iff in He as [r2 [<- _]].
  apply list_elem_of_In, Htext in Hr as [n Hn].
  exists n. cbn [map fst snd]. unfold lookup_env. cbn [app assoc].
  rewrite decide_True by reflexivity. rewrite Hn. reflexivity.
Qed.

End Queries.

(* ===================================================================== *)
(** * Stores written by the import *)
(* ===================================================================== *)

Section Stores.
Import Py Utils Sqlite Engine DbTable.

Lemma fresh_ok : store_ok (db fresh).
Proof.
  assert (Hids : forall sch, rowids_ok (empty_table sch)).
  { intros sch. split; [constructor|intros ? H; inversion H]. }
  split.
  - exists (empty_table sessions_sch).
    split; [reflexivity|]. split; [reflexivity|]. split; [apply Hids|].
    intros ? H; inversion H.
  - exists (empty_table speakers_sch).
    split; [reflexivity|]. split; [reflexivity|]. split; [apply Hids|].
    split; [intros ? H; inversion H|intros ? ? H; inversion H].
  - exists (empty_table sessions_speakers_sch). split; reflexivity.
Qed.

(** Opening the tables of such a file changes nothing in it. *)
Lemma opened_db (st : state) : store_ok (db st) -> db (opened st) = db st.
Proof.
  intros [(t1 & H1 & _) (t2 & H2 & _) (t3 & H3 & _)].
  unfold opened, open_table. cbn [db]. rewrite H1, H2, H3. reflexivity.
Qed.

End Stores.

(* ===================================================================== *)
(** * The lookup and its display records *)
(* ===================================================================== *)

Section Display.
Import Py Utils Sqlite Engine DbTable Constants LookupAgenda.

Lemma session_dict_columns (r : row) :
  session_dict r = map (fun c => (c, shown r c)) sessions_columns.
Proof. reflexivity. Qed.

Lemma getitem_session (r : row) (c : string) (st : state) :
  c ∈ sessions_columns ->
  getitem (session_dict r) c st = (Ok (shown r c), st).
Proof.
  intros Hc. rewrite session_dict_columns. unfold sessions_columns in *.
  cbn in Hc.
  repeat (apply elem_of_cons in Hc as [->|Hc]; [reflexivity|]).
  inversion Hc.
Qed.

Lemma shown_id (r : row) :
  cell (r_cells r) "id" = SInt (r_id r) -> shown r "id" = VInt (r_id r).
Proof. intros H. unfold shown. rewrite H. reflexivity. Qed.

(** The ids read off the primary matches. *)
Lemma selected_ids (rows : list row) (st : state) :
  (forall r, r ∈ rows -> cell (r_cells r) "id" = SInt (r_id r)) ->
  for_each (fun session => getitem session "id") (map session_dict rows) st
  = (Ok (map (fun r => VInt (r_id r)) rows), st).
Proof.
  induction rows as [|r rows IH]; intros Hids; [reflexivity|].
  cbn [map for_each]. unfold bind at 1.
  rewrite getitem_session by (cbn; repeat constructor).
  rewrite shown_id by (apply Hids; left).
  unfold bind at 1. rewrite IH by (intros r' Hr'; apply Hids; right; exact Hr').
  reflexivity.
Qed.

(** [get_all_matches] on a title: the sessions with that title, in table
    order, followed by the sessions that pass the expansion test for their
    ids, in table order. *)
Lemma get_all_matches_title (st : state) (t : table) (v : string) :
  db st !! "sessions" = Some t ->
  t_schema t = sessions_sch ->
  (forall r, r ∈ t_rows t -> cell (r_cells r) "id" = SInt (r_id r)) ->
  let primary :=
    filter (fun r => bool_decide (cell (r_cells r) "title" = SText (strip v))
                     = true) (t_rows t) in
  let ids := map r_id primary in
  primary <> [] ->
  get_all_matches "title" (VStr v)
    (handle "sessions" Models.sessions_schema)
    (handle "sessions_speakers" Models.sessions_speakers_schema)
    (handle "speakers" Models.speakers_schema) st
  = (Ok (map session_dict
           (primary ++ filter (fun r => expansion_test ids r = true) (t_rows t))),
     logged (SSelect (expansion_query ids))
       (logged (SSelect (primary_query "title" (VStr v))) st)).
Proof.
  intros Hdb Hsch Hids primary ids Hne.
  unfold get_all_matches. unfold bind at 1.
  rewrite (primary_select "title" (VStr v) st).
  destruct (where_title t (str (preprocess_value (VStr v))) (strip v) Hsch
              (unquote_literal (VStr v))) as (p & Hp & Hpr).
  rewrite (select_rows_single (db st) (primary_query "title" (VStr v)) t
             (map (pair "sessions") sessions_columns) p eq_refl Hdb
             (sessions_result_columns t [] _ Hsch) Hp).
  change (sel_table (primary_query "title" (VStr v))) with "sessions".
  rewrite map_map.
  assert (Hfilter : filter (fun r => p [("sessions", r)] = true) (t_rows t)
                    = primary).
  { subst primary. apply list_filter_iff. intros r. rewrite Hpr. reflexivity. }
  rewrite Hfilter.
  change (map (fun r => result_row sessions_columns
                          (map (fun tc => lookup_env [("sessions", r)] tc.1 tc.2)
                               (map (pair "sessions") sessions_columns)))
              primary)
    with (map session_dict primary).
  assert (Hmatch : forall (l : list row) (A : Type) (x y : A),
             l <> [] ->
             match map session_dict l with [] => x | _ :: _ => y end = y).
  { intros [|? ?] A x y Hl; [contradiction|reflexivity]. }
  rewrite (Hmatch primary) by exact Hne. clear Hmatch.
  unfold bind at 1.
  rewrite selected_ids.
  2:{ intros r Hr. apply Hids. subst primary.
      apply list_elem_of_filter in Hr as [_ Hr]. exact Hr. }
  unfold bind at 1. rewrite select_run. cbv zeta.
  assert (Hq : select_of (handle "sessions" Models.sessions_schema) [] []
                 [("supersession_id", Many (map (fun r => VInt (r_id r)) primary));
                  ("id NOT", Many (map (fun r => VInt (r_id r)) primary))]
               = expansion_query ids).
  { unfold select_of, expansion_query, where_cond. cbn [map fst snd].
    subst ids. rewrite !map_map. reflexivity. }
  rewrite Hq. clear Hq.
  assert (Hids_ne : exists z zs, ids = z :: zs).
  { subst ids. generalize primary Hne. intros [|r0 l] Hl; [contradiction|].
    cbn [map]. eauto. }
  destruct Hids_ne as (z & zs & Hzs).
  destruct (where_expansion t z zs Hsch) as (p' & Hp' & Hpr').
  rewrite <- Hzs in Hp', Hpr'.
  cbn [db logged].
  rewrite (select_rows_single (db st) (expansion_query ids) t
             (map (pair "sessions") sessions_columns) p' eq_refl Hdb
             (sessions_result_columns t [] _ Hsch) Hp').
  cbn [sel_table expansion_query sel_columns]. rewrite map_map.
  assert (Hfilter' : filter (fun r => p' [("sessions", r)] = true) (t_rows t)
                     = filter (fun r => expansion_test ids r = true) (t_rows t)).
  { apply list_filter_iff. intros r. rewrite Hpr'. reflexivity. }
  rewrite Hfilter'. unfold ret. rewrite map_app. reflexivity.
Qed.

Lemma names_of_rows (rows : list (list sval)) (st : state) :
  Forall (fun row => exists n, row = [SText n]) rows ->
  for_each (fun speaker => getitem speaker "name")
           (map (result_row ["name"]) rows) st
  = (Ok (map VStr
           (omap (fun row => match row with
                             | [SText n] => Some (replace "''" "'" n)
                             | _ => None
                             end) rows)), st).
Proof.
  induction 1 as [|row rows [n ->] _ IH]; [reflexivity|].
  cbn [map for_each]. unfold bind at 1.
  change (getitem (result_row ["name"] [SText n]) "name" st)
    with (Ok (VStr (replace "''" "'" n)), st).
  cbv beta iota. unfold bind at 1. rewrite IH. reflexivity.
Qed.

Lemma get_speaker_names_run (st : state) (p l : table) (r : row) :
  db st !! "speakers" = Some p -> t_schema p = speakers_sch ->
  db st !! "sessions_speakers" = Some l ->
  t_schema l = sessions_speakers_sch ->
  names_are_text p ->
  cell (r_cells r) "id" = SInt (r_id r) ->
  get_speaker_names (session_dict r)
    (handle "speakers" Models.speakers_schema)
    (handle "sessions_speakers" Models.sessions_speakers_schema) st
  = (Ok (map VStr (attendee_names (db st) (r_id r))),
     logged (SSelect (names_query (r_id r))) st).
Proof.
  intros Hp Hps Hl Hls Htext Hid.
  unfold get_speaker_names. unfold bind at 1.
  rewrite getitem_session by (cbn; repeat constructor).
  rewrite shown_id by exact Hid.
  unfold bind at 1. rewrite select_run. cbv zeta.
  change (select_of (handle "speakers" Models.speakers_schema) ["name"]
            [(handle "speakers" Models.speakers_schema,
              handle "sessions_speakers" Models.sessions_speakers_schema,
              "id", "speaker_id")]
            [("session_id", One (VInt (r_id r)))])
    with (names_query (r_id r)).
  unfold attendee_names.
  destruct (names_rows (db st) p l (r_id r) Hp Hps Hl Hls Htext)
    as (rows & -> & Hrows).
  change (sel_columns (names_query (r_id r))) with ["name"].
  apply names_of_rows, Hrows.
Qed.

Lemma join_names_text (names : list string) (st : state) :
  join_names (map VStr names) st = (Ok (join "; " names), st).
Proof.
  unfold join_names.
  assert (H : mapM (fun v => match v with VStr s => Some s | _ => None end)
                   (map VStr names) = Some names).
  { induction names as [|n names IH]; [reflexivity|].
    cbn [map mapM]. cbn. rewrite IH. reflexivity. }
  rewrite H. reflexivity.
Qed.

Lemma print_session_run (r : row) (names : list string) (st : state) :
  print_session (session_dict r) (map VStr names) st
  = (Ok tt, printed (display_record r names) st).
Proof.
  unfold print_session, DISPLAY_COLUMNS. cbn [for_each].
  unfold bind, print, ret.
  rewrite !getitem_session by (cbn; repeat constructor).
  destruct names as [|n names].
  - cbn [map]. unfold printed, display_record. cbn [db log out].
    rewrite <- !app_assoc. reflexivity.
  - cbn [map db log out]. cbv iota.
    change (VStr n :: map VStr names) with (map VStr (n :: names)).
    rewrite join_names_text.
    unfold printed, display_record. cbn [db log out].
    rewrite <- !app_assoc. reflexivity.
Qed.

Lemma filter_agree {A : Type} (p q : A -> bool) (l : list A) :
  (forall x, x ∈ l -> p x = q x) ->
  filter (fun x => p x = true) l = filter (fun x => q x = true) l.
Proof.
  induction l as [|x l IH]; intros Hpq; [reflexivity|].
  rewrite !filter_cons, IH by (intros y Hy; apply Hpq; right; exact Hy).
  rewrite (Hpq x) by left. destruct (decide (q x = true)); reflexivity.
Qed.

Lemma rowid_determines_row (rows : list row) (x y : row) :
  NoDup (map r_id rows) -> x ∈ rows -> y ∈ rows -> r_id x = r_id y -> x = y.
Proof.
  induction rows as [|r rows IH]; intros Hnd Hx Hy Hid; [inversion Hx|].
  cbn [map] in Hnd. apply NoDup_cons in Hnd as [Hnotin Hnd].
  apply elem_of_cons in Hx as [->|Hx]; apply elem_of_cons in Hy as [->|Hy].
  - reflexivity.
  - exfalso. apply Hnotin. rewrite Hid. apply list_elem_of_fmap.
    exists y. split; [reflexivity|exact Hy].
  - exfalso. apply Hnotin. rewrite <- Hid. apply list_elem_of_fmap.
    exists x. split; [reflexivity|exact Hx].
  - apply IH; assumption.
Qed.

Ltac each_row H :=
  repeat (apply elem_of_cons in H as [->|H]); [..|inversion H].

Lemma nested_ok : store_ok (db nested).
Proof.
  split.
  - exists nested_sessions. split; [reflexivity|]. split; [reflexivity|].
    split; [split|].
    + cbn. repeat (constructor; [rewrite ?elem_of_cons, elem_of_nil; lia|]).
      constructor.
    + intros r Hr. cbn in Hr. each_row Hr; reflexivity.
    + intros r Hr. cbn in Hr. each_row Hr; discriminate.
  - exists nested_speakers. split; [reflexivity|]. split; [reflexivity|].
    split; [split|split].
    + cbn. repeat (constructor; [rewrite ?elem_of_cons, elem_of_nil; lia|]).
      constructor.
    + intros r Hr. cbn in Hr. each_row Hr; reflexivity.
    + intros r Hr. cbn in Hr. each_row Hr; eexists; reflexivity.
    + intros r r' Hr Hr' _. cbn in Hr, Hr'. each_row Hr; each_row Hr';
        reflexivity.
  - exists nested_links. split; reflexivity.
Qed.

End Display.

(* ===================================================================== *)
(** * Speakers: lookup by name and insertion *)
(* ===================================================================== *)

Section Speakers.
Import Py Utils Sqlite Engine DbTable ImportAgenda.

Lemma lstrip_idem (s : string) : lstrip (lstrip s) = lstrip s.
Proof.
  induction s as [|c s IH]; [reflexivity|].
  cbn [lstrip]. destruct (is_space c) eqn:Hc; [exact IH|].
  cbn [lstrip]. rewrite Hc. reflexivity.
Qed.

Lemma rstrip_idem (s : string) : rstrip (rstrip s) = rstrip s.
Proof.
  induction s as [|c s IH]; [reflexivity|].
  cbn [rstrip]. destruct (is_space c && is_empty (rstrip s)) eqn:Hc;
    [reflexivity|].
  cbn [rstrip]. rewrite IH, Hc. reflexivity.
Qed.

(** Removing leading blanks from a string without trailing blanks leaves
    no trailing blanks. *)
Lemma rstrip_lstrip_fixed (s : string) :
  rstrip s = s -> rstrip (lstrip s) = lstrip s.
Proof.
  induction s as [|c s IH]; [reflexivity|].
  intros Hfix. cbn [lstrip]. destruct (is_space c) eqn:Hc; [|exact Hfix].
  apply IH. cbn [rstrip] in Hfix. rewrite Hc in Hfix. cbn [andb] in Hfix.
  destruct (is_empty (rstrip s)); [discriminate|].
  injection Hfix as Hfix. exact Hfix.
Qed.

(** Trimming twice is trimming once. *)
Lemma strip_idem (s : string) : strip (strip s) = strip s.
Proof.
  unfold strip.
  rewrite (rstrip_lstrip_fixed (rstrip s)) by apply rstrip_idem.
  apply lstrip_idem.
Qed.

(** [speakers_table.select(columns=["id"], where={"name": name})] *)
Lemma select_speaker (st : state) (p : table) (name : string) :
  db st !! "speakers" = Some p ->
  t_schema p = speakers_sch ->
  select (handle "speakers" Models.speakers_schema) ["id"] []
    [("name", One (VStr name))] st
  = (Ok (map (fun r => [("id", shown r "id")]) (named (strip name) (t_rows p))),
     logged (SSelect (speaker_lookup name)) st).
Proof.
  intros Hdb Hsch. rewrite select_run. cbv zeta.
  change (select_of (handle "speakers" Models.speakers_schema) ["id"] []
            [("name", One (VStr name))]) with (speaker_lookup name).
  assert (Hcols : result_columns [("speakers", p)] (speaker_lookup name)
                  = inr [("speakers", "id")]).
  { unfold result_columns, resolve_in.
    cbn [sel_columns sel_table speaker_lookup assoc fold_right].
    rewrite decide_True by reflexivity. rewrite Hsch. reflexivity. }
  assert (Hp : exists q,
             eval_where [("speakers", p)] (sel_where (speaker_lookup name))
             = inr q
             /\ forall r, q [("speakers", r)]
                          = bool_decide (cell (r_cells r) "name"
                                         = SText (strip name))).
  { cbn [sel_where speaker_lookup]. unfold eval_where, eval_cond.
    change (split " " "name") with ["name"]. cbv beta iota.
    unfold resolve. cbn [omap list_omap]. rewrite Hsch.
    cbn [s_columns speakers_sch assoc fmap option_fmap option_map sbind].
    rewrite decide_False by discriminate. rewrite decide_True by reflexivity.
    cbn [fmap option_fmap option_map sbind].
    rewrite (unquote_literal (VStr name)). cbn [sbind fst snd coerce text_of].
    eexists. split; [reflexivity|]. intros r. cbv beta.
    change (lookup_env [("speakers", r)] "speakers" "name")
      with (cell (r_cells r) "name").
    rewrite andb_true_r. destruct (cell (r_cells r) "name"); reflexivity. }
  destruct Hp as (q & Hq & Hqr).
  rewrite (select_rows_single (db st) (speaker_lookup name) p
             [("speakers", "id")] q eq_refl Hdb Hcols Hq).
  cbn [sel_table sel_columns speaker_lookup]. rewrite map_map.
  unfold named.
  rewrite (filter_agree (fun r => q [("speakers", r)])
             (fun r => bool_decide (cell (r_cells r) "name" = SText (strip name))))
    by (intros r _; apply Hqr).
  reflexivity.
Qed.

Lemma existsb_filter {A : Type} (f : A -> bool) (l : list A) :
  existsb f l = match filter (fun x => f x = true) l with
                | [] => false
                | _ => true
                end.
Proof.
  induction l as [|x l IH]; [reflexivity|].
  cbn [existsb]. rewrite filter_cons.
  destruct (decide (f x = true)) as [->|Hx]; [reflexivity|].
  apply not_true_is_false in Hx. rewrite Hx. exact IH.
Qed.

Lemma existsb_agree {A : Type} (f g : A -> bool) (l : list A) :
  (forall x, f x = g x) -> existsb f l = existsb g l.
Proof.
  intros Hfg. induction l as [|x l IH]; [reflexivity|].
  cbn [existsb]. rewrite Hfg, IH. reflexivity.
Qed.

(** [speakers_table.insert({"name": name})]: refused when a speaker has
    the name already, otherwise appended under the next rowid. *)
Lemma insert_speaker (st : state) (p : table) (name : string) :
  db st !! "speakers" = Some p ->
  t_schema p = speakers_sch ->
  let q := insert_of "speakers" [("name", VStr name)] in
  insert (handle "speakers" Models.speakers_schema) [("name", VStr name)] st
  = match named (strip name) (t_rows p) with
    | [] =>
        (Ok (next_rowid (t_rows p)),
         add_row "speakers" p
           (speaker_row (next_rowid (t_rows p)) (strip name))
           (logged (SInsert q) st))
    | _ => (Raise (unique_failed "speakers" ["name"]), logged (SInsert q) st)
    end.
Proof.
  intros Hdb Hsch q. unfold insert.
  change {| ins_table := DbTable.name (handle "speakers" Models.speakers_schema);
            ins_columns := map fst [("name", VStr name)];
            ins_values := map (fun kv => str (preprocess_value kv.2))
                              [("name", VStr name)] |} with q.
  rewrite (exec_insert_table q st p) by exact Hdb.
  unfold build_row. rewrite Hsch. subst q.
  change (ins_table (insert_of "speakers" [("name", VStr name)]))
    with "speakers".
  rewrite (prepare_insert_item "speakers" speakers_sch [("name", VStr name)])
    by (repeat constructor).
  cbn [sbind map fst snd text_of].
  change (new_cells speakers_sch [("name", strip name)])
    with [("id", SNull); ("name", SText (strip name))].
  change (choose_rowid "speakers" speakers_sch
            [("id", SNull); ("name", SText (strip name))] (t_rows p))
    with (@inr exn Z (next_rowid (t_rows p))).
  cbn [sbind s_rowid_alias speakers_sch].
  change (set_cell "id" (SInt (next_rowid (t_rows p)))
            [("id", SNull); ("name", SText (strip name))])
    with (r_cells (speaker_row (next_rowid (t_rows p)) (strip name))).
  unfold violated_key. cbn [s_unique speakers_sch].
  rewrite filter_cons, filter_nil.
  assert (Hex : existsb (conflicts ["name"]
                           (r_cells (speaker_row (next_rowid (t_rows p))
                                                 (strip name))))
                        (t_rows p)
                = match named (strip name) (t_rows p) with
                  | [] => false
                  | _ => true
                  end).
  { unfold named. rewrite <- existsb_filter. apply existsb_agree. intros r.
    unfold conflicts. cbn [forallb map].
    change (cell (r_cells (speaker_row (next_rowid (t_rows p)) (strip name)))
                 "name") with (SText (strip name)).
    cbn [is_null negb andb]. apply bool_decide_ext. split; congruence. }
  rewrite Hex.
  destruct (named (strip name) (t_rows p)) as [|r0 rs].
  - rewrite decide_False by discriminate. cbn [head andb].
    change {| r_id := next_rowid (t_rows p);
              r_cells := r_cells (speaker_row (next_rowid (t_rows p))
                                              (strip name)) |}
      with (speaker_row (next_rowid (t_rows p)) (strip name)).
    rewrite insert_row_last by (cbn [r_id speaker_row]; unfold next_rowid; lia).
    unfold add_row, logged. rewrite Hsch. reflexivity.
  - rewrite decide_True by reflexivity. reflexivity.
Qed.

Lemma table_eta (t : table) (sch : schema) :
  t_schema t = sch -> {| t_schema := sch; t_rows := t_rows t |} = t.
Proof. destruct t; cbn; congruence. Qed.

(** One name: the lookup, and the insert when nothing is found. *)
Lemma name_step (st : state) (p : table) (name : string) :
  db st !! "speakers" = Some p ->
  t_schema p = speakers_sch ->
  exists st1,
    (let* speakers_match :=
       select (handle "speakers" Models.speakers_schema) ["id"] []
         [("name", One (VStr name))] in
     match speakers_match with
     | first :: _ =>
         match dict_get "id" first with
         | Some v => ret v
         | None => raise (KeyError "id")
         end
     | [] =>
         let* new_id := insert (handle "speakers" Models.speakers_schema)
                          [("name", VStr name)] in
         ret (VInt new_id)
     end) st = (Ok (id_for (strip name) (t_rows p)), st1)
    /\ db st1 = <["speakers" := {| t_schema := speakers_sch;
                                   t_rows := ensure (strip name) (t_rows p) |}]>
                  (db st)
    /\ out st1 = out st.
Proof.
  intros Hdb Hsch. unfold bind at 1.
  rewrite (select_speaker st p name Hdb Hsch).
  unfold id_for, ensure.
  destruct (named (strip name) (t_rows p)) as [|r rs] eqn:Hnamed.
  - cbn [map]. unfold bind.
    rewrite (insert_speaker (logged _ st) p name) by assumption.
    cbv zeta. rewrite Hnamed. eexists. split; [reflexivity|].
    cbn [db out add_row logged]. rewrite Hsch. split; reflexivity.
  - cbn [map]. eexists. split; [reflexivity|].
    cbn [db out logged]. split; [|reflexivity].
    symmetry. apply insert_id. rewrite Hdb, table_eta by exact Hsch.
    reflexivity.
Qed.

Lemma bind_assoc {A B C : Type} (m : M A) (f : A -> M B) (g : B -> M C)
  (st : state) :
  bind m (fun x => bind (f x) g) st = bind (bind m f) g st.
Proof. unfold bind. destruct (m st) as [[a|e] st']; reflexivity. Qed.

Lemma name_loop_run (session_ids : list Z) (index : nat) (sid : Z) :
  session_ids !! index = Some sid ->
  forall (names : list string) (acc : speaker_acc) (st : state) (p : table),
  db st !! "speakers" = Some p ->
  t_schema p = speakers_sch ->
  exists st',
    name_loop (handle "speakers" Models.speakers_schema) session_ids index
      names acc st
    = (Ok {| sessions_speakers := sessions_speakers acc ++ map (pair sid) names;
             speaker_ids := cache_all names (t_rows p) (speaker_ids acc) |},
       st')
    /\ db st' = <["speakers" := {| t_schema := speakers_sch;
                                   t_rows := ensure_all names (t_rows p) |}]>
                  (db st)
    /\ out st' = out st.
Proof.
  intros Hsid. induction names as [|name rest IH]; intros acc st p Hdb Hsch.
  - exists st. cbn [name_loop map ensure_all cache_all]. rewrite app_nil_r.
    split; [destruct acc; reflexivity|]. split; [|reflexivity].
    symmetry. apply insert_id. rewrite Hdb, table_eta by exact Hsch.
    reflexivity.
  - cbn [name_loop]. rewrite Hsid.
    destruct (name_step st p name Hdb Hsch) as (st1 & Hstep & Hdb1 & Hout1).
    rewrite (bind_assoc
               (select (handle "speakers" Models.speakers_schema) ["id"] []
                  [("name", One (VStr name))])
               (fun speakers_match : list dict =>
                  match speakers_match with
                  | first :: _ =>
                      match dict_get "id" first with
                      | Some v => ret v
                      | None => raise (KeyError "id")
                      end
                  | [] =>
                      let* new_id :=
                        insert (handle "speakers" Models.speakers_schema)
                          [("name", VStr name)] in
                      ret (VInt new_id)
                  end)).
    unfold bind at 1. rewrite Hstep.
    destruct (IH {| sessions_speakers := sessions_speakers acc ++ [(sid, name)];
                    speaker_ids := <[name := id_for (strip name) (t_rows p)]>
                                     (speaker_ids acc) |}
                 st1
                 {| t_schema := speakers_sch;
                    t_rows := ensure (strip name) (t_rows p) |})
      as (st' & Hrun & Hdb' & Hout');
      [rewrite Hdb1; apply lookup_insert_eq|reflexivity|].
    exists st'. rewrite Hrun. cbn [sessions_speakers speaker_ids t_rows map
                                  ensure_all cache_all] in *.
    rewrite <- app_assoc. split; [reflexivity|].
    rewrite Hdb', Hdb1, insert_insert_eq, Hout', Hout1. split; reflexivity.
Qed.

Lemma ensure_all_app (a b : list string) (rows : list row) :
  ensure_all (a ++ b) rows = ensure_all b (ensure_all a rows).
Proof.
  revert rows. induction a as [|n a IH]; intros rows; [reflexivity|].
  cbn [app ensure_all]. apply IH.
Qed.

Lemma cache_all_app (a b : list string) (rows : list row)
  (ids : gmap string value) :
  cache_all (a ++ b) rows ids
  = cache_all b (ensure_all a rows) (cache_all a rows ids).
Proof.
  revert rows ids. induction a as [|n a IH]; intros rows ids; [reflexivity|].
  cbn [app ensure_all cache_all]. apply IH.
Qed.

Lemma row_loop_run (session_ids : list Z) (cells : list value) :
  forall (index : nat) (acc : speaker_acc) (st : state) (p : table),
  (forall k, (k < length cells)%nat -> is_Some (session_ids !! (index + k)%nat)) ->
  db st !! "speakers" = Some p ->
  t_schema p = speakers_sch ->
  exists st',
    row_loop (handle "speakers" Models.speakers_schema) session_ids index
      cells acc st
    = (Ok {| sessions_speakers :=
               sessions_speakers acc ++ pending_from session_ids index cells;
             speaker_ids :=
               cache_all (names_from cells) (t_rows p) (speaker_ids acc) |},
       st')
    /\ db st' = <["speakers" := {| t_schema := speakers_sch;
                                   t_rows := ensure_all (names_from cells)
                                               (t_rows p) |}]> (db st)
    /\ out st' = out st.
Proof.
  induction cells as [|speakers rest IH]; intros index acc st p Hidx Hdb Hsch.
  - exists st. cbn [row_loop pending_from names_from ensure_all cache_all].
    rewrite app_nil_r. split; [destruct acc; reflexivity|].
    split; [|reflexivity].
    symmetry. apply insert_id. rewrite Hdb, table_eta by exact Hsch.
    reflexivity.
  - destruct (Hidx 0%nat ltac:(cbn; lia)) as [sid Hsid].
    rewrite Nat.add_0_r in Hsid.
    assert (Hidx' : forall k, (k < length rest)%nat ->
                              is_Some (session_ids !! (S index + k)%nat)).
    { intros k Hk. specialize (Hidx (S k) ltac:(cbn; lia)).
      replace (S index + k)%nat with (index + S k)%nat by lia. exact Hidx. }
    cbn [row_loop pending_from names_from]. rewrite Hsid.
    unfold names_of_cell. destruct (isna speakers).
    + cbn [map app]. apply IH; assumption.
    + destruct (name_loop_run session_ids index sid Hsid
                  (speaker_names speakers) acc st p Hdb Hsch)
        as (st1 & Hrun1 & Hdb1 & Hout1).
      unfold bind at 1. rewrite Hrun1.
      destruct (IH (S index)
                  {| sessions_speakers :=
                       sessions_speakers acc
                       ++ map (pair sid) (speaker_names speakers);
                     speaker_ids :=
                       cache_all (speaker_names speakers) (t_rows p)
                         (speaker_ids acc) |}
                  st1
                  {| t_schema := speakers_sch;
                     t_rows := ensure_all (speaker_names speakers) (t_rows p) |}
                  Hidx')
        as (st' & Hrun & Hdb' & Hout');
        [rewrite Hdb1; apply lookup_insert_eq|reflexivity|].
      exists st'. rewrite Hrun.
      cbn [sessions_speakers speaker_ids t_rows].
      rewrite <- app_assoc, ensure_all_app, cache_all_app.
      split; [reflexivity|].
      rewrite Hdb', Hdb1, insert_insert_eq, Hout', Hout1. split; reflexivity.
Qed.

End Speakers.

(* ===================================================================== *)
(** * The speakers table during an import *)
(* ===================================================================== *)

Section SpeakerRows.
Import Py Utils Sqlite Engine DbTable ImportAgenda.

Lemma named_app (n : string) (a b : list row) :
  named n (a ++ b) = named n a ++ named n b.
Proof. apply filter_app. Qed.

Lemma named_elem (n : string) (rows : list row) (r : row) :
  r ∈ named n rows <-> r ∈ rows /\ cell (r_cells r) "name" = SText n.
Proof.
  unfold named. rewrite list_elem_of_filter, bool_decide_eq_true. tauto.
Qed.

Lemma named_new (n m : string) (id : Z) :
  named m [speaker_row id n] = if decide (n = m) then [speaker_row id n] else [].
Proof.
  unfold named. rewrite filter_cons, filter_nil.
  change (cell (r_cells (speaker_row id n)) "name") with (SText n).
  destruct (decide (n = m)) as [->|Hne].
  - rewrite decide_True; [reflexivity|].
    apply bool_decide_eq_true. reflexivity.
  - rewrite decide_False; [reflexivity|].
    rewrite bool_decide_eq_true. congruence.
Qed.

Lemma NoDup_rows (rows : list row) : NoDup (map r_id rows) -> NoDup rows.
Proof. apply (NoDup_fmap_1 r_id). Qed.

(** Under the invariant at most one speaker has a given name. *)
Lemma named_at_most_one (n : string) (rows : list row) (r : row)
  (rs : list row) :
  speakers_rows_ok rows -> named n rows = r :: rs -> rs = [].
Proof.
  intros ((Hnd & _) & _ & Huniq) Hnamed.
  destruct rs as [|r' rs]; [reflexivity|exfalso].
  assert (Hr : r ∈ named n rows) by (rewrite Hnamed; left).
  assert (Hr' : r' ∈ named n rows) by (rewrite Hnamed; right; left).
  apply named_elem in Hr as [Hr Hn], Hr' as [Hr' Hn'].
  assert (r = r') as <- by (apply Huniq; [exact Hr|exact Hr'|congruence]).
  assert (Hdup : NoDup (named n rows)).
  { unfold named. apply NoDup_filter, NoDup_rows, Hnd. }
  rewrite Hnamed in Hdup. apply NoDup_cons in Hdup as [Hnotin _].
  apply Hnotin. left.
Qed.

Lemma fresh_rowid (rows : list row) (id : Z) :
  max_rowid rows < id -> id ∉ map r_id rows.
Proof.
  intros Hlt [r [-> Hr]]%list_elem_of_fmap.
  apply max_rowid_bound in Hr. lia.
Qed.

Lemma ensure_ok (n : string) (rows : list row) :
  speakers_rows_ok rows -> speakers_rows_ok (ensure n rows).
Proof.
  intros Hok. unfold ensure.
  destruct (named n rows) as [|r0 rs] eqn:Hnamed; [|exact Hok].
  destruct Hok as ((Hnd & Hid) & Htext & Huniq).
  set (new := speaker_row (next_rowid rows) n).
  assert (Hnone : forall r, r ∈ rows -> cell (r_cells r) "name" <> SText n).
  { intros r Hr Hn.
    assert (H : r ∈ named n rows) by (apply named_elem; split; assumption).
    rewrite Hnamed in H. inversion H. }
  repeat split; cbn [t_rows] in *.
  - rewrite map_app. apply NoDup_app. split; [exact Hnd|].
    split; [|cbn; repeat constructor; inversion 1].
    intros id Hin Hnew. cbn in Hnew. apply list_elem_of_singleton in Hnew as ->.
    revert Hin. apply fresh_rowid. unfold next_rowid. lia.
  - intros r [Hr|Hr]%elem_of_app; [apply Hid, Hr|].
    apply list_elem_of_singleton in Hr as ->. reflexivity.
  - intros r [Hr|Hr]%elem_of_app; [apply Htext, Hr|].
    apply list_elem_of_singleton in Hr as ->. exists n. reflexivity.
  - intros r r' [Hr|Hr]%elem_of_app [Hr'|Hr']%elem_of_app Heq.
    + apply Huniq; assumption.
    + apply list_elem_of_singleton in Hr' as ->.
      exfalso. apply (Hnone r Hr). rewrite Heq. reflexivity.
    + apply list_elem_of_singleton in Hr as ->.
      exfalso. apply (Hnone r' Hr'). rewrite <- Heq. reflexivity.
    + apply list_elem_of_singleton in Hr as ->.
      apply list_elem_of_singleton in Hr' as ->. reflexivity.
Qed.

(** After a name has been handled exactly one speaker has it, and the id
    given to the cache is that speaker's id. *)
Lemma ensure_named (n : string) (rows : list row) :
  speakers_rows_ok rows ->
  exists r, named n (ensure n rows) = [r] /\ id_for n rows = VInt (r_id r).
Proof.
  intros Hok. unfold ensure, id_for.
  destruct (named n rows) as [|r rs] eqn:Hnamed.
  - exists (speaker_row (next_rowid rows) n).
    rewrite named_app, Hnamed, named_new, decide_True by reflexivity.
    split; reflexivity.
  - exists r. rewrite Hnamed.
    rewrite (named_at_most_one n rows r rs Hok Hnamed). split; [reflexivity|].
    apply shown_id. destruct Hok as ((_ & Hid) & _). apply Hid.
    cbn [t_rows]. apply (named_elem n). rewrite Hnamed. left.
Qed.

(** Handling another name leaves a known speaker the only one of its
    name. *)
Lemma ensure_keeps (n m : string) (rows : list row) (r : row) :
  named m rows = [r] -> named m (ensure n rows) = [r].
Proof.
  intros Hm. unfold ensure.
  destruct (named n rows) as [|r0 rs] eqn:Hn; [|exact Hm].
  rewrite named_app, Hm, named_new.
  destruct (decide (n = m)) as [->|_]; [congruence|reflexivity].
Qed.

Lemma ensure_all_keeps (names : list string) (m : string) :
  forall (rows : list row) (r : row),
  named m rows = [r] -> named m (ensure_all names rows) = [r].
Proof.
  induction names as [|n names IH]; intros rows r Hm; [exact Hm|].
  cbn [ensure_all]. apply IH, ensure_keeps, Hm.
Qed.

Lemma ensure_all_ok (names : list string) :
  forall rows, speakers_rows_ok rows -> speakers_rows_ok (ensure_all names rows).
Proof.
  induction names as [|n names IH]; intros rows Hok; [exact Hok|].
  cbn [ensure_all]. apply IH, ensure_ok, Hok.
Qed.

Lemma ensure_all_extends (names : list string) :
  forall rows, exists news, ensure_all names rows = rows ++ news.
Proof.
  induction names as [|n names IH]; intros rows.
  - exists []. cbn. rewrite app_nil_r. reflexivity.
  - cbn [ensure_all]. destruct (IH (ensure (strip n) rows)) as [news Hnews].
    rewrite Hnews. unfold ensure.
    destruct (named (strip n) rows); eexists; [rewrite <- app_assoc|];
      reflexivity.
Qed.

Lemma cache_all_other (names : list string) (name : string) :
  forall (rows : list row) (ids : gmap string value),
  name ∉ names -> cache_all names rows ids !! name = ids !! name.
Proof.
  induction names as [|n names IH]; intros rows ids Hnot; [reflexivity|].
  cbn [cache_all]. rewrite IH by (intros H; apply Hnot; right; exact H).
  apply lookup_insert_ne. intros ->. apply Hnot. left.
Qed.

(** Every name that was handled is in the cache, under the id of the one
    speaker that has this name (trimmed) in the table. *)
Lemma cache_all_named (names : list string) (name : string) :
  forall (rows : list row) (ids : gmap string value),
  speakers_rows_ok rows ->
  name ∈ names ->
  exists r, named (strip name) (ensure_all names rows) = [r]
            /\ cache_all names rows ids !! name = Some (VInt (r_id r)).
Proof.
  induction names as [|n names IH]; intros rows ids Hok Hin; [inversion Hin|].
  cbn [ensure_all cache_all].
  destruct (decide (name ∈ names)) as [Hrest|Hrest].
  - apply IH; [apply ensure_ok, Hok|exact Hrest].
  - apply elem_of_cons in Hin as [->|Hin]; [|contradiction].
    destruct (ensure_named (strip n) rows Hok) as (r & Hr & Hid).
    exists r. split; [apply ensure_all_keeps, Hr|].
    rewrite cache_all_other by exact Hrest.
    rewrite lookup_insert_eq, Hid. reflexivity.
Qed.

End SpeakerRows.

(* ===================================================================== *)
(** * The association table during an import *)
(* ===================================================================== *)

Section Links.
Import Py Utils Sqlite Engine DbTable ImportAgenda.

(** [sessions_speakers_table.insert({'session_id': a, 'speaker_id': b})]:
    refused by the composite primary key when the pair is already there. *)
Lemma insert_link (st : state) (l : table) (a b : Z) :
  db st !! "sessions_speakers" = Some l ->
  t_schema l = sessions_speakers_sch ->
  let q := insert_of "sessions_speakers" (link_payload a b) in
  insert (handle "sessions_speakers" Models.sessions_speakers_schema)
    (link_payload a b) st
  = match linked a b (t_rows l) with
    | [] =>
        (Ok (next_rowid (t_rows l)),
         add_row "sessions_speakers" l (link_row (next_rowid (t_rows l)) a b)
           (logged (SInsert q) st))
    | _ => (Raise link_failed, logged (SInsert q) st)
    end.
Proof.
  intros Hdb Hsch q. unfold insert.
  change {| ins_table := name (handle "sessions_speakers"
                                 Models.sessions_speakers_schema);
            ins_columns := map fst (link_payload a b);
            ins_values := map (fun kv => str (preprocess_value kv.2))
                              (link_payload a b) |} with q.
  rewrite (exec_insert_table q st l) by exact Hdb.
  unfold build_row. rewrite Hsch. subst q.
  change (ins_table (insert_of "sessions_speakers" (link_payload a b)))
    with "sessions_speakers".
  rewrite (prepare_insert_item "sessions_speakers" sessions_speakers_sch
             (link_payload a b)) by (repeat constructor).
  cbn [sbind map fst snd text_of link_payload str].
  assert (Hcells : new_cells sessions_speakers_sch
                     [("session_id", str_of_Z a); ("speaker_id", str_of_Z b)]
                   = r_cells (link_row (next_rowid (t_rows l)) a b)).
  { unfold new_cells. cbn [map s_columns sessions_speakers_sch assoc].
    rewrite !decide_True by reflexivity.
    rewrite decide_False by discriminate.
    rewrite decide_True by reflexivity.
    rewrite !coerce_integer_text. reflexivity. }
  rewrite Hcells.
  unfold choose_rowid. cbn [s_rowid_alias sessions_speakers_sch sbind].
  unfold violated_key. cbn [s_unique sessions_speakers_sch].
  rewrite filter_cons, filter_nil.
  assert (Hex : existsb (conflicts ["session_id"; "speaker_id"]
                           (r_cells (link_row (next_rowid (t_rows l)) a b)))
                        (t_rows l)
                = match linked a b (t_rows l) with
                  | [] => false
                  | _ => true
                  end).
  { unfold linked. rewrite <- existsb_filter. apply existsb_agree. intros r.
    unfold conflicts. cbn [forallb map].
    change (cell (r_cells (link_row (next_rowid (t_rows l)) a b)) "session_id")
      with (SInt a).
    change (cell (r_cells (link_row (next_rowid (t_rows l)) a b)) "speaker_id")
      with (SInt b).
    cbn [is_null negb andb].
    destruct (decide (cell (r_cells r) "session_id" = SInt a)) as [Ha|Ha];
      destruct (decide (cell (r_cells r) "speaker_id" = SInt b)) as [Hb|Hb].
    - rewrite Ha, Hb. rewrite !bool_decide_eq_true_2 by reflexivity.
      reflexivity.
    - rewrite (bool_decide_eq_false_2 (cell (r_cells r) "speaker_id" = SInt b))
        by exact Hb.
      rewrite andb_false_r. apply bool_decide_eq_false_2. congruence.
    - rewrite (bool_decide_eq_false_2 (cell (r_cells r) "session_id" = SInt a))
        by exact Ha.
      apply bool_decide_eq_false_2. congruence.
    - rewrite (bool_decide_eq_false_2 (cell (r_cells r) "session_id" = SInt a))
        by exact Ha.
      apply bool_decide_eq_false_2. congruence. }
  rewrite Hex.
  destruct (linked a b (t_rows l)) as [|r0 rs].
  - rewrite decide_False by discriminate. cbn [head andb].
    change {| r_id := next_rowid (t_rows l);
              r_cells := r_cells (link_row (next_rowid (t_rows l)) a b) |}
      with (link_row (next_rowid (t_rows l)) a b).
    rewrite insert_row_last by (cbn [r_id link_row]; unfold next_rowid; lia).
    unfold add_row, logged. rewrite Hsch. reflexivity.
  - rewrite decide_True by reflexivity. reflexivity.
Qed.

Lemma association_loop_run (cache : gmap string value)
  (pending : list (Z * string)) :
  cached cache pending ->
  forall (st : state) (l : table),
  db st !! "sessions_speakers" = Some l ->
  t_schema l = sessions_speakers_sch ->
  exists st',
    association_loop
      (handle "sessions_speakers" Models.sessions_speakers_schema)
      cache pending st
    = (if (link_all cache pending (t_rows l)).2 then Ok tt
       else Raise link_failed, st')
    /\ db st' = <["sessions_speakers" :=
                    {| t_schema := sessions_speakers_sch;
                       t_rows := (link_all cache pending (t_rows l)).1 |}]>
                  (db st)
    /\ out st' = out st
    /\ ((link_all cache pending (t_rows l)).2 = false ->
        exists sid name b earlier,
          (sid, name) ∈ pending
          /\ cache !! name = Some (VInt b)
          /\ linked sid b (link_all cache pending (t_rows l)).1 <> []
          /\ log st' = earlier
                        ++ [SInsert (insert_of "sessions_speakers"
                                       (link_payload sid b))]).
Proof.
  induction 1 as [|[sid name] rest [b Hb] _ IH]; intros st l Hdb Hsch.
  - exists st. cbn [association_loop link_all fst snd].
    split; [reflexivity|]. split; [|split; [reflexivity|discriminate]].
    symmetry. apply insert_id. rewrite Hdb, table_eta by exact Hsch.
    reflexivity.
  - cbn [snd] in Hb. cbn [association_loop link_all]. rewrite Hb.
    unfold bind at 1.
    change [("session_id", VInt sid); ("speaker_id", VInt b)]
      with (link_payload sid b).
    rewrite (insert_link st l sid b Hdb Hsch). cbv zeta.
    destruct (linked sid b (t_rows l)) as [|r0 rs] eqn:Hlinked.
    + set (new := link_row (next_rowid (t_rows l)) sid b).
      destruct (IH (add_row "sessions_speakers" l new
                      (logged (SInsert (insert_of "sessions_speakers"
                                          (link_payload sid b))) st))
                   {| t_schema := t_schema l; t_rows := t_rows l ++ [new] |})
        as (st' & Hrun & Hdb' & Hout' & Hfail);
        [apply lookup_insert_eq|exact Hsch|].
      cbn [t_rows] in *. exists st'. split; [exact Hrun|].
      split; [rewrite Hdb'; cbn [db add_row logged];
              apply insert_insert_eq|].
      split; [rewrite Hout'; reflexivity|].
      intros Hf. destruct (Hfail Hf) as (sid' & name' & b' & pl & Hin & H).
      exists sid', name', b', pl. split; [right; exact Hin|exact H].
    + eexists. split; [reflexivity|]. cbn [fst snd db out log logged].
      split; [|split; [reflexivity|]].
      * symmetry. apply insert_id. rewrite Hdb, table_eta by exact Hsch.
        reflexivity.
      * intros _. exists sid, name, b, (log st).
        split; [left|]. split; [exact Hb|]. split; [|reflexivity].
        rewrite Hlinked. discriminate.
Qed.

Lemma linked_app (a b : Z) (x y : list row) :
  linked a b (x ++ y) = linked a b x ++ linked a b y.
Proof. apply filter_app. Qed.

Lemma linked_new (a b a' b' id : Z) :
  linked a b [link_row id a' b']
  = if decide (a' = a /\ b' = b) then [link_row id a' b'] else [].
Proof.
  unfold linked. rewrite filter_cons, filter_nil.
  change (cell (r_cells (link_row id a' b')) "session_id") with (SInt a').
  change (cell (r_cells (link_row id a' b')) "speaker_id") with (SInt b').
  destruct (decide (a' = a /\ b' = b)) as [[-> ->]|Hne].
  - rewrite !bool_decide_eq_true_2 by reflexivity.
    rewrite decide_True by reflexivity. reflexivity.
  - rewrite decide_False; [reflexivity|].
    rewrite andb_true_iff, !bool_decide_eq_true. intros [[= ?] [= ?]].
    apply Hne. split; assumption.
Qed.




(** While the loop goes on, a pair that has one association keeps it. *)
Lemma link_all_keeps (cache : gmap string value)
  (pending : list (Z * string)) (sid b : Z) (r : row) :
  forall rows,
  (link_all cache pending rows).2 = true ->
  linked sid b rows = [r] ->
  linked sid b (link_all cache pending rows).1 = [r].
Proof.
  induction pending as [|[sid0 name0] rest IH]; intros rows Hok Hone;
    [exact Hone|].
  cbn [link_all] in *.
  destruct (cache !! name0) as [[| |b0|]|]; try discriminate.
  destruct (linked sid0 b0 rows) as [|r0 rs] eqn:Hl0; [|discriminate].
  apply IH; [exact Hok|].
  rewrite linked_app, Hone, linked_new.
  destruct (decide (sid0 = sid /\ b0 = b)) as [[-> ->]|_]; [|reflexivity].
  rewrite Hone in Hl0. discriminate.
Qed.

(** When the loop comes to its end, every pending pair has exactly one
    association. *)
Lemma link_all_done (cache : gmap string value)
  (pending : list (Z * string)) (sid b : Z) (name : string) :
  forall rows,
  (link_all cache pending rows).2 = true ->
  (sid, name) ∈ pending ->
  cache !! name = Some (VInt b) ->
  exists r, linked sid b (link_all cache pending rows).1 = [r].
Proof.
  induction pending as [|[sid0 name0] rest IH]; intros rows Hok Hin Hb;
    [inversion Hin|].
  cbn [link_all] in *.
  destruct (cache !! name0) as [[| |b0|]|] eqn:Hb0; try discriminate.
  destruct (linked sid0 b0 rows) as [|r0 rs] eqn:Hl0; [|discriminate].
  destruct (decide ((sid, name) ∈ rest)) as [Hrest|Hrest].
  - apply IH; assumption.
  - apply elem_of_cons in Hin as [[= <- <-]|Hin]; [|contradiction].
    rewrite Hb in Hb0. injection Hb0 as <-.
    exists (link_row (next_rowid rows) sid b).
    apply link_all_keeps; [exact Hok|].
    rewrite linked_app, Hl0, linked_new, decide_True by (split; reflexivity).
    reflexivity.
Qed.

End Links.

(* ===================================================================== *)
(** * A whole import *)
(* ===================================================================== *)

Section WholeImport.
Import Py Utils Sqlite Engine DbTable ImportAgenda.

Lemma pending_names (session_ids : list Z) (cells : list value)
  (sid : Z) (n : string) :
  forall index,
  (sid, n) ∈ pending_from session_ids index cells -> n ∈ names_from cells.
Proof.
  induction cells as [|c cells IH]; intros index Hin; [inversion Hin|].
  cbn [pending_from names_from] in *.
  apply elem_of_app in Hin as [Hin|Hin]; apply elem_of_app.
  - left. destruct (session_ids !! index); [|inversion Hin].
    apply list_elem_of_fmap in Hin as [m [[= _ ->] Hm]]. exact Hm.
  - right. apply (IH (S index)), Hin.
Qed.

Lemma pending_from_elem (session_ids : list Z) (cells : list value)
  (sid : Z) (n : string) :
  forall (index i : nat) (c : value),
  cells !! i = Some c ->
  isna c = false ->
  n ∈ speaker_names c ->
  session_ids !! (index + i)%nat = Some sid ->
  (sid, n) ∈ pending_from session_ids index cells.
Proof.
  induction cells as [|c0 cells IH]; intros index i c Hi Hna Hn Hsid;
    [discriminate|].
  cbn [pending_from]. apply elem_of_app. destruct i as [|i].
  - left. injection Hi as ->. rewrite Nat.add_0_r in Hsid. rewrite Hsid.
    unfold names_of_cell. rewrite Hna.
    apply list_elem_of_fmap. exists n. split; [reflexivity|exact Hn].
  - right. apply (IH (S index) i c); try assumption.
    replace (S index + i)%nat with (index + S i)%nat by lia. exact Hsid.
Qed.


Lemma import_cached (rows : list excel_row) (ids : list Z) (ps : list row) :
  speakers_rows_ok ps ->
  cached (import_cache rows ps) (import_pending rows ids).
Proof.
  intros Hok. apply Forall_forall. intros [sid n] Hin. cbn [snd].
  apply pending_names in Hin.
  destruct (cache_all_named (import_names rows) n ps ∅ Hok Hin)
    as (r & _ & Hr).
  exists (r_id r). exact Hr.
Qed.

Lemma speakers_of_store (d : store) :
  store_ok d ->
  exists p, d !! "speakers" = Some p /\ t_schema p = speakers_sch
            /\ speakers_rows_ok (t_rows p).
Proof.
  intros [_ (p & Hp & Hsch & Hids & Htext & Huniq) _].
  exists p. split; [exact Hp|]. split; [exact Hsch|].
  unfold speakers_rows_ok. destruct p as [sch rows]. cbn in *. subst sch.
  split; [exact Hids|]. split; [exact Htext|exact Huniq].
Qed.

(** An import whose session phase completes: the speakers table gets the
    missing names, then the associations are inserted one by one until a
    pair is refused. *)
Lemma import_rows_run (rows : list excel_row) (st st1 : state)
  (p l : table) (ids : list Z) :
  store_ok (db st) ->
  db st !! "speakers" = Some p ->
  db st !! "sessions_speakers" = Some l ->
  process_session_data rows (handle "sessions" Models.sessions_schema)
    (opened st) = (Ok ids, st1) ->
  let links := import_links rows ids (t_rows p) (t_rows l) in
  exists st',
    import_rows rows st
    = (if links.2 then Ok tt else Raise link_failed, st')
    /\ db st' = <["sessions_speakers" :=
                    {| t_schema := sessions_speakers_sch; t_rows := links.1 |}]>
                  (<["speakers" :=
                       {| t_schema := speakers_sch;
                          t_rows := ensure_all (import_names rows) (t_rows p) |}]>
                     (db st1))
    /\ out st' = out st
    /\ (links.2 = false ->
        exists sid name b earlier,
          (sid, name) ∈ import_pending rows ids
          /\ import_cache rows (t_rows p) !! name = Some (VInt b)
          /\ linked sid b links.1 <> []
          /\ log st' = earlier
                        ++ [SInsert (insert_of "sessions_speakers"
                                       (link_payload sid b))]).
Proof.
  intros Hok Hp Hl Hsess links.
  pose proof (opened_db st Hok) as Hopen.
  destruct (speakers_of_store _ Hok) as (p' & Hp' & Hps & Hrows).
  rewrite Hp in Hp'. injection Hp' as <-.
  destruct Hok as [(t & Ht & Hts & _) _ (l' & Hl' & Hls)].
  rewrite Hl in Hl'. injection Hl' as <-.
  assert (Hrun := Hsess). unfold process_session_data in Hrun.
  apply (session_loop_ok (handle "sessions" Models.sessions_schema) rows
           eq_refl _ _ _ t) in Hrun
    as (Hids & Hdb1 & _ & Hout1); [|rewrite Hopen; exact Ht|exact Hts].
  rewrite Hopen in Hdb1.
  unfold import_rows.
  unfold bind at 1.
  rewrite (init_run "sessions" _ sessions_sch) by reflexivity.
  unfold bind at 1.
  rewrite (init_run "speakers" _ speakers_sch) by reflexivity.
  unfold bind at 1.
  rewrite (init_run "sessions_speakers" _ sessions_speakers_sch) by reflexivity.
  fold (opened st). unfold bind at 1. rewrite Hsess.
  unfold process_speaker_data.
  destruct (row_loop_run ids (map speakers rows) 0
              {| sessions_speakers := []; speaker_ids := ∅ |} st1 p)
    as (st2 & Hrow & Hdb2 & Hout2).
  { intros k Hk. apply lookup_lt_is_Some.
    rewrite Hids, !length_map, rows_ids_length.
    rewrite length_map in Hk. exact Hk. }
  { rewrite Hdb1, lookup_insert_ne by discriminate. exact Hp. }
  { exact Hps. }
  unfold bind at 1. rewrite Hrow. cbn [sessions_speakers speaker_ids app].
  destruct (association_loop_run (import_cache rows (t_rows p))
              (import_pending rows ids)
              (import_cached rows ids (t_rows p) Hrows) st2 l)
    as (st' & Hloop & Hdb' & Hout' & Hfail).
  { rewrite Hdb2, lookup_insert_ne by discriminate.
    rewrite Hdb1, lookup_insert_ne by discriminate. exact Hl. }
  { exact Hls. }
  exists st'. split; [exact Hloop|]. split; [rewrite Hdb', Hdb2; reflexivity|].
  split; [rewrite Hout', Hout2, Hout1; reflexivity|exact Hfail].
Qed.

End WholeImport.

(* ===================================================================== *)
(** * Speaker deduplication *)
(* ===================================================================== *)

Section Deduplication.
Import Py Utils Sqlite Engine DbTable ImportAgenda.

Lemma speaker_names_trimmed (c : value) (n : string) :
  n ∈ speaker_names c -> strip n = n.
Proof.
  unfold speaker_names. intros [x [-> _]]%list_elem_of_fmap. apply strip_idem.
Qed.

(** C2.  In an import that completes on a store written by the import, let
    two different rows both list the name [n] (each occurrence trimmed).
    Then afterwards exactly one speaker has the name [n]; the import added
    at most one row of that name to the speakers table (none when the name
    was there before); and for each of the two sessions there is exactly
    one association row, both with the id of that one speaker. *)
Theorem shared_speaker_is_stored_once
  (rows : list excel_row) (st st' : state) (p l : table) (i j : nat)
  (ri rj : excel_row) (n : string) :
  store_ok (db st) ->
  db st !! "speakers" = Some p ->
  db st !! "sessions_speakers" = Some l ->
  import_rows rows st = (Ok tt, st') ->
  i <> j ->
  rows !! i = Some ri -> rows !! j = Some rj ->
  isna (speakers ri) = false -> isna (speakers rj) = false ->
  n ∈ speaker_names (speakers ri) -> n ∈ speaker_names (speakers rj) ->
  exists (ids : list Z) (st1 : state) (idi idj : Z) (p' l' : table)
         (news : list row) (sp ai aj : row),
    process_session_data rows (handle "sessions" Models.sessions_schema)
      (opened st) = (Ok ids, st1)
    /\ ids !! i = Some idi /\ ids !! j = Some idj /\ idi <> idj
    /\ db st' !! "speakers" = Some p'
    /\ t_rows p' = t_rows p ++ news
    /\ named n (t_rows p') = [sp]
    /\ cell (r_cells sp) "id" = SInt (r_id sp)
    /\ (length (named n news) <= 1)%nat
    /\ db st' !! "sessions_speakers" = Some l'
    /\ linked idi (r_id sp) (t_rows l') = [ai]
    /\ linked idj (r_id sp) (t_rows l') = [aj].
Proof.
  intros Hok Hp Hl Hrun Hij Hi Hj Hnai Hnaj Hni Hnj.
  destruct (process_session_data rows
              (handle "sessions" Models.sessions_schema) (opened st))
    as [[ids|e] st1] eqn:Hsess.
  2:{ exfalso. revert Hrun. unfold import_rows.
      unfold bind at 1.
      rewrite (init_run "sessions" _ sessions_sch) by reflexivity.
      unfold bind at 1.
      rewrite (init_run "speakers" _ speakers_sch) by reflexivity.
      unfold bind at 1.
      rewrite (init_run "sessions_speakers" _ sessions_speakers_sch)
        by reflexivity.
      fold (opened st). unfold bind at 1. rewrite Hsess. discriminate. }
  destruct (import_rows_run rows st st1 p l ids Hok Hp Hl Hsess)
    as (st'' & Himp & Hdb' & _ & _).
  rewrite Hrun in Himp.
  destruct (import_links rows ids (t_rows p) (t_rows l)).2 eqn:Hlinks;
    [|discriminate].
  injection Himp as <-.
  pose proof (opened_db st Hok) as Hopen.
  destruct (speakers_of_store _ Hok) as (p0 & Hp0 & Hps & Hrows).
  rewrite Hp in Hp0. injection Hp0 as <-.
  pose proof Hok as [(t & Ht & Hts & _) _ _].
  assert (Hloop := Hsess). unfold process_session_data in Hloop.
  apply (session_loop_ok (handle "sessions" Models.sessions_schema) rows
           eq_refl _ _ _ t) in Hloop as (Hids & _);
    [|rewrite Hopen; exact Ht|exact Hts].
  set (m := next_rowid (t_rows t)) in *.
  assert (Hidi : ids !! i = Some (m + Z.of_nat i)).
  { rewrite Hids, list_lookup_fmap,
      (expected_rows_lookup rows VNone m i ri Hi). reflexivity. }
  assert (Hidj : ids !! j = Some (m + Z.of_nat j)).
  { rewrite Hids, list_lookup_fmap,
      (expected_rows_lookup rows VNone m j rj Hj). reflexivity. }
  assert (Hin : n ∈ import_names rows).
  { apply (pending_names ids (map speakers rows) (m + Z.of_nat i) n 0).
    apply (pending_from_elem ids _ _ n 0 i (speakers ri));
      [rewrite list_lookup_fmap, Hi; reflexivity|assumption..]. }
  destruct (cache_all_named (import_names rows) n (t_rows p) ∅ Hrows Hin)
    as (sp & Hsp & Hcache).
  rewrite (speaker_names_trimmed _ n Hni) in Hsp.
  destruct (ensure_all_extends (import_names rows) (t_rows p)) as [news Hnews].
  assert (Hpi : (m + Z.of_nat i, n) ∈ import_pending rows ids).
  { apply (pending_from_elem ids _ _ n 0 i (speakers ri));
      [rewrite list_lookup_fmap, Hi; reflexivity|assumption..]. }
  assert (Hpj : (m + Z.of_nat j, n) ∈ import_pending rows ids).
  { apply (pending_from_elem ids _ _ n 0 j (speakers rj));
      [rewrite list_lookup_fmap, Hj; reflexivity|assumption..]. }
  destruct (link_all_done _ _ _ (r_id sp) n (t_rows l) Hlinks Hpi Hcache)
    as [ai Hai].
  destruct (link_all_done _ _ _ (r_id sp) n (t_rows l) Hlinks Hpj Hcache)
    as [aj Haj].
  exists ids, st1, (m + Z.of_nat i), (m + Z.of_nat j),
    {| t_schema := speakers_sch;
       t_rows := ensure_all (import_names rows) (t_rows p) |},
    {| t_schema := sessions_speakers_sch;
       t_rows := (import_links rows ids (t_rows p) (t_rows l)).1 |},
    news, sp, ai, aj.
  split; [reflexivity|]. split; [exact Hidi|]. split; [exact Hidj|].
  split; [lia|].
  split; [rewrite Hdb', lookup_insert_ne by discriminate;
          apply lookup_insert_eq|].
  split; [exact Hnews|]. split; [exact Hsp|].
  split.
  { destruct (ensure_all_ok (import_names rows) (t_rows p) Hrows)
      as ((_ & Hid) & _).
    apply Hid. cbn [t_rows]. apply (named_elem n). rewrite Hsp. left. }
  split.
  { cbn [t_rows] in Hsp. rewrite Hnews, named_app in Hsp.
    apply (f_equal length) in Hsp. rewrite length_app in Hsp.
    cbn in Hsp. lia. }
  split; [rewrite Hdb'; apply lookup_insert_eq|].
  split; [exact Hai|exact Haj].
Qed.

Lemma shared_speaker_is_stored_once_witness :
  exists (ids : list Z) (st1 : state) (idi idj : Z) (p' l' : table)
         (news : list row) (sp ai aj : row),
    process_session_data agenda (handle "sessions" Models.sessions_schema)
      (opened fresh) = (Ok ids, st1)
    /\ ids !! 0%nat = Some idi /\ ids !! 1%nat = Some idj /\ idi <> idj
    /\ db (import_rows agenda fresh).2 !! "speakers" = Some p'
    /\ t_rows p' = t_rows (empty_table speakers_sch) ++ news
    /\ named "Ada Lovelace" (t_rows p') = [sp]
    /\ cell (r_cells sp) "id" = SInt (r_id sp)
    /\ (length (named "Ada Lovelace" news) <= 1)%nat
    /\ db (import_rows agenda fresh).2 !! "sessions_speakers" = Some l'
    /\ linked idi (r_id sp) (t_rows l') = [ai]
    /\ linked idj (r_id sp) (t_rows l') = [aj].
Proof.
  apply (shared_speaker_is_stored_once agenda fresh
           (import_rows agenda fresh).2
           (empty_table speakers_sch) (empty_table sessions_speakers_sch)
           0 1
           (agenda_row (VStr "Session") (VStr "Keynote")
                       (VStr "Ada Lovelace; Bob"))
           (agenda_row (VStr "Sub") (VStr "Part 1") (VStr " Ada Lovelace "))
           "Ada Lovelace");
    try (vm_compute; reflexivity).
  - exact fresh_ok.
  - lia.
  - vm_compute. repeat constructor.
  - vm_compute. repeat constructor.
Defined.

End Deduplication.

(* ===================================================================== *)
(** * A name listed twice in one row *)
(* ===================================================================== *)

Section RepeatedName.
Import Py Utils Sqlite Engine DbTable ImportAgenda.



End RepeatedName.

(* ===================================================================== *)
(** * The import keeps the store well formed *)
(* ===================================================================== *)

Section Preservation.
Import Py Utils Sqlite Engine DbTable ImportAgenda.

(** However the loop ends, the sessions table has gained the rows of a
    prefix of the input. *)
Lemma session_loop_any (tbl : db_table) (rows : list excel_row) :
  name tbl = "sessions" ->
  forall (last : value) (st st' : state) (t : table) (res : outcome (list Z)),
  db st !! "sessions" = Some t ->
  t_schema t = sessions_sch ->
  session_loop tbl rows last st = (res, st') ->
  exists k,
    db st' = <["sessions" :=
                 {| t_schema := sessions_sch;
                    t_rows := t_rows t
                              ++ expected_rows (take k rows) last
                                   (next_rowid (t_rows t)) |}]> (db st).
Proof.
  intros Hname. induction rows as [|row rest IH];
    intros last st st' t res Hdb Hsch Hrun.
  - injection Hrun as <- <-. exists 0%nat. cbn [take expected_rows].
    rewrite app_nil_r. symmetry. apply insert_id.
    rewrite Hdb, table_eta by exact Hsch. reflexivity.
  - rewrite session_loop_cons in Hrun. unfold bind at 1 in Hrun.
    rewrite (insert_session tbl _ st t Hname Hdb Hsch
               (session_data_keys row last)) in Hrun.
    destruct (session_data_of row last) as [|kv item] eqn:Hdata.
    + injection Hrun as <- <-. exists 0%nat. cbn [take expected_rows].
      rewrite app_nil_r. cbn [db logged]. symmetry. apply insert_id.
      rewrite Hdb, table_eta by exact Hsch. reflexivity.
    + rewrite <- Hdata in *. clear Hdata kv item. cbv zeta in Hrun.
      set (n := next_rowid (t_rows t)) in *.
      set (r := {| r_id := n;
                   r_cells := session_cells n (session_data_of row last) |}) in *.
      set (st1 := add_row "sessions" t r _) in Hrun.
      unfold bind in Hrun.
      destruct (session_loop tbl rest (track row n last) st1)
        as [res' st2] eqn:Hrest.
      assert (st' = st2) as ->
        by (destruct res'; unfold ret in Hrun; injection Hrun; congruence).
      apply (IH _ _ _ {| t_schema := t_schema t; t_rows := t_rows t ++ [r] |})
        in Hrest as [k Hk];
        [|subst st1; cbn [db add_row logged]; apply lookup_insert_eq|exact Hsch].
      exists (S k). rewrite Hk. subst st1. cbn [db add_row logged t_rows].
      rewrite (next_rowid_app _ r) by reflexivity. fold n.
      cbn [take expected_rows]. fold r.
      rewrite insert_insert_eq, <- app_assoc. reflexivity.
Qed.

Lemma track_below (row : excel_row) (last : value) (n : Z) :
  link_below last n -> link_below (track row n last) (n + 1).
Proof.
  unfold track. case_bool_decide; [cbn; lia|].
  destruct last; cbn; try tauto. lia.
Qed.

Lemma session_payload_no_link (row : excel_row) :
  assoc "supersession_id" (session_payload row) = None.
Proof.
  apply assoc_None. intros [kv [Heq Hin]]%list_elem_of_fmap.
  unfold session_payload in Hin. apply list_elem_of_filter in Hin as [_ Hin].
  apply list_elem_of_fmap in Hin as [key [-> Hkey]]. cbn [fst] in Heq.
  subst key. unfold Constants.SESSIONS_COLUMNS in Hkey.
  repeat (apply elem_of_cons in Hkey as [Hk|Hkey]; [discriminate|]).
  inversion Hkey.
Qed.

Lemma expected_row_cells (row : excel_row) (last : value) (id : Z) :
  link_below last id ->
  cell (session_cells id (session_data_of row last)) "id" = SInt id
  /\ cell (session_cells id (session_data_of row last)) "supersession_id"
     <> SInt id.
Proof.
  intros Hlast. split.
  - unfold session_cells. apply cell_set_cell_eq.
    unfold new_cells. cbn [map s_columns sessions_sch assoc].
    rewrite decide_True by reflexivity. eexists. reflexivity.
  - unfold session_data_of. case_bool_decide as Hsub.
    + fold (session_data_of row last).
      replace (dict_set "supersession_id" last (session_payload row))
        with (session_data_of row last)
        by (unfold session_data_of; rewrite bool_decide_eq_true_2 by exact Hsub;
            reflexivity).
      rewrite sub_row_link by exact Hsub.
      destruct last as [| |z|s]; cbn in Hlast; try contradiction.
      * discriminate.
      * cbn [text_of str]. rewrite coerce_integer_text. intros [= ?]. lia.
    + unfold session_cells. rewrite cell_set_cell_ne by discriminate.
      rewrite (cell_new_cells _ _ _ AffInteger) by reflexivity.
      rewrite (assoc_map_snd text_of), session_payload_no_link. discriminate.
Qed.

Lemma expected_rows_cells (rows : list excel_row) :
  forall (last : value) (n : Z) (r : row),
  link_below last n ->
  r ∈ expected_rows rows last n ->
  n <= r_id r
  /\ cell (r_cells r) "id" = SInt (r_id r)
  /\ cell (r_cells r) "supersession_id" <> SInt (r_id r).
Proof.
  induction rows as [|row rest IH]; intros last n r Hlast Hin;
    [inversion Hin|].
  cbn [expected_rows] in Hin. apply elem_of_cons in Hin as [->|Hin].
  - cbn [r_id r_cells]. split; [lia|]. apply expected_row_cells, Hlast.
  - apply IH in Hin as (Hle & H); [|apply track_below, Hlast].
    split; [lia|exact H].
Qed.

Lemma expected_rows_NoDup (rows : list excel_row) :
  forall (last : value) (n : Z),
  link_below last n -> NoDup (map r_id (expected_rows rows last n)).
Proof.
  induction rows as [|row rest IH]; intros last n Hlast; [constructor|].
  cbn [expected_rows map r_id]. constructor.
  - intros [r [Hid Hin]]%list_elem_of_fmap.
    apply expected_rows_cells in Hin as (Hle & _); [|apply track_below, Hlast].
    lia.
  - apply IH, track_below, Hlast.
Qed.

Lemma sessions_append_ok (t : table) (rows : list excel_row) :
  rowids_ok t -> no_self_link t ->
  let t' := {| t_schema := sessions_sch;
               t_rows := t_rows t
                         ++ expected_rows rows VNone (next_rowid (t_rows t)) |} in
  rowids_ok t' /\ no_self_link t'.
Proof.
  intros [Hnd Hid] Hself t'. subst t'. unfold rowids_ok, no_self_link.
  cbn [t_rows].
  assert (Hnew : forall r,
             r ∈ expected_rows rows VNone (next_rowid (t_rows t)) ->
             next_rowid (t_rows t) <= r_id r
             /\ cell (r_cells r) "id" = SInt (r_id r)
             /\ cell (r_cells r) "supersession_id" <> SInt (r_id r)).
  { intros r Hr. apply (expected_rows_cells rows VNone); [exact I|exact Hr]. }
  repeat split.
  - rewrite map_app. apply NoDup_app. split; [exact Hnd|].
    split; [|apply expected_rows_NoDup; exact I].
    intros id [r [-> Hr]]%list_elem_of_fmap [r' [Heq Hr']]%list_elem_of_fmap.
    apply max_rowid_bound in Hr. apply Hnew in Hr' as (Hle & _).
    unfold next_rowid in Hle. lia.
  - intros r [Hr|Hr]%elem_of_app; [apply Hid, Hr|apply Hnew, Hr].
  - intros r [Hr|Hr]%elem_of_app; [apply Hself, Hr|apply Hnew, Hr].
Qed.

Lemma import_rows_stops (rows : list excel_row) (st st1 : state) (e : exn) :
  process_session_data rows (handle "sessions" Models.sessions_schema)
    (opened st) = (Raise e, st1) ->
  import_rows rows st = (Raise e, st1).
Proof.
  intros Hsess. unfold import_rows.
  unfold bind at 1.
  rewrite (init_run "sessions" _ sessions_sch) by reflexivity.
  unfold bind at 1.
  rewrite (init_run "speakers" _ speakers_sch) by reflexivity.
  unfold bind at 1.
  rewrite (init_run "sessions_speakers" _ sessions_speakers_sch) by reflexivity.
  fold (opened st). unfold bind at 1. rewrite Hsess. reflexivity.
Qed.

Lemma import_rows_store_ok (rows : list excel_row) (st st' : state)
  (res : outcome unit) :
  store_ok (db st) ->
  import_rows rows st = (res, st') ->
  store_ok (db st').
Proof.
  intros Hok Hrun.
  pose proof (opened_db st Hok) as Hopen.
  destruct (speakers_of_store _ Hok) as (p & Hp & Hps & Hprows).
  pose proof Hok as [(t & Ht & Hts & Hrow & Hself) Hspk (l & Hl & Hls)].
  destruct (process_session_data rows
              (handle "sessions" Models.sessions_schema) (opened st))
    as [res1 st1] eqn:Hsess.
  assert (Hany := Hsess). unfold process_session_data in Hany.
  apply (session_loop_any (handle "sessions" Models.sessions_schema) rows
           eq_refl _ _ _ t) in Hany as [k Hdb1];
    [|rewrite Hopen; exact Ht|exact Hts].
  rewrite Hopen in Hdb1.
  destruct (sessions_append_ok t (take k rows) Hrow Hself) as [Hrow' Hself'].
  destruct res1 as [ids|e].
  - destruct (import_rows_run rows st st1 p l ids Hok Hp Hl Hsess)
      as (st'' & Himp & Hdb' & _).
    rewrite Hrun in Himp. injection Himp as _ <-.
    split.
    + eexists. split.
      { rewrite Hdb', !lookup_insert_ne by discriminate.
        rewrite Hdb1. apply lookup_insert_eq. }
      split; [reflexivity|]. split; [exact Hrow'|exact Hself'].
    + eexists. split.
      { rewrite Hdb', lookup_insert_ne by discriminate.
        apply lookup_insert_eq. }
      split; [reflexivity|].
      destruct (ensure_all_ok (import_names rows) (t_rows p) Hprows)
        as (H1 & H2 & H3).
      split; [exact H1|]. split; [exact H2|exact H3].
    + eexists. split; [rewrite Hdb'; apply lookup_insert_eq|reflexivity].
  - rewrite (import_rows_stops rows st st1 e Hsess) in Hrun.
    injection Hrun as _ <-.
    split.
    + eexists. split; [rewrite Hdb1; apply lookup_insert_eq|].
      split; [reflexivity|]. split; [exact Hrow'|exact Hself'].
    + destruct Hspk as (p0 & Hp0 & H). exists p0.
      split; [rewrite Hdb1, lookup_insert_ne by discriminate; exact Hp0|exact H].
    + exists l.
      split; [rewrite Hdb1, lookup_insert_ne by discriminate; exact Hl|exact Hls].
Qed.

(** X5.  However an import ends, with or without an error, it leaves the
    store as well formed as it found it: the three tables keep their
    schemas, rowids stay distinct and shown in the [id] columns, no session
    is its own supersession, and speaker names stay texts that no two
    speakers share.  So the hypothesis [store_ok] of the statements above
    holds of a new database and of everything imports make of it. *)
Theorem import_keeps_store_ok (rows : list excel_row) (st st' : state)
  (res : outcome unit) :
  store_ok (db st) ->
  import_rows rows st = (res, st') ->
  store_ok (db st').
Proof. exact (import_rows_store_ok rows st st' res). Qed.

Lemma import_keeps_store_ok_witness :
  store_ok (db (import_rows agenda fresh).2).
Proof.
  apply (import_keeps_store_ok agenda fresh (import_rows agenda fresh).2
           (import_rows agenda fresh).1).
  - exact fresh_ok.
  - destruct (import_rows agenda fresh); reflexivity.
Defined.

End Preservation.

(* ===================================================================== *)
(** * What the session phase returns and stores *)
(* ===================================================================== *)

Section SessionRows.
Import Py Utils Sqlite Engine DbTable Constants ImportAgenda.

Lemma assoc_filter_value (k : string) (P : value -> bool) (d : dict) :
  NoDup (map fst d) ->
  assoc k (filter (fun kv => P kv.2 = true) d)
  = match assoc k d with
    | Some v => if P v then Some v else None
    | None => None
    end.
Proof.
  induction d as [|[k' v'] d IH]; intros Hnd; [reflexivity|].
  cbn [map fst] in Hnd. apply NoDup_cons in Hnd as [Hnotin Hnd].
  rewrite filter_cons. cbn [snd assoc].
  destruct (decide (k = k')) as [->|Hne].
  - destruct (decide (P v' = true)) as [HP|HP].
    + cbn [assoc]. rewrite decide_True by reflexivity. rewrite HP. reflexivity.
    + apply not_true_is_false in HP. rewrite HP.
      apply assoc_None. intros Hin. apply Hnotin.
      apply list_elem_of_fmap in Hin as [kv [-> Hkv]].
      apply list_elem_of_filter in Hkv as [_ Hkv].
      apply list_elem_of_fmap. exists kv. split; [reflexivity|exact Hkv].
  - destruct (decide (P v' = true)); [cbn [assoc]; rewrite decide_False by exact Hne|];
      apply IH, Hnd.
Qed.

Lemma assoc_dict_set_ne (k k' : string) (v : value) (d : dict) :
  k <> k' -> assoc k' (dict_set k v d) = assoc k' d.
Proof.
  intros Hne. induction d as [|[k0 v0] d IH]; cbn [dict_set assoc].
  - rewrite decide_False by congruence. reflexivity.
  - destruct (decide (k = k0)) as [->|Hk]; cbn [assoc].
    + rewrite !decide_False by congruence. reflexivity.
    + destruct (decide (k' = k0)); [reflexivity|exact IH].
Qed.

(** The payload holds a cell exactly when the cell is present. *)
Lemma session_payload_get (row : excel_row) (key : string) :
  key ∈ SESSIONS_COLUMNS ->
  assoc key (session_payload row)
  = if notna (row_get row key) then Some (row_get row key) else None.
Proof.
  intros Hkey. unfold session_payload.
  rewrite (assoc_filter_value key notna).
  2:{ rewrite map_map. cbn. apply (bool_decide_unpack _). vm_compute.
      exact I. }
  unfold SESSIONS_COLUMNS in *.
  repeat (apply elem_of_cons in Hkey as [->|Hkey]; [reflexivity|]).
  inversion Hkey.
Qed.

(** The cells of the row inserted for an input row. *)
Lemma session_cells_get (row : excel_row) (last : value) (id : Z)
  (key : string) :
  key ∈ SESSIONS_COLUMNS ->
  cell (session_cells id (session_data_of row last)) key
  = stored_of (row_get row key).
Proof.
  intros Hkey.
  assert (Hid : "id" <> key /\ "supersession_id" <> key
                /\ assoc key (s_columns sessions_sch) = Some AffText).
  { unfold SESSIONS_COLUMNS in Hkey.
    repeat (apply elem_of_cons in Hkey as [->|Hkey];
            [repeat split; discriminate|]).
    inversion Hkey. }
  destruct Hid as (Hid & Hsup & Haff).
  unfold session_cells. rewrite cell_set_cell_ne by exact Hid.
  rewrite (cell_new_cells _ _ _ AffText) by exact Haff.
  rewrite (assoc_map_snd text_of).
  assert (Hget : assoc key (session_data_of row last)
                 = assoc key (session_payload row)).
  { unfold session_data_of. case_bool_decide; [|reflexivity].
    apply assoc_dict_set_ne, Hsup. }
  rewrite Hget, session_payload_get by exact Hkey.
  unfold stored_of. destruct (notna (row_get row key)); reflexivity.
Qed.

(** X1.  A completed [process_session_data] returns one id per input row,
    in row order: the ids count up from the table's next rowid, the rows
    they name are appended behind the rows the table had, and those are
    left as they were. *)
Theorem session_ids_follow_rows
  (tbl : db_table) (rows : list excel_row) (st st' : state) (t : table)
  (ids : list Z) :
  name tbl = "sessions" ->
  db st !! "sessions" = Some t ->
  t_schema t = sessions_sch ->
  process_session_data rows tbl st = (Ok ids, st') ->
  length ids = length rows
  /\ (forall i id, ids !! i = Some id ->
                   id = next_rowid (t_rows t) + Z.of_nat i)
  /\ exists news,
       (t_rows <$> db st' !! "sessions") = Some (t_rows t ++ news)
       /\ map r_id news = ids.
Proof.
  intros Hname Hdb Hsch Hrun. unfold process_session_data in Hrun.
  apply (session_loop_ok tbl rows Hname _ _ _ t _ Hdb Hsch) in Hrun
    as (Hids & Hdb' & _ & _).
  set (n := next_rowid (t_rows t)) in *.
  split; [rewrite Hids, length_map; apply rows_ids_length|].
  split.
  - intros i id Hi. rewrite Hids, list_lookup_fmap in Hi.
    destruct (expected_rows rows VNone n !! i) as [r|] eqn:Hr; [|discriminate].
    injection Hi as <-.
    assert (Hlen : (i < length rows)%nat).
    { rewrite <- (rows_ids_length rows VNone n).
      apply lookup_lt_is_Some. eauto. }
    apply lookup_lt_is_Some in Hlen as [row Hrow].
    rewrite (expected_rows_lookup rows VNone n i row Hrow) in Hr.
    injection Hr as <-. reflexivity.
  - exists (expected_rows rows VNone n).
    rewrite Hdb', lookup_insert_eq. split; [reflexivity|].
    symmetry. exact Hids.
Qed.

Lemma session_ids_follow_rows_witness :
  let run := process_session_data agenda
               (handle "sessions" Models.sessions_schema) fresh in
  length [1; 2; 3] = length agenda
  /\ (forall i id, [1; 2; 3] !! i = Some id ->
                   id = next_rowid (t_rows (empty_table sessions_sch))
                        + Z.of_nat i)
  /\ exists news,
       (t_rows <$> db run.2 !! "sessions")
       = Some (t_rows (empty_table sessions_sch) ++ news)
       /\ map r_id news = [1; 2; 3].
Proof.
  intros run.
  apply (session_ids_follow_rows
           (handle "sessions" Models.sessions_schema) agenda fresh run.2
           (empty_table sessions_sch) [1; 2; 3]);
    vm_compute; reflexivity.
Defined.

(** X2.  After a completed [process_session_data], the row stored under
    the id returned for an input row holds, in each of the six session
    columns, the cell of the input row as text, trimmed when the cell is a
    string and with its apostrophes as they were, or NULL when the cell is
    empty; its [id] column shows the id; and a row that is not of type
    "Sub" has no supersession. *)
Theorem session_row_holds_cells
  (tbl : db_table) (rows : list excel_row) (st st' : state) (t : table)
  (ids : list Z) (i : nat) (row : excel_row) :
  name tbl = "sessions" ->
  db st !! "sessions" = Some t ->
  t_schema t = sessions_sch ->
  process_session_data rows tbl st = (Ok ids, st') ->
  rows !! i = Some row ->
  exists (id : Z) (t' : table) (r : Sqlite.row),
    ids !! i = Some id
    /\ db st' !! "sessions" = Some t'
    /\ r ∈ t_rows t' /\ r_id r = id
    /\ cell (r_cells r) "id" = SInt id
    /\ (forall key, key ∈ SESSIONS_COLUMNS ->
                    cell (r_cells r) key = stored_of (row_get row key))
    /\ (session_type row <> VStr "Sub" ->
        cell (r_cells r) "supersession_id" = SNull).
Proof.
  intros Hname Hdb Hsch Hrun Hi. unfold process_session_data in Hrun.
  apply (session_loop_ok tbl rows Hname _ _ _ t _ Hdb Hsch) in Hrun
    as (Hids & Hdb' & _ & _).
  set (n := next_rowid (t_rows t)) in *.
  pose proof (expected_rows_lookup rows VNone n i row Hi) as Hr.
  set (last := tracked_at rows VNone n i) in Hr.
  set (r := {| r_id := n + Z.of_nat i; r_cells := _ |}) in Hr.
  exists (n + Z.of_nat i),
    {| t_schema := sessions_sch;
       t_rows := t_rows t ++ expected_rows rows VNone n |}, r.
  split; [rewrite Hids, list_lookup_fmap, Hr; reflexivity|].
  split; [rewrite Hdb'; apply lookup_insert_eq|].
  split; [cbn [t_rows]; apply elem_of_app; right;
          apply list_elem_of_lookup; exists i; exact Hr|].
  split; [reflexivity|].
  split.
  { subst r. cbn [r_cells]. unfold session_cells. apply cell_set_cell_eq.
    unfold new_cells. cbn [map s_columns sessions_sch assoc].
    rewrite decide_True by reflexivity. eexists. reflexivity. }
  split.
  { intros key Hkey. subst r. cbn [r_cells]. apply session_cells_get, Hkey. }
  intros Hsub. subst r. cbn [r_cells]. unfold session_cells, session_data_of.
  rewrite bool_decide_eq_false_2 by exact Hsub.
  rewrite cell_set_cell_ne by discriminate.
  rewrite (cell_new_cells _ _ _ AffInteger) by reflexivity.
  rewrite (assoc_map_snd text_of), session_payload_no_link. reflexivity.
Qed.

Lemma session_row_holds_cells_witness :
  let run := process_session_data agenda
               (handle "sessions" Models.sessions_schema) fresh in
  let row := agenda_row (VStr "Sub") (VStr "Part 1") (VStr " Ada Lovelace ") in
  exists (id : Z) (t' : table) (r : Sqlite.row),
    [1; 2; 3] !! 1%nat = Some id
    /\ db run.2 !! "sessions" = Some t'
    /\ r ∈ t_rows t' /\ r_id r = id
    /\ cell (r_cells r) "id" = SInt id
    /\ (forall key, key ∈ SESSIONS_COLUMNS ->
                    cell (r_cells r) key = stored_of (row_get row key))
    /\ (session_type row <> VStr "Sub" ->
        cell (r_cells r) "supersession_id" = SNull).
Proof.
  intros run row.
  apply (session_row_holds_cells
           (handle "sessions" Models.sessions_schema) agenda fresh run.2
           (empty_table sessions_sch) [1; 2; 3] 1 row);
    vm_compute; reflexivity.
Defined.

End SessionRows.

(* ===================================================================== *)
(** * Rows without any cell *)
(* ===================================================================== *)

Section EmptyRows.
Import Py Utils Sqlite Engine DbTable Constants ImportAgenda.

#[local] Instance insertable_dec (row : excel_row) : Decision (insertable row).
Proof. unfold insertable. apply _. Defined.

(** The loop stops at the first row that is not insertable: the INSERT it
    sends names no column.  The rows before it have been inserted. *)
Lemma session_loop_stops (tbl : db_table) (blank : excel_row)
  (post : list excel_row) :
  name tbl = "sessions" ->
  ~ insertable blank ->
  forall (pre : list excel_row) (last : value) (st : state) (t : table),
  Forall insertable pre ->
  db st !! "sessions" = Some t ->
  t_schema t = sessions_sch ->
  exists st',
    session_loop tbl (pre ++ blank :: post) last st
    = (Raise (syntax_error ")"), st')
    /\ db st' = <["sessions" :=
                    {| t_schema := sessions_sch;
                       t_rows := t_rows t
                                 ++ expected_rows pre last
                                      (next_rowid (t_rows t)) |}]> (db st)
    /\ out st' = out st.
Proof.
  intros Hname Hblank. induction pre as [|row pre IH];
    intros last st t Hpre Hdb Hsch.
  - cbn [app]. rewrite session_loop_cons. unfold bind at 1.
    rewrite (insert_session tbl _ st t Hname Hdb Hsch
               (session_data_keys blank last)).
    assert (Hdata : session_data_of blank last = []).
    { unfold session_data_of. unfold insertable in Hblank.
      case_bool_decide as Hsub; [exfalso; apply Hblank; left; exact Hsub|].
      destruct (session_payload blank); [reflexivity|].
      exfalso. apply Hblank. right. discriminate. }
    rewrite Hdata. eexists. split; [reflexivity|].
    cbn [db out logged expected_rows]. rewrite app_nil_r.
    split; [|reflexivity]. symmetry. apply insert_id.
    rewrite Hdb, table_eta by exact Hsch. reflexivity.
  - apply Forall_cons in Hpre as [Hrow Hpre].
    cbn [app]. rewrite session_loop_cons. unfold bind at 1.
    rewrite (insert_session tbl _ st t Hname Hdb Hsch
               (session_data_keys row last)).
    assert (Hne : session_data_of row last <> []).
    { unfold session_data_of. case_bool_decide as Hsub;
        [apply dict_set_nonempty|].
      destruct Hrow as [Hrow|Hrow]; [contradiction|exact Hrow]. }
    destruct (session_data_of row last) as [|kv item] eqn:Hdata;
      [contradiction|]. rewrite <- Hdata. clear Hdata Hne kv item.
    cbv zeta. set (n := next_rowid (t_rows t)).
    set (r := {| r_id := n; r_cells := _ |}).
    set (st1 := add_row "sessions" t r _).
    destruct (IH (track row n last) st1
                {| t_schema := t_schema t; t_rows := t_rows t ++ [r] |} Hpre)
      as (st' & Hrun & Hdb' & Hout');
      [subst st1; cbn [db add_row logged]; apply lookup_insert_eq|exact Hsch|].
    exists st'. unfold bind. rewrite Hrun. split; [reflexivity|].
    cbn [t_rows] in Hdb'. rewrite (next_rowid_app _ r) in Hdb' by reflexivity.
    fold n in Hdb'. rewrite Hdb', Hout'. subst st1.
    cbn [db out add_row logged expected_rows]. fold r.
    rewrite insert_insert_eq, <- app_assoc. split; reflexivity.
Qed.

Lemma first_not_insertable (rows : list excel_row) :
  ~ Forall insertable rows ->
  exists pre blank post,
    rows = pre ++ blank :: post /\ Forall insertable pre /\ ~ insertable blank.
Proof.
  induction rows as [|row rows IH]; intros Hnot.
  - exfalso. apply Hnot. constructor.
  - destruct (decide (insertable row)) as [Hrow|Hrow].
    + destruct IH as (pre & blank & post & -> & Hpre & Hblank).
      { intros Hall. apply Hnot. constructor; assumption. }
      exists (row :: pre), blank, post.
      split; [reflexivity|]. split; [constructor; assumption|exact Hblank].
    + exists [], row, rows. split; [reflexivity|]. split; [constructor|exact Hrow].
Qed.

(** X3.  For rows without a NUL character in a cell (a statement with
    one is refused before it is executed), [process_session_data]
    completes exactly when every row is of type "Sub" or has at least one
    of its six cells; otherwise it raises the engine's syntax error for an
    INSERT without columns. *)
Theorem session_phase_completes_iff
  (tbl : db_table) (rows : list excel_row) (st : state) (t : table) :
  name tbl = "sessions" ->
  db st !! "sessions" = Some t ->
  t_schema t = sessions_sch ->
  Forall (fun row => nul_free row = true) rows ->
  ((exists ids st', process_session_data rows tbl st = (Ok ids, st'))
   <-> Forall insertable rows)
  /\ (~ Forall insertable rows ->
      (process_session_data rows tbl st).1 = Raise (syntax_error ")")).
Proof.
  intros Hname Hdb Hsch _.
  assert (Hstop : ~ Forall insertable rows ->
                  (process_session_data rows tbl st).1
                  = Raise (syntax_error ")")).
  { intros Hnot.
    destruct (first_not_insertable rows Hnot)
      as (pre & blank & post & -> & Hpre & Hblank).
    destruct (session_loop_stops tbl blank post Hname Hblank pre VNone st t
                Hpre Hdb Hsch) as (st' & Hrun & _).
    unfold process_session_data. rewrite Hrun. reflexivity. }
  split; [split|exact Hstop].
  - intros (ids & st' & Hrun).
    destruct (decide (Forall insertable rows)) as [Hall|Hnot]; [exact Hall|].
    apply Hstop in Hnot. rewrite Hrun in Hnot. discriminate.
  - intros Hall. unfold process_session_data.
    apply (session_loop_completes tbl rows Hname Hall VNone st t Hdb Hsch).
Qed.

Lemma session_phase_completes_iff_witness :
  let tbl := handle "sessions" Models.sessions_schema in
  let rows := agenda ++ [blank_row] in
  ((exists ids st', process_session_data rows tbl fresh = (Ok ids, st'))
   <-> Forall insertable rows)
  /\ (~ Forall insertable rows ->
      (process_session_data rows tbl fresh).1 = Raise (syntax_error ")")).
Proof.
  intros tbl rows.
  apply (session_phase_completes_iff tbl rows fresh
           (empty_table sessions_sch)); try reflexivity.
  repeat (constructor; [reflexivity|]). constructor.
Defined.

(** X4.  When the first row that is neither of type "Sub" nor has a cell
    comes after the rows [pre], which hold no NUL character in a cell (a
    statement with one is refused before it is executed), the import ends
    with the syntax error;
    the sessions of [pre] stay in the sessions table, behind the rows it
    had, and the speakers and association tables are as they were. *)
Theorem empty_row_keeps_earlier_sessions
  (pre post : list excel_row) (blank : excel_row) (st : state) (t : table) :
  store_ok (db st) ->
  db st !! "sessions" = Some t ->
  Forall insertable pre ->
  Forall (fun row => nul_free row = true) pre ->
  ~ insertable blank ->
  exists st',
    import_rows (pre ++ blank :: post) st = (Raise (syntax_error ")"), st')
    /\ (t_rows <$> db st' !! "sessions")
       = Some (t_rows t ++ expected_rows pre VNone (next_rowid (t_rows t)))
    /\ db st' !! "speakers" = db st !! "speakers"
    /\ db st' !! "sessions_speakers" = db st !! "sessions_speakers"
    /\ out st' = out st.
Proof.
  intros Hok Hdb Hpre _ Hblank.
  pose proof (opened_db st Hok) as Hopen.
  pose proof Hok as [(t0 & Ht0 & Hsch & _) _ _].
  rewrite Hdb in Ht0. injection Ht0 as <-.
  destruct (session_loop_stops (handle "sessions" Models.sessions_schema)
              blank post eq_refl Hblank pre VNone (opened st) t Hpre)
    as (st' & Hrun & Hdb' & Hout'); [rewrite Hopen; exact Hdb|exact Hsch|].
  exists st'. rewrite Hopen in Hdb'.
  split; [apply import_rows_stops; exact Hrun|].
  rewrite Hdb'. split; [rewrite lookup_insert_eq; reflexivity|].
  split; [apply lookup_insert_ne; discriminate|].
  split; [apply lookup_insert_ne; discriminate|].
  rewrite Hout'. reflexivity.
Qed.

Lemma empty_row_keeps_earlier_sessions_witness :
  exists st',
    import_rows (agenda ++ blank_row :: agenda) fresh
    = (Raise (syntax_error ")"), st')
    /\ (t_rows <$> db st' !! "sessions")
       = Some (t_rows (empty_table sessions_sch)
               ++ expected_rows agenda VNone
                    (next_rowid (t_rows (empty_table sessions_sch))))
    /\ db st' !! "speakers" = db fresh !! "speakers"
    /\ db st' !! "sessions_speakers" = db fresh !! "sessions_speakers"
    /\ out st' = out fresh.
Proof.
  apply (empty_row_keeps_earlier_sessions agenda agenda blank_row fresh
           (empty_table sessions_sch)).
  - exact fresh_ok.
  - reflexivity.
  - repeat (constructor; [right; vm_compute; discriminate|]). constructor.
  - repeat (constructor; [reflexivity|]). constructor.
  - intros [H|H]; [discriminate|]. apply H. reflexivity.
Defined.

End EmptyRows.

(* ===================================================================== *)
(** * Invocations that are rejected *)
(* ===================================================================== *)

Section Invocation.
Import Py Utils Sqlite Engine DbTable Constants.

(** [path_suffix] on names with several dots, with a leading or a
    trailing dot, and on paths that end with a slash. *)
Example path_suffix_of_names :
  ImportAgenda.path_suffix "agenda.xls" = ".xls"
  /\ ImportAgenda.path_suffix "in.d/agenda.tar.xls" = ".xls"
  /\ ImportAgenda.path_suffix "agenda.xls/" = ".xls"
  /\ ImportAgenda.path_suffix "./agenda.xls/." = ".xls"
  /\ ImportAgenda.path_suffix "..xls" = ".xls"
  /\ ImportAgenda.path_suffix ".xls" = EmptyString
  /\ ImportAgenda.path_suffix "agenda." = EmptyString
  /\ ImportAgenda.path_suffix "in.d/agenda" = EmptyString
  /\ ImportAgenda.path_suffix "in.xls/.." = EmptyString
  /\ ImportAgenda.path_suffix EmptyString = EmptyString.
Proof. vm_compute. repeat split. Qed.

(** X6.  An import that is not started with exactly one argument naming
    an existing file whose suffix is ".xls" ends with status 1 and one
    printed line, before any statement is sent: no table is created, the
    store is untouched and the spreadsheet reader is not consulted.  The
    checks are made in this order: the number of arguments, then the
    existence of the file, then its suffix. *)
Theorem invalid_invocation_sends_nothing
  (argv : list string) (is_file : string -> bool)
  (read_excel : string -> exn + list ImportAgenda.excel_row) (st : state) :
  let path := nth 1 argv EmptyString in
  ~ (length argv = 2%nat /\ is_file path = true
     /\ ImportAgenda.path_suffix path = ".xls") ->
  exists msg,
    ImportAgenda.main argv is_file read_excel st
    = (1, printed ["Error occured: " +:+ msg] st)
    /\ (length argv <> 2%nat -> msg = IMPORT_INCORRECT_ARG_AMOUNT_ERROR)
    /\ (length argv = 2%nat -> is_file path = false ->
        msg = IMPORT_INVALID_PATH_ERROR)
    /\ (length argv = 2%nat -> is_file path = true ->
        msg = IMPORT_INVALID_FILENAME_ERROR).
Proof.
  intros path Hbad.
  unfold ImportAgenda.main, ImportAgenda.body, ImportAgenda.validate_path.
  fold path.
  destruct (Nat.eqb_spec (length argv) 2) as [Hlen|Hlen]; cbn [negb].
  - destruct (is_file path) eqn:Hfile; cbn [negb].
    + case_bool_decide as Hsuf; [exfalso; apply Hbad; auto|]. cbn [negb].
      exists IMPORT_INVALID_FILENAME_ERROR.
      split; [reflexivity|]. repeat split; congruence.
    + exists IMPORT_INVALID_PATH_ERROR.
      split; [reflexivity|]. repeat split; congruence.
  - exists IMPORT_INCORRECT_ARG_AMOUNT_ERROR.
    split; [reflexivity|]. repeat split; congruence.
Qed.

Lemma invalid_invocation_sends_nothing_witness :
  exists msg,
    ImportAgenda.main ["import_agenda.py"; "agenda.csv"] (fun _ => true)
      (fun _ => inr agenda) fresh
    = (1, printed ["Error occured: " +:+ msg] fresh)
    /\ (length ["import_agenda.py"; "agenda.csv"] <> 2%nat ->
        msg = IMPORT_INCORRECT_ARG_AMOUNT_ERROR)
    /\ (length ["import_agenda.py"; "agenda.csv"] = 2%nat ->
        true = false -> msg = IMPORT_INVALID_PATH_ERROR)
    /\ (length ["import_agenda.py"; "agenda.csv"] = 2%nat ->
        true = true -> msg = IMPORT_INVALID_FILENAME_ERROR).
Proof.
  apply (invalid_invocation_sends_nothing ["import_agenda.py"; "agenda.csv"]
           (fun _ => true) (fun _ => inr agenda) fresh).
  intros (_ & _ & H). vm_compute in H. discriminate.
Defined.

(** X7.  A lookup started with fewer than two arguments, or with a first
    argument that is not one of the seven query columns, ends with status 1
    and one printed line before any handle is opened: no statement is
    sent and the store is untouched.  The number of arguments is checked
    first. *)
Theorem invalid_query_sends_nothing (argv : list string) (st : state) :
  ~ ((3 <= length argv)%nat /\ nth 1 argv EmptyString ∈ QUERY_COLUMNS) ->
  exists msg,
    LookupAgenda.main argv st = (1, printed ["Error occured: " +:+ msg] st)
    /\ ((length argv < 3)%nat -> msg = LOOKUP_NOT_ENOUGH_ARGS_ERROR)
    /\ ((3 <= length argv)%nat -> msg = LOOKUP_INVALID_COLUMN_ERROR).
Proof.
  intros Hbad.
  unfold LookupAgenda.main, LookupAgenda.body, LookupAgenda.validate_query.
  destruct (Nat.ltb_spec (length argv) 3) as [Hlen|Hlen].
  - exists LOOKUP_NOT_ENOUGH_ARGS_ERROR.
    split; [reflexivity|]. split; [reflexivity|lia].
  - case_bool_decide as Hcol; [exfalso; apply Hbad; auto|]. cbn [negb].
    exists LOOKUP_INVALID_COLUMN_ERROR.
    split; [reflexivity|]. split; [lia|reflexivity].
Qed.

Lemma invalid_query_sends_nothing_witness :
  exists msg,
    LookupAgenda.main ["lookup_agenda.py"; "speakers"; "Ada"] nested
    = (1, printed ["Error occured: " +:+ msg] nested)
    /\ ((length ["lookup_agenda.py"; "speakers"; "Ada"] < 3)%nat ->
        msg = LOOKUP_NOT_ENOUGH_ARGS_ERROR)
    /\ ((3 <= length ["lookup_agenda.py"; "speakers"; "Ada"])%nat ->
        msg = LOOKUP_INVALID_COLUMN_ERROR).
Proof.
  apply (invalid_query_sends_nothing
           ["lookup_agenda.py"; "speakers"; "Ada"] nested).
  intros [_ H]. revert H. apply (bool_decide_eq_false_1 _). vm_compute.
  reflexivity.
Defined.

End Invocation.

(* ===================================================================== *)
(** * The lookup reads only *)
(* ===================================================================== *)

Section ReadOnly.
Import Py Utils Sqlite Engine DbTable Constants LookupAgenda.

Lemma keeps_bind {A B : Type} (m : M A) (k : A -> M B) :
  keeps_db m -> (forall a, keeps_db (k a)) -> keeps_db (bind m k).
Proof.
  intros Hm Hk st. unfold bind. specialize (Hm st).
  destruct (m st) as [[a|e] st1]; cbn [snd] in *.
  - rewrite Hk. exact Hm.
  - exact Hm.
Qed.

Lemma keeps_ret {A : Type} (a : A) : keeps_db (ret a).
Proof. intros st. reflexivity. Qed.

Lemma keeps_raise {A : Type} (e : exn) : keeps_db (@raise A e).
Proof. intros st. reflexivity. Qed.

Lemma keeps_print (s : string) : keeps_db (print s).
Proof. intros st. reflexivity. Qed.

Lemma keeps_getitem (d : dict) (key : string) : keeps_db (getitem d key).
Proof. intros st. unfold getitem. destruct (dict_get key d); reflexivity. Qed.

Lemma keeps_select (self : db_table) (columns : list string)
  (join : list (db_table * db_table * string * string))
  (where_ : list (string * where_value)) :
  keeps_db (select self columns join where_).
Proof.
  intros st. rewrite select_run. cbv zeta.
  destruct (select_rows (db st) _); reflexivity.
Qed.

Lemma keeps_for_each {A B : Type} (f : A -> M B) (l : list A) :
  (forall a, keeps_db (f a)) -> keeps_db (for_each f l).
Proof.
  intros Hf. induction l as [|a l IH]; cbn [for_each].
  - apply keeps_ret.
  - apply keeps_bind; [apply Hf|]. intros b.
    apply keeps_bind; [exact IH|]. intros bs. apply keeps_ret.
Qed.

Lemma keeps_get_all_matches (column : string) (value : Py.value)
  (a b c : db_table) : keeps_db (get_all_matches column value a b c).
Proof.
  unfold get_all_matches. apply keeps_bind.
  - destruct (bool_decide (column = "speaker")); apply keeps_select.
  - intros [|d ds]; [apply keeps_raise|].
    apply keeps_bind;
      [apply keeps_for_each; intros s; apply keeps_getitem|].
    intros ids. apply keeps_bind; [apply keeps_select|].
    intros subs. apply keeps_ret.
Qed.

Lemma keeps_get_speaker_names (session : dict) (a b : db_table) :
  keeps_db (get_speaker_names session a b).
Proof.
  unfold get_speaker_names. apply keeps_bind; [apply keeps_getitem|].
  intros id. apply keeps_bind; [apply keeps_select|].
  intros found. apply keeps_for_each. intros s. apply keeps_getitem.
Qed.

Lemma keeps_print_session (session : dict) (names : list value) :
  keeps_db (print_session session names).
Proof.
  unfold print_session. apply keeps_bind; [apply keeps_print|]. intros _.
  apply keeps_bind.
  { apply keeps_for_each. intros key.
    apply keeps_bind; [apply keeps_getitem|]. intros v. apply keeps_print. }
  intros _. apply keeps_bind.
  { destruct names; [apply keeps_ret|]. unfold join_names.
    destruct (mapM _ _); [apply keeps_ret|apply keeps_raise]. }
  intros shown. apply keeps_bind; [apply keeps_print|]. intros _.
  apply keeps_print.
Qed.

Lemma open_table_keeps (n : string) (d : Models.schema_decl) (sch : schema)
  (st : state) (n' : string) (t : table) :
  db st !! n' = Some t -> db (open_table n d sch st) !! n' = Some t.
Proof.
  intros H. unfold open_table. cbn [db].
  destruct (db st !! n) eqn:Hn; [exact H|].
  rewrite lookup_insert_ne; [exact H|]. intros <-. congruence.
Qed.

(** X8.  A lookup never changes a table, whatever its arguments and
    however it ends: the store it leaves is the one it found, or the one it
    found with the missing ones of the three tables created empty; a table
    that existed keeps its schema and rows. *)
Theorem lookup_changes_no_table (argv : list string) (st : state) :
  let st' := (main argv st).2 in
  (db st' = db st \/ db st' = db (opened st))
  /\ forall n t, db st !! n = Some t -> db st' !! n = Some t.
Proof.
  cbv zeta.
  assert (Hdb : db (main argv st).2 = db st
                \/ db (main argv st).2 = db (opened st)).
  { unfold main.
    assert (Hbody : db (body argv st).2 = db st
                    \/ db (body argv st).2 = db (opened st)).
    { unfold body, validate_query.
      destruct (length argv <? 3)%nat; [left; reflexivity|].
      destruct (negb (bool_decide (nth 1 argv EmptyString ∈ QUERY_COLUMNS)));
        [left; reflexivity|].
      right. unfold bind at 1. unfold ret at 1.
      unfold bind at 1.
      rewrite (init_run "sessions" _ sessions_sch) by reflexivity.
      unfold bind at 1.
      rewrite (init_run "speakers" _ speakers_sch) by reflexivity.
      unfold bind at 1.
      rewrite (init_run "sessions_speakers" _ sessions_speakers_sch)
        by reflexivity.
      fold (opened st).
      apply (keeps_bind _ _ (keeps_get_all_matches _ _ _ _ _)).
      intros ds. apply keeps_bind; [|intros; apply keeps_ret].
      apply keeps_for_each. intros s.
      apply keeps_bind; [apply keeps_get_speaker_names|].
      intros names. apply keeps_print_session. }
    destruct (body argv st) as [[u|e] st1]; exact Hbody. }
  split; [exact Hdb|].
  intros n t Hn. destruct Hdb as [-> | ->]; [exact Hn|].
  unfold opened. do 3 apply open_table_keeps. exact Hn.
Qed.

Lemma lookup_changes_no_table_witness :
  let st' := (main ["lookup_agenda.py"; "title"; "Keynote"] nested).2 in
  (db st' = db nested \/ db st' = db (opened nested))
  /\ db st' !! "sessions" = Some nested_sessions.
Proof.
  intros st'.
  destruct (lookup_changes_no_table
              ["lookup_agenda.py"; "title"; "Keynote"] nested) as [H1 H2].
  split; [exact H1|]. apply H2. reflexivity.
Defined.

End ReadOnly.

(* ===================================================================== *)
(** * A lookup on a column of the sessions table *)
(* ===================================================================== *)

Section TextLookup.
Import Py Utils Sqlite Engine DbTable Constants LookupAgenda.

Lemma where_text (t : table) (c body txt : string) :
  c ∈ SESSIONS_COLUMNS ->
  t_schema t = sessions_sch ->
  unquote body = Some txt ->
  exists p, eval_where [("sessions", t)] [CEq c body] = inr p
            /\ forall r, p [("sessions", r)]
                         = bool_decide (cell (r_cells r) c = SText txt).
Proof.
  intros Hc Hsch Hbody. unfold SESSIONS_COLUMNS in Hc.
  repeat (apply elem_of_cons in Hc as [->|Hc]); [..|inversion Hc].
  all: unfold eval_where, eval_cond;
    match goal with
    | |- context [split " " ?c] => change (split " " c) with [c]
    end;
    cbv beta iota;
    rewrite (resolve_sessions t _ AffText Hsch) by reflexivity;
    cbn [sbind]; rewrite Hbody; cbn [sbind fst snd coerce];
    eexists; (split; [reflexivity|]); intros r; cbv beta;
    unfold lookup_env; cbn [assoc]; rewrite decide_True by reflexivity;
    rewrite andb_true_r;
    match goal with
    | |- context [cell (r_cells r) ?c] => destruct (cell (r_cells r) c)
    end; reflexivity.
Qed.

Lemma primary_query_text (c : string) (value : Py.value) :
  c ∈ SESSIONS_COLUMNS ->
  primary_query c value
  = {| sel_table := "sessions"; sel_columns := sessions_columns;
       sel_joins := [];
       sel_where := [CEq c (str (preprocess_value value))] |}.
Proof.
  intros Hc. unfold primary_query.
  rewrite bool_decide_eq_false_2; [reflexivity|].
  intros ->. revert Hc. apply (bool_decide_eq_false_1 _). vm_compute.
  reflexivity.
Qed.

Lemma get_all_matches_text (st : state) (t : table) (c v : string) :
  c ∈ SESSIONS_COLUMNS ->
  db st !! "sessions" = Some t ->
  t_schema t = sessions_sch ->
  (forall r, r ∈ t_rows t -> cell (r_cells r) "id" = SInt (r_id r)) ->
  get_all_matches c (VStr v)
    (handle "sessions" Models.sessions_schema)
    (handle "sessions_speakers" Models.sessions_speakers_schema)
    (handle "speakers" Models.speakers_schema) st
  = match matching c v (t_rows t) with
    | [] =>
        (Raise (ValueError "No matches found for the given query."),
         logged (SSelect (primary_query c (VStr v))) st)
    | _ =>
        (Ok (map session_dict (listed c v (t_rows t))),
         logged (SSelect (expansion_query
                            (map r_id (matching c v (t_rows t)))))
           (logged (SSelect (primary_query c (VStr v))) st))
    end.
Proof.
  intros Hc Hdb Hsch Hids.
  unfold get_all_matches. unfold bind at 1.
  rewrite (primary_select c (VStr v) st).
  destruct (where_text t c (str (preprocess_value (VStr v))) (strip v) Hc Hsch
              (unquote_literal (VStr v))) as (p & Hp & Hpr).
  rewrite (primary_query_text c (VStr v) Hc).
  rewrite (select_rows_single (db st)
             {| sel_table := "sessions"; sel_columns := sessions_columns;
                sel_joins := [];
                sel_where := [CEq c (str (preprocess_value (VStr v)))] |} t
             (map (pair "sessions") sessions_columns) p eq_refl Hdb
             (sessions_result_columns t [] _ Hsch) Hp).
  cbn [sel_table]. rewrite map_map.
  assert (Hfilter : filter (fun r => p [("sessions", r)] = true) (t_rows t)
                    = matching c v (t_rows t)).
  { unfold matching. apply list_filter_iff. intros r. rewrite Hpr.
    reflexivity. }
  rewrite Hfilter.
  change (map (fun r => result_row sessions_columns
                          (map (fun tc => lookup_env [("sessions", r)] tc.1 tc.2)
                               (map (pair "sessions") sessions_columns)))
              (matching c v (t_rows t)))
    with (map session_dict (matching c v (t_rows t))).
  unfold listed.
  assert (Hin : forall r, r ∈ matching c v (t_rows t) -> r ∈ t_rows t).
  { intros r Hr. unfold matching in Hr.
    apply list_elem_of_filter in Hr as [_ Hr]. exact Hr. }
  destruct (matching c v (t_rows t)) as [|r0 primary] eqn:Hprimary;
    [reflexivity|].
  rewrite <- Hprimary in *.
  assert (Hmatch : forall (A : Type) (x y : A),
             match map session_dict (matching c v (t_rows t)) with
             | [] => x | _ :: _ => y end = y).
  { intros A x y. rewrite Hprimary. reflexivity. }
  rewrite Hmatch. clear Hmatch.
  unfold bind at 1.
  rewrite selected_ids by (intros r Hr; apply Hids, Hin, Hr).
  unfold bind at 1. rewrite select_run. cbv zeta.
  set (ids := map r_id (matching c v (t_rows t))).
  assert (Hq : select_of (handle "sessions" Models.sessions_schema) [] []
                 [("supersession_id",
                   Many (map (fun r => VInt (r_id r)) (matching c v (t_rows t))));
                  ("id NOT",
                   Many (map (fun r => VInt (r_id r)) (matching c v (t_rows t))))]
               = expansion_query ids).
  { unfold select_of, expansion_query, where_cond. cbn [map fst snd].
    subst ids. rewrite !map_map. reflexivity. }
  rewrite Hq. clear Hq.
  assert (Hids_ne : exists z zs, ids = z :: zs).
  { subst ids. rewrite Hprimary. cbn [map]. eauto. }
  destruct Hids_ne as (z & zs & Hzs).
  destruct (where_expansion t z zs Hsch) as (p' & Hp' & Hpr').
  rewrite <- Hzs in Hp', Hpr'.
  cbn [db logged].
  rewrite (select_rows_single (db st) (expansion_query ids) t
             (map (pair "sessions") sessions_columns) p' eq_refl Hdb
             (sessions_result_columns t [] _ Hsch) Hp').
  cbn [sel_table expansion_query sel_columns]. rewrite map_map.
  assert (Hfilter' : filter (fun r => p' [("sessions", r)] = true) (t_rows t)
                     = filter (fun r => expansion_test ids r = true) (t_rows t)).
  { apply list_filter_iff. intros r. rewrite Hpr'. reflexivity. }
  rewrite Hfilter'. unfold ret. rewrite map_app. reflexivity.
Qed.

Lemma show_sessions_run (d : store) (p l : table) :
  d !! "speakers" = Some p -> t_schema p = speakers_sch ->
  d !! "sessions_speakers" = Some l -> t_schema l = sessions_speakers_sch ->
  names_are_text p ->
  forall (rows : list row) (st : state),
  (forall r, r ∈ rows -> cell (r_cells r) "id" = SInt (r_id r)) ->
  db st = d ->
  exists st',
    show_sessions (map session_dict rows) st = (Ok (map (fun _ => tt) rows), st')
    /\ db st' = d
    /\ out st' = out st ++ records d rows.
Proof.
  intros Hp Hps Hl Hls Htext. induction rows as [|r rows IH]; intros st Hid Hst.
  - exists st. repeat split; [exact Hst|]. cbn. rewrite app_nil_r. reflexivity.
  - unfold show_sessions. cbn [map for_each].
    unfold bind at 1. unfold bind at 1.
    rewrite (get_speaker_names_run st p l r)
      by (rewrite ?Hst; first [assumption|apply Hid; left]).
    rewrite Hst. rewrite print_session_run.
    fold (show_sessions (map session_dict rows)).
    destruct (IH (printed (display_record r (attendee_names d (r_id r)))
                    (logged (SSelect (names_query (r_id r))) st)))
      as (st' & Hrun & Hdb' & Hout').
    { intros r' Hr'. apply Hid. right. exact Hr'. }
    { exact Hst. }
    exists st'. unfold bind at 1. rewrite Hrun.
    split; [reflexivity|]. split; [exact Hdb'|].
    rewrite Hout'. cbn [out printed logged]. unfold records. cbn [flat_map].
    rewrite <- !app_assoc. reflexivity.
Qed.

Lemma store_lookup_ok (d : store) : store_ok d -> lookup_ok d.
Proof.
  intros [(t & Ht & Hsch & Hrow & _) (p & Hp & Hps & _ & Htext & _) Hl].
  split; [exists t; auto|exists p; auto|exact Hl].
Qed.

Lemma opened_present (st : state) : lookup_ok (db st) -> db (opened st) = db st.
Proof.
  intros [(t1 & H1 & _) (t2 & H2 & _) (t3 & H3 & _)].
  unfold opened, open_table. cbn [db]. rewrite H1, H2, H3. reflexivity.
Qed.

Lemma column_lookup_any (argv : list string) (st : state) (t : table) :
  (3 <= length argv)%nat ->
  let c := nth 1 argv EmptyString in
  let v := join " " (drop 2 argv) in
  c ∈ SESSIONS_COLUMNS ->
  lookup_ok (db st) ->
  db st !! "sessions" = Some t ->
  matching c v (t_rows t) <> [] ->
  exists st',
    main argv st = (0, st')
    /\ db st' = db st
    /\ out st' = out st ++ records (db st) (listed c v (t_rows t)).
Proof.
  intros Hlen c v Hc Hok Hdb Hne.
  pose proof (opened_present st Hok) as Hopen.
  destruct Hok as [(t1 & Ht1 & Hsch & Hrow)
                   (p & Hp & Hps & Htext) (l & Hl & Hls)].
  rewrite Hdb in Ht1. injection Ht1 as <-.
  pose proof (get_all_matches_text (opened st) t c v Hc) as Hall.
  rewrite Hopen in Hall. specialize (Hall Hdb Hsch (proj2 Hrow)).
  destruct (matching c v (t_rows t)) as [|r0 primary] eqn:Hprimary;
    [contradiction|].
  rewrite <- Hprimary in *.
  unfold main, body, validate_query.
  destruct (Nat.ltb_spec (length argv) 3) as [|_]; [lia|].
  fold c. rewrite bool_decide_eq_true_2.
  2:{ unfold QUERY_COLUMNS. unfold SESSIONS_COLUMNS in Hc.
      rewrite !elem_of_cons in *. tauto. }
  cbn [negb].
  unfold bind at 1. unfold ret at 1.
  unfold bind at 1.
  rewrite (init_run "sessions" _ sessions_sch) by reflexivity.
  unfold bind at 1.
  rewrite (init_run "speakers" _ speakers_sch) by reflexivity.
  unfold bind at 1.
  rewrite (init_run "sessions_speakers" _ sessions_speakers_sch) by reflexivity.
  fold (opened st). fold v.
  unfold bind at 1.
  rewrite Hall.
  fold (show_sessions (map session_dict (listed c v (t_rows t)))).
  assert (Hlisted : forall r, r ∈ listed c v (t_rows t) ->
                              cell (r_cells r) "id" = SInt (r_id r)).
  { intros r Hr. apply (proj2 Hrow). unfold listed, matching in Hr.
    apply elem_of_app in Hr as [Hr|Hr];
      apply list_elem_of_filter in Hr as [_ Hr]; exact Hr. }
  destruct (show_sessions_run (db st) p l Hp Hps Hl Hls Htext
              (listed c v (t_rows t))
              (logged (SSelect (expansion_query
                                  (map r_id (matching c v (t_rows t)))))
                 (logged (SSelect (primary_query c (VStr v))) (opened st)))
              Hlisted Hopen)
    as (st' & Hrun & Hdb' & Hout').
  unfold bind at 1. rewrite Hrun. unfold ret.
  exists st'. split; [reflexivity|]. split; [exact Hdb'|].
  rewrite Hout'. reflexivity.
Qed.

Lemma column_lookup_run (argv : list string) (st : state) (t : table) :
  (3 <= length argv)%nat ->
  let c := nth 1 argv EmptyString in
  let v := join " " (drop 2 argv) in
  c ∈ SESSIONS_COLUMNS ->
  store_ok (db st) ->
  db st !! "sessions" = Some t ->
  matching c v (t_rows t) <> [] ->
  exists st',
    main argv st = (0, st')
    /\ db st' = db st
    /\ out st' = out st ++ records (db st) (listed c v (t_rows t)).
Proof.
  intros Hlen c v Hc Hok. apply (column_lookup_any argv st t Hlen Hc).
  apply store_lookup_ok, Hok.
Qed.

(** X9.  A lookup on one of the six session columns, on a store written
    by the import, in which at least one session holds the queried text
    (the arguments joined by blanks and trimmed) in that column: the
    lookup ends with status 0, leaves the store as it is, and prints one
    display record per listed session, each with the names of its
    speakers; the sessions that match come first, in table order, followed
    by the sessions whose supersession is one of the matches and which do
    not match themselves, in table order. *)
Theorem column_lookup_prints_matches_then_subsessions
  (argv : list string) (st : state) (t : table) :
  (3 <= length argv)%nat ->
  let c := nth 1 argv EmptyString in
  let v := join " " (drop 2 argv) in
  c ∈ SESSIONS_COLUMNS ->
  store_ok (db st) ->
  db st !! "sessions" = Some t ->
  matching c v (t_rows t) <> [] ->
  exists st',
    main argv st = (0, st')
    /\ db st' = db st
    /\ out st' = out st ++ records (db st) (listed c v (t_rows t)).
Proof. exact (column_lookup_run argv st t). Qed.

Lemma column_lookup_prints_matches_then_subsessions_witness :
  exists st',
    main ["lookup_agenda.py"; "title"; "Part"; "1"] nested = (0, st')
    /\ db st' = db nested
    /\ out st' = out nested
                 ++ records (db nested)
                      (listed "title" "Part 1" (t_rows nested_sessions)).
Proof.
  apply (column_lookup_prints_matches_then_subsessions
           ["lookup_agenda.py"; "title"; "Part"; "1"] nested nested_sessions).
  - simpl. lia.
  - cbn. repeat constructor.
  - exact nested_ok.
  - reflexivity.
  - vm_compute. discriminate.
Defined.

End TextLookup.

(* ===================================================================== *)
(** * Which sessions a lookup lists *)
(* ===================================================================== *)

Section Listing.
Import Py Utils Sqlite Engine DbTable Constants LookupAgenda.

Lemma NoDup_ids_filter (P : row -> bool) (rows : list row) :
  NoDup (map r_id rows) ->
  NoDup (map r_id (filter (fun r => P r = true) rows)).
Proof.
  induction rows as [|r rows IH]; intros Hnd; [constructor|].
  cbn [map] in Hnd. apply NoDup_cons in Hnd as [Hnotin Hnd].
  rewrite filter_cons. destruct (decide (P r = true)); [|apply IH, Hnd].
  cbn [map]. apply NoDup_cons. split; [|apply IH, Hnd].
  intros Hin. apply Hnotin.
  apply list_elem_of_fmap in Hin as (x & Hx & Hin).
  apply list_elem_of_filter in Hin as [_ Hin].
  apply list_elem_of_fmap. exists x. split; [exact Hx|exact Hin].
Qed.

Lemma expansion_test_spec (ids : list Z) (r : row) :
  cell (r_cells r) "id" = SInt (r_id r) ->
  expansion_test ids r = true
  <-> (exists z, z ∈ ids /\ cell (r_cells r) "supersession_id" = SInt z)
      /\ r_id r ∉ ids.
Proof.
  intros Hid. unfold expansion_test. rewrite Hid. cbn [is_null negb andb].
  rewrite andb_true_iff, negb_true_iff, <- not_true_iff_false.
  rewrite !existsb_exists.
  split.
  - intros [(z & Hz & Hsup) Hnot]. split.
    + exists z. split; [apply list_elem_of_In, Hz|].
      apply bool_decide_eq_true in Hsup. exact Hsup.
    + intros Hin. apply Hnot. exists (r_id r).
      split; [apply list_elem_of_In, Hin|].
      apply bool_decide_eq_true. reflexivity.
  - intros [(z & Hz & Hsup) Hnot]. split.
    + exists z. split; [apply list_elem_of_In, Hz|].
      apply bool_decide_eq_true. exact Hsup.
    + intros (z' & Hz' & Heq). apply bool_decide_eq_true in Heq.
      injection Heq as Heq. apply Hnot. rewrite Heq.
      apply list_elem_of_In, Hz'.
Qed.

Lemma matching_elem (c v : string) (rows : list row) (r : row) :
  r ∈ matching c v rows
  <-> r ∈ rows /\ cell (r_cells r) c = SText (strip v).
Proof.
  unfold matching. rewrite list_elem_of_filter, bool_decide_eq_true. tauto.
Qed.

Lemma listed_elem (c v : string) (t : table) (r : row) :
  rowids_ok t ->
  r ∈ listed c v (t_rows t)
  <-> r ∈ t_rows t
      /\ (cell (r_cells r) c = SText (strip v)
          \/ exists s, s ∈ t_rows t /\ cell (r_cells s) c = SText (strip v)
                       /\ cell (r_cells r) "supersession_id" = SInt (r_id s)).
Proof.
  intros [Hnd Hids]. unfold listed.
  rewrite elem_of_app, matching_elem, list_elem_of_filter.
  split.
  - intros [[Hr Hm]|[Hexp Hr]]; [split; [exact Hr|left; exact Hm]|].
    split; [exact Hr|]. right.
    apply (expansion_test_spec _ r (Hids r Hr)) in Hexp
      as [(z & Hz & Hsup) _].
    apply list_elem_of_fmap in Hz as (s & -> & Hs).
    apply matching_elem in Hs as [Hs Hm]. exists s. auto.
  - intros [Hr [Hm|(s & Hs & Hm & Hsup)]]; [left; auto|].
    destruct (decide (cell (r_cells r) c = SText (strip v))) as [Hrm|Hrm];
      [left; auto|].
    right. split; [|exact Hr].
    apply (expansion_test_spec _ r (Hids r Hr)). split.
    + exists (r_id s). split; [|exact Hsup].
      apply list_elem_of_fmap. exists s. split; [reflexivity|].
      apply matching_elem. auto.
    + intros Hin. apply list_elem_of_fmap in Hin as (s' & Heq & Hs').
      apply matching_elem in Hs' as [Hs' Hm'].
      rewrite (rowid_determines_row _ r s' Hnd Hr Hs' Heq) in Hrm.
      exact (Hrm Hm').
Qed.

Lemma listed_NoDup (c v : string) (t : table) :
  rowids_ok t -> NoDup (map r_id (listed c v (t_rows t))).
Proof.
  intros [Hnd Hids]. unfold listed. rewrite map_app. apply NoDup_app.
  split; [apply NoDup_ids_filter, Hnd|].
  split; [|apply NoDup_ids_filter, Hnd].
  intros z Hz Hz'. apply list_elem_of_fmap in Hz' as (r & -> & Hr).
  apply list_elem_of_filter in Hr as [Hexp Hr].
  apply (expansion_test_spec _ r (Hids r Hr)) in Hexp as [_ Hnot].
  exact (Hnot Hz).
Qed.

(** X10.  What [get_all_matches] returns for a query on one of the six
    session columns, when it returns: the sessions of the table that hold
    the queried text in that column, together with the sessions whose
    supersession is such a session, and no others; no session is listed
    twice, also when it matches and is a subsession of a match at once. *)
Theorem lookup_lists_each_session_once
  (c v : string) (st st' : state) (t : table) (ds : list dict) :
  c ∈ SESSIONS_COLUMNS ->
  db st !! "sessions" = Some t ->
  t_schema t = sessions_sch ->
  rowids_ok t ->
  get_all_matches c (VStr v)
    (handle "sessions" Models.sessions_schema)
    (handle "sessions_speakers" Models.sessions_speakers_schema)
    (handle "speakers" Models.speakers_schema) st = (Ok ds, st') ->
  exists rows,
    ds = map session_dict rows
    /\ NoDup (map r_id rows)
    /\ forall r,
         r ∈ rows
         <-> r ∈ t_rows t
             /\ (cell (r_cells r) c = SText (strip v)
                 \/ exists s, s ∈ t_rows t
                              /\ cell (r_cells s) c = SText (strip v)
                              /\ cell (r_cells r) "supersession_id"
                                 = SInt (r_id s)).
Proof.
  intros Hc Hdb Hsch Hrow Hrun.
  rewrite (get_all_matches_text st t c v Hc Hdb Hsch (proj2 Hrow)) in Hrun.
  destruct (matching c v (t_rows t)) as [|r0 rs]; [discriminate|].
  injection Hrun as <- _.
  exists (listed c v (t_rows t)). split; [reflexivity|].
  split; [apply listed_NoDup, Hrow|].
  intros r. apply listed_elem, Hrow.
Qed.

Lemma nested_rowids_ok : rowids_ok nested_sessions.
Proof.
  split.
  - cbn. repeat (constructor; [rewrite ?elem_of_cons, elem_of_nil; lia|]).
    constructor.
  - intros r Hr. cbn in Hr.
    repeat (apply elem_of_cons in Hr as [->|Hr]); [reflexivity..|inversion Hr].
Qed.

Lemma lookup_lists_each_session_once_witness :
  exists rows,
    map session_dict [session_row 1 "Keynote" SNull;
                      session_row 2 "Part 1" (SInt 1);
                      session_row 3 "Part 2" (SInt 1)]
    = map session_dict rows
    /\ NoDup (map r_id rows)
    /\ forall r,
         r ∈ rows
         <-> r ∈ t_rows nested_sessions
             /\ (cell (r_cells r) "title" = SText (strip "Keynote")
                 \/ exists s, s ∈ t_rows nested_sessions
                              /\ cell (r_cells s) "title"
                                 = SText (strip "Keynote")
                              /\ cell (r_cells r) "supersession_id"
                                 = SInt (r_id s)).
Proof.
  apply (lookup_lists_each_session_once "title" "Keynote" nested
           (get_all_matches "title" (VStr "Keynote")
              (handle "sessions" Models.sessions_schema)
              (handle "sessions_speakers" Models.sessions_speakers_schema)
              (handle "speakers" Models.speakers_schema) nested).2
           nested_sessions).
  - cbn. repeat constructor.
  - reflexivity.
  - reflexivity.
  - exact nested_rowids_ok.
  - vm_compute. reflexivity.
Defined.

End Listing.

(* ===================================================================== *)
(** * A title with one match and two subsessions *)
(* ===================================================================== *)

Section TitleLookup.
Import Py Utils Sqlite Engine DbTable Constants LookupAgenda.

(** With one selected session [s], the expansion keeps exactly the other
    rows whose [supersession_id] is the id of [s]: the row [s] itself does
    not pass, also when it is entered as its own supersession. *)
Lemma expansion_of_match (t : table) (s : row) :
  rowids_ok t ->
  filter (fun r => expansion_test [r_id s] r = true) (t_rows t)
  = subsessions s (t_rows t).
Proof.
  intros [_ Hids]. unfold subsessions. apply filter_agree. intros r Hr.
  unfold expansion_test. cbn [existsb]. rewrite !orb_false_r.
  rewrite (Hids r Hr). cbn [is_null negb andb]. f_equal. f_equal.
  destruct (Z.eqb_spec (r_id r) (r_id s)) as [->|Hne].
  - apply bool_decide_eq_true_2. reflexivity.
  - apply bool_decide_eq_false_2. intros [= H]. exact (Hne H).
Qed.

Lemma looped_ok : lookup_ok (db looped).
Proof.
  split.
  - exists looped_sessions. split; [reflexivity|]. split; [reflexivity|].
    split.
    + cbn. repeat (constructor; [rewrite ?elem_of_cons, elem_of_nil; lia|]).
      constructor.
    + intros r Hr. cbn in Hr.
      repeat (apply elem_of_cons in Hr as [->|Hr]);
        [reflexivity..|inversion Hr].
  - exists nested_speakers. split; [reflexivity|]. split; [reflexivity|].
    intros r Hr. cbn in Hr.
    repeat (apply elem_of_cons in Hr as [->|Hr]);
      [eexists; reflexivity..|inversion Hr].
  - exists nested_links. split; reflexivity.
Qed.

(** C4.  Take a database file with the three tables (nothing is asked
    of its [supersession_id] values) in which exactly one session [s] has
    the queried title and exactly two other sessions [a], [b] (in table
    order) have the id of [s] as [supersession_id].  Then
    [get_all_matches] returns [s], [a], [b] in this order and [main]
    prints exactly three display records, for [s], then [a], then [b].
    The expansion leaves out what the primary match holds: [s] is listed
    once also when it is entered as its own supersession, which only the
    [id NOT IN] filter of the expansion brings about.  The expansion is
    done once, for the ids of the primary matches only: sessions whose
    supersession is [a] or [b] are not among the three. *)
Theorem title_lookup_shows_match_then_subsessions
  (argv : list string) (st : state) (t : table) (s a b : row) :
  (3 <= length argv)%nat ->
  nth 1 argv EmptyString = "title" ->
  lookup_ok (db st) ->
  db st !! "sessions" = Some t ->
  let v := join " " (drop 2 argv) in
  filter (fun r => bool_decide (cell (r_cells r) "title" = SText (strip v))
                   = true) (t_rows t) = [s] ->
  subsessions s (t_rows t) = [a; b] ->
  (get_all_matches "title" (VStr v)
     (handle "sessions" Models.sessions_schema)
     (handle "sessions_speakers" Models.sessions_speakers_schema)
     (handle "speakers" Models.speakers_schema) (opened st)).1
  = Ok [session_dict s; session_dict a; session_dict b]
  /\ exists st',
       main argv st = (0, st')
       /\ db st' = db st
       /\ out st' = out st
                    ++ display_record s (attendee_names (db st) (r_id s))
                    ++ display_record a (attendee_names (db st) (r_id a))
                    ++ display_record b (attendee_names (db st) (r_id b)).
Proof.
  intros Hlen Hcol Hok Hdb v Hone Htwo.
  pose proof (opened_present st Hok) as Hopen.
  pose proof Hok as [(t1 & Ht1 & Hsch & Hrow) _ _].
  rewrite Hdb in Ht1. injection Ht1 as <-.
  assert (Hc : "title" ∈ SESSIONS_COLUMNS) by (cbn; repeat constructor).
  assert (Hlisted : listed "title" v (t_rows t) = [s; a; b]).
  { unfold listed, matching. rewrite Hone. cbn [map].
    rewrite (expansion_of_match t s Hrow), Htwo. reflexivity. }
  split.
  - rewrite (get_all_matches_text (opened st) t "title" v Hc)
      by (rewrite ?Hopen; first [exact Hdb|exact Hsch|exact (proj2 Hrow)]).
    rewrite Hlisted. unfold matching. rewrite Hone. reflexivity.
  - destruct (column_lookup_any argv st t Hlen) as (st' & Hmain & Hdb' & Hout).
    + rewrite Hcol. exact Hc.
    + exact Hok.
    + exact Hdb.
    + rewrite Hcol. fold v. unfold matching. rewrite Hone. discriminate.
    + exists st'. split; [exact Hmain|]. split; [exact Hdb'|].
      rewrite Hout, Hcol. fold v. rewrite Hlisted.
      unfold records. cbn [flat_map]. rewrite app_nil_r. reflexivity.
Qed.

Lemma title_lookup_shows_match_then_subsessions_witness :
  let argv := ["lookup_agenda.py"; "title"; "Keynote"] in
  let s := session_row 1 "Keynote" (SInt 1) in
  let a := session_row 2 "Part 1" (SInt 1) in
  let b := session_row 3 "Part 2" (SInt 1) in
  (get_all_matches "title" (VStr "Keynote")
     (handle "sessions" Models.sessions_schema)
     (handle "sessions_speakers" Models.sessions_speakers_schema)
     (handle "speakers" Models.speakers_schema) (opened looped)).1
  = Ok [session_dict s; session_dict a; session_dict b]
  /\ exists st',
       main argv looped = (0, st')
       /\ db st' = db looped
       /\ out st' = out looped
                    ++ display_record s (attendee_names (db looped) (r_id s))
                    ++ display_record a (attendee_names (db looped) (r_id a))
                    ++ display_record b (attendee_names (db looped) (r_id b)).
Proof.
  intros argv s a b.
  apply (title_lookup_shows_match_then_subsessions argv looped
           looped_sessions s a b).
  - simpl. lia.
  - reflexivity.
  - exact looped_ok.
  - reflexivity.
  - vm_compute. reflexivity.
  - vm_compute. reflexivity.
Defined.

End TitleLookup.

(* ===================================================================== *)
(** * A speaker stored and read back *)
(* ===================================================================== *)

Section SpeakerRoundTrip.
Import Py Utils Sqlite Engine DbTable.

Lemma replace_pair_cons (c : ascii) (s : string) :
  replace_from "''" "'" 0 (String c s)
  = if startswith "''" (String c s)
    then "'" +:+ replace_from "''" "'" 1 s
    else String c (replace_from "''" "'" 0 s).
Proof. reflexivity. Qed.

Lemma replace_pair_length (s : string) :
  (String.length (replace_from "''" "'" 0 s) <= String.length s)%nat
  /\ (String.length (replace_from "''" "'" 1 s) <= String.length s)%nat.
Proof.
  induction s as [|c s [IH0 IH1]]; [split; reflexivity|].
  split.
  - rewrite replace_pair_cons. destruct (startswith "''" (String c s)).
    + change ("'" +:+ replace_from "''" "'" 1 s)
        with (String "'" (replace_from "''" "'" 1 s)).
      cbn [String.length]. lia.
    + cbn [String.length]. lia.
  - change (replace_from "''" "'" 1 (String c s))
      with (replace_from "''" "'" 0 s).
    cbn [String.length]. lia.
Qed.

Lemma replace_pair_shorter (s : string) :
  contains "''" s = true ->
  (String.length (replace "''" "'" s) < String.length s)%nat.
Proof.
  unfold replace. induction s as [|c s IH]; [discriminate|].
  cbn [contains]. intros Hc. rewrite replace_pair_cons.
  destruct (startswith "''" (String c s)) eqn:Hstart.
  - destruct s as [|c' s]; [cbn in Hstart; rewrite andb_false_r in Hstart;
                            discriminate|].
    change ("'" +:+ replace_from "''" "'" 1 (String c' s))
      with (String "'" (replace_from "''" "'" 0 s)).
    cbn [String.length].
    pose proof (replace_pair_length s) as [H0 _]. lia.
  - cbn [orb] in Hc. cbn [String.length]. specialize (IH Hc). lia.
Qed.

Lemma replace_pair_fixed (s : string) :
  contains "''" s = false -> replace "''" "'" s = s.
Proof.
  unfold replace. induction s as [|c s IH]; [reflexivity|].
  cbn [contains]. intros Hc. apply orb_false_iff in Hc as [Hstart Hc].
  rewrite replace_pair_cons, Hstart, IH by exact Hc. reflexivity.
Qed.

Lemma replace_pair_fixed_iff (s : string) :
  replace "''" "'" s = s <-> contains "''" s = false.
Proof.
  split; [|apply replace_pair_fixed].
  intros Hfix. destruct (contains "''" s) eqn:Hc; [|reflexivity].
  apply replace_pair_shorter in Hc. rewrite Hfix in Hc. lia.
Qed.

(** [speakers_table.select(where={"name": name})], all columns. *)
Lemma select_speaker_rows (st : state) (p : table) (name : string) :
  db st !! "speakers" = Some p ->
  t_schema p = speakers_sch ->
  select (handle "speakers" Models.speakers_schema) [] []
    [("name", One (VStr name))] st
  = (Ok (map (fun r => [("id", shown r "id"); ("name", shown r "name")])
             (named (strip name) (t_rows p))),
     logged (SSelect (select_of (handle "speakers" Models.speakers_schema)
                        [] [] [("name", One (VStr name))])) st).
Proof.
  intros Hdb Hsch. rewrite select_run. cbv zeta.
  set (q := select_of (handle "speakers" Models.speakers_schema) [] []
              [("name", One (VStr name))]).
  assert (Hcols : result_columns [("speakers", p)] q
                  = inr [("speakers", "id"); ("speakers", "name")]).
  { unfold result_columns, resolve_in, resolve.
    cbn [q select_of sel_columns sel_table handle DbTable.name DbTable.columns
         Models.columns Models.speakers_schema map fst assoc fold_right
         omap list_omap].
    rewrite decide_True by reflexivity. rewrite Hsch. reflexivity. }
  assert (Hp : exists w,
             eval_where [("speakers", p)] (sel_where q) = inr w
             /\ forall r, w [("speakers", r)]
                          = bool_decide (cell (r_cells r) "name"
                                         = SText (strip name))).
  { cbn [q select_of sel_where map where_cond fst snd].
    unfold eval_where, eval_cond.
    change (split " " "name") with ["name"]. cbv beta iota.
    unfold resolve. cbn [omap list_omap]. rewrite Hsch.
    cbn [s_columns speakers_sch assoc fmap option_fmap option_map sbind].
    rewrite decide_False by discriminate. rewrite decide_True by reflexivity.
    cbn [fmap option_fmap option_map sbind].
    rewrite (unquote_literal (VStr name)). cbn [sbind fst snd coerce text_of].
    eexists. split; [reflexivity|]. intros r. cbv beta.
    change (lookup_env [("speakers", r)] "speakers" "name")
      with (cell (r_cells r) "name").
    rewrite andb_true_r. destruct (cell (r_cells r) "name"); reflexivity. }
  destruct Hp as (w & Hw & Hwr).
  rewrite (select_rows_single (db st) q p
             [("speakers", "id"); ("speakers", "name")] w eq_refl Hdb Hcols Hw).
  cbn [q select_of sel_table sel_columns handle DbTable.name]. rewrite map_map.
  unfold named.
  rewrite (filter_agree (fun r => w [("speakers", r)])
             (fun r => bool_decide (cell (r_cells r) "name" = SText (strip name))))
    by (intros r _; apply Hwr).
  reflexivity.
Qed.

(** X11.  A speaker stored by [insert] and read back by [select] with the
    same name: the result is the one new row, found also when the name has
    apostrophes; its name is the trimmed name with every pair of adjacent
    apostrophes collapsed to one, so it is the trimmed name exactly when
    that has no two adjacent apostrophes. *)
Theorem speaker_insert_then_select
  (st st1 : state) (p : table) (x : string) (id : Z) :
  db st !! "speakers" = Some p ->
  t_schema p = speakers_sch ->
  insert (handle "speakers" Models.speakers_schema) [("name", VStr x)] st
  = (Ok id, st1) ->
  (select (handle "speakers" Models.speakers_schema) [] []
     [("name", One (VStr x))] st1).1
  = Ok [[("id", VInt id); ("name", VStr (replace "''" "'" (strip x)))]]
  /\ (replace "''" "'" (strip x) = strip x
      <-> contains "''" (strip x) = false).
Proof.
  intros Hdb Hsch Hins. split; [|apply replace_pair_fixed_iff].
  rewrite (insert_speaker st p x Hdb Hsch) in Hins. cbv zeta in Hins.
  destruct (named (strip x) (t_rows p)) eqn:Hnamed; [|discriminate].
  injection Hins as <- <-.
  rewrite (select_speaker_rows _
             {| t_schema := t_schema p;
                t_rows := t_rows p
                          ++ [speaker_row (next_rowid (t_rows p)) (strip x)] |} x).
  - cbn [fst t_rows]. rewrite named_app, Hnamed, named_new.
    rewrite decide_True by reflexivity. reflexivity.
  - unfold add_row. cbn [db]. apply lookup_insert_eq.
  - exact Hsch.
Qed.

Lemma speaker_insert_then_select_witness :
  (select (handle "speakers" Models.speakers_schema) [] []
     [("name", One (VStr " O''Brien "))]
     (insert (handle "speakers" Models.speakers_schema)
        [("name", VStr " O''Brien ")] fresh).2).1
  = Ok [[("id", VInt 1);
         ("name", VStr (replace "''" "'" (strip " O''Brien ")))]]
  /\ (replace "''" "'" (strip " O''Brien ") = strip " O''Brien "
      <-> contains "''" (strip " O''Brien ") = false).
Proof.
  apply (speaker_insert_then_select fresh
           (insert (handle "speakers" Models.speakers_schema)
              [("name", VStr " O''Brien ")] fresh).2
           (empty_table speakers_sch) " O''Brien " 1).
  - reflexivity.
  - reflexivity.
  - vm_compute. reflexivity.
Defined.

(** X12.  Once a speaker is stored, storing a name again that is the same
    after trimming is refused by the UNIQUE constraint on [name]; the
    tables stay as they were. *)
Theorem speaker_name_is_unique_after_trimming
  (st st1 : state) (p : table) (x y : string) (id : Z) :
  db st !! "speakers" = Some p ->
  t_schema p = speakers_sch ->
  insert (handle "speakers" Models.speakers_schema) [("name", VStr x)] st
  = (Ok id, st1) ->
  strip y = strip x ->
  insert (handle "speakers" Models.speakers_schema) [("name", VStr y)] st1
  = (Raise (IntegrityError "UNIQUE constraint failed: speakers.name"),
     logged (SInsert (insert_of "speakers" [("name", VStr y)])) st1).
Proof.
  intros Hdb Hsch Hins Hxy.
  rewrite (insert_speaker st p x Hdb Hsch) in Hins. cbv zeta in Hins.
  destruct (named (strip x) (t_rows p)) eqn:Hnamed; [|discriminate].
  injection Hins as <- <-.
  rewrite (insert_speaker _
             {| t_schema := t_schema p;
                t_rows := t_rows p
                          ++ [speaker_row (next_rowid (t_rows p)) (strip x)] |} y).
  - cbv zeta. cbn [t_rows]. rewrite Hxy, named_app, Hnamed, named_new.
    rewrite decide_True by reflexivity. reflexivity.
  - unfold add_row. cbn [db]. apply lookup_insert_eq.
  - exact Hsch.
Qed.

Lemma speaker_name_is_unique_after_trimming_witness :
  insert (handle "speakers" Models.speakers_schema) [("name", VStr " Bob")]
    (insert (handle "speakers" Models.speakers_schema)
       [("name", VStr "Bob ")] fresh).2
  = (Raise (IntegrityError "UNIQUE constraint failed: speakers.name"),
     logged (SInsert (insert_of "speakers" [("name", VStr " Bob")]))
       (insert (handle "speakers" Models.speakers_schema)
          [("name", VStr "Bob ")] fresh).2).
Proof.
  apply (speaker_name_is_unique_after_trimming fresh _
           (empty_table speakers_sch) "Bob " " Bob" 1).
  - reflexivity.
  - reflexivity.
  - vm_compute. reflexivity.
  - reflexivity.
Defined.

End SpeakerRoundTrip.

(* ===================================================================== *)
(** * What an import stores, a lookup finds *)
(* ===================================================================== *)

Section ImportThenLookup.
Import Py Utils Sqlite Engine DbTable Constants ImportAgenda.

Lemma records_elem (d : store) (rows : list row) (r : row) :
  r ∈ rows ->
  exists before after,
    records d rows
    = before ++ display_record r (attendee_names d (r_id r)) ++ after.
Proof.
  intros Hr. apply list_elem_of_split in Hr as (l1 & l2 & ->).
  unfold records. rewrite flat_map_app. cbn [flat_map]. eauto.
Qed.

(** The sessions table after an import that came to its end. *)
Lemma import_rows_sessions (rows : list excel_row) (st st' : state)
  (t : table) :
  store_ok (db st) ->
  db st !! "sessions" = Some t ->
  import_rows rows st = (Ok tt, st') ->
  db st' !! "sessions"
  = Some {| t_schema := sessions_sch;
            t_rows := t_rows t
                      ++ expected_rows rows VNone (next_rowid (t_rows t)) |}.
Proof.
  intros Hok Hdb Hrun.
  pose proof (opened_db st Hok) as Hopen.
  destruct (speakers_of_store _ Hok) as (p & Hp & Hps & Hprows).
  pose proof Hok as [(t0 & Ht0 & Hts & _) _ (l & Hl & Hls)].
  rewrite Hdb in Ht0. injection Ht0 as <-.
  destruct (process_session_data rows
              (handle "sessions" Models.sessions_schema) (opened st))
    as [[ids|e] st1] eqn:Hsess.
  - assert (Hloop := Hsess). unfold process_session_data in Hloop.
    apply (session_loop_ok (handle "sessions" Models.sessions_schema) rows
             eq_refl _ _ _ t) in Hloop as (_ & Hdb1 & _);
      [|rewrite Hopen; exact Hdb|exact Hts].
    destruct (import_rows_run rows st st1 p l ids Hok Hp Hl Hsess)
      as (st'' & Himp & Hdb' & _).
    rewrite Hrun in Himp. injection Himp as _ <-.
    rewrite Hdb', !lookup_insert_ne by discriminate.
    rewrite Hdb1. apply lookup_insert_eq.
  - rewrite (import_rows_stops rows st st1 e Hsess) in Hrun. discriminate.
Qed.

(** X13.  What an import stores, a lookup finds.  After an import that
    came to its end, on a store written by the import, take any input row
    and any of the six session columns in which the row has a string, and
    look that string up in that column: the lookup ends with status 0,
    changes nothing, and among the display records it prints is the one of
    a stored session that holds the cells of this row. *)
Theorem imported_session_is_found
  (rows : list excel_row) (st st1 : state) (i : nat) (row : excel_row)
  (prog c x : string) :
  store_ok (db st) ->
  import_rows rows st = (Ok tt, st1) ->
  rows !! i = Some row ->
  c ∈ SESSIONS_COLUMNS ->
  row_get row c = VStr x ->
  exists (st2 : state) (r : Sqlite.row) (before after : list string),
    LookupAgenda.main [prog; c; x] st1 = (0, st2)
    /\ db st2 = db st1
    /\ out st2 = out st1 ++ before
                 ++ display_record r (attendee_names (db st1) (r_id r))
                 ++ after
    /\ forall key, key ∈ SESSIONS_COLUMNS ->
                   cell (r_cells r) key = stored_of (row_get row key).
Proof.
  intros Hok Hrun Hi Hc Hx.
  pose proof (import_rows_store_ok rows st st1 _ Hok Hrun) as Hok1.
  pose proof Hok as [(t & Ht & _) _ _].
  pose proof (import_rows_sessions rows st st1 t Hok Ht Hrun) as Hdb1.
  set (n := next_rowid (t_rows t)) in *.
  set (r := {| r_id := n + Z.of_nat i;
               r_cells := session_cells (n + Z.of_nat i)
                            (session_data_of row
                               (tracked_at rows VNone n i)) |}).
  assert (Hr : r ∈ t_rows t ++ expected_rows rows VNone n).
  { apply elem_of_app. right. apply list_elem_of_lookup. exists i.
    apply expected_rows_lookup, Hi. }
  assert (Hcells : forall key, key ∈ SESSIONS_COLUMNS ->
                     cell (r_cells r) key = stored_of (row_get row key)).
  { intros key Hkey. apply session_cells_get, Hkey. }
  assert (Hmatch : r ∈ matching c x (t_rows t ++ expected_rows rows VNone n)).
  { apply matching_elem. split; [exact Hr|].
    rewrite (Hcells c Hc), Hx. reflexivity. }
  destruct (column_lookup_run [prog; c; x] st1 _ ltac:(simpl; lia) Hc Hok1 Hdb1)
    as (st2 & Hmain & Hdb2 & Hout2).
  { cbn [t_rows]. intros Hnil.
    change (join " " (drop 2 [prog; c; x])) with x in Hnil.
    change (nth 1 [prog; c; x] EmptyString) with c in Hnil.
    rewrite Hnil in Hmatch. inversion Hmatch. }
  cbn [t_rows] in Hout2.
  change (join " " (drop 2 [prog; c; x])) with x in Hout2.
  change (nth 1 [prog; c; x] EmptyString) with c in Hout2.
  destruct (records_elem (db st1)
              (listed c x (t_rows t ++ expected_rows rows VNone n)) r)
    as (before & after & Hrec).
  { unfold listed. apply elem_of_app. left. exact Hmatch. }
  exists st2, r, before, after.
  split; [exact Hmain|]. split; [exact Hdb2|].
  split; [rewrite Hout2, Hrec; reflexivity|exact Hcells].
Qed.

Lemma imported_session_is_found_witness :
  exists (st2 : state) (r : Sqlite.row) (before after : list string),
    LookupAgenda.main ["lookup_agenda.py"; "title"; "Part 1"]
      (import_rows agenda fresh).2 = (0, st2)
    /\ db st2 = db (import_rows agenda fresh).2
    /\ out st2 = out (import_rows agenda fresh).2 ++ before
                 ++ display_record r
                      (attendee_names (db (import_rows agenda fresh).2) (r_id r))
                 ++ after
    /\ forall key, key ∈ SESSIONS_COLUMNS ->
                   cell (r_cells r) key
                   = stored_of
                       (row_get (agenda_row (VStr "Sub") (VStr "Part 1")
                                   (VStr " Ada Lovelace ")) key).
Proof.
  apply (imported_session_is_found agenda fresh (import_rows agenda fresh).2
           1 (agenda_row (VStr "Sub") (VStr "Part 1") (VStr " Ada Lovelace "))
           "lookup_agenda.py" "title" "Part 1").
  - exact fresh_ok.
  - vm_compute. reflexivity.
  - reflexivity.
  - cbn. repeat constructor.
  - reflexivity.
Defined.

End ImportThenLookup.

(* ===================================================================== *)
(** * A lookup by speaker *)
(* ===================================================================== *)

Section SpeakerLookup.
Import Py Utils Sqlite Engine DbTable Constants LookupAgenda.

Lemma three_sources (d : store) (t l p : table) (q : select_stmt) :
  d !! "sessions" = Some t ->
  d !! "sessions_speakers" = Some l ->
  d !! "speakers" = Some p ->
  sel_table q = "sessions" ->
  sel_joins q = [("sessions", "sessions_speakers", "id", "session_id");
                 ("sessions_speakers", "speakers", "speaker_id", "id")] ->
  sources d q = inr [("sessions", t); ("sessions_speakers", l); ("speakers", p)].
Proof.
  intros Ht Hl Hp Htab Hjoins. unfold sources. rewrite Htab, Hjoins.
  cbn [map fst snd].
  assert (Hf : filter (fun n : string => d !! n = None)
                      ["sessions"; "sessions_speakers"; "speakers"] = []).
  { rewrite filter_cons.
    destruct (decide (d !! "sessions" = None)) as [H|_];
      [rewrite Ht in H; discriminate|].
    rewrite filter_cons.
    destruct (decide (d !! "sessions_speakers" = None)) as [H|_];
      [rewrite Hl in H; discriminate|].
    rewrite filter_cons.
    destruct (decide (d !! "speakers" = None)) as [H|_];
      [rewrite Hp in H; discriminate|reflexivity]. }
  rewrite Hf. cbn [omap list_omap]. rewrite Ht, Hl, Hp. reflexivity.
Qed.

Lemma flat_map_flat_map {A B C : Type} (f : B -> list C) (g : A -> list B)
  (l : list A) :
  flat_map f (flat_map g l) = flat_map (fun x => flat_map f (g x)) l.
Proof.
  induction l as [|x l IH]; [reflexivity|].
  cbn [flat_map]. rewrite flat_map_app, IH. reflexivity.
Qed.

Lemma flat_map_map {A B C : Type} (f : B -> list C) (g : A -> B)
  (l : list A) :
  flat_map f (map g l) = flat_map (fun x => f (g x)) l.
Proof.
  induction l as [|x l IH]; [reflexivity|].
  cbn [map flat_map]. rewrite IH. reflexivity.
Qed.

Lemma filter_flat_map {A B : Type} (P : B -> bool) (f : A -> list B)
  (l : list A) :
  filter (fun b => P b = true) (flat_map f l)
  = flat_map (fun x => filter (fun b => P b = true) (f x)) l.
Proof.
  induction l as [|x l IH]; [reflexivity|].
  cbn [flat_map]. rewrite filter_app, IH. reflexivity.
Qed.

Lemma map_flat_map {A B C : Type} (h : B -> C) (f : A -> list B)
  (l : list A) :
  map h (flat_map f l) = flat_map (fun x => map h (f x)) l.
Proof.
  induction l as [|x l IH]; [reflexivity|].
  cbn [flat_map]. rewrite map_app, IH. reflexivity.
Qed.

Lemma flat_map_agree {A B : Type} (f g : A -> list B) (l : list A) :
  (forall x, f x = g x) -> flat_map f l = flat_map g l.
Proof.
  intros Hfg. induction l as [|x l IH]; [reflexivity|].
  cbn [flat_map]. rewrite Hfg, IH. reflexivity.
Qed.

Lemma filter_filter_bool {A : Type} (P Q : A -> bool) (l : list A) :
  filter (fun x => P x = true) (filter (fun x => Q x = true) l)
  = filter (fun x => Q x && P x = true) l.
Proof.
  induction l as [|x l IH]; [reflexivity|].
  rewrite !filter_cons.
  destruct (Q x) eqn:HQ; cbn [andb].
  - rewrite decide_True by reflexivity. rewrite filter_cons, IH.
    destruct (decide (P x = true)); reflexivity.
  - rewrite !decide_False by discriminate. exact IH.
Qed.

(** The primary statement of a speaker lookup: three tables, two joins. *)
Lemma select_attended (d : store) (srows lrows prows : list row) (v : string) :
  d !! "sessions" = Some {| t_schema := sessions_sch; t_rows := srows |} ->
  d !! "sessions_speakers"
  = Some {| t_schema := sessions_speakers_sch; t_rows := lrows |} ->
  d !! "speakers" = Some {| t_schema := speakers_sch; t_rows := prows |} ->
  select_rows d (primary_query "speaker" (VStr v))
  = inr (map session_values (attended (strip v) srows lrows prows)).
Proof.
  intros Ht Hl Hp. unfold select_rows.
  rewrite (three_sources d _ _ _ (primary_query "speaker" (VStr v)) Ht Hl Hp
             eq_refl eq_refl).
  cbn [sbind].
  set (srcs := [("sessions", {| t_schema := sessions_sch; t_rows := srows |});
                ("sessions_speakers",
                 {| t_schema := sessions_speakers_sch; t_rows := lrows |});
                ("speakers", {| t_schema := speakers_sch; t_rows := prows |})]).
  change (result_columns srcs (primary_query "speaker" (VStr v)))
    with (@inr exn _ (map (pair "sessions") sessions_columns)).
  cbn [sbind].
  change (join_all srcs (sel_joins (primary_query "speaker" (VStr v))) _)
    with (@inr exn _
            (flat_map
               (fun e : env =>
                  map (fun r3 => e ++ [("speakers", r3)])
                      (filter (fun r3 =>
                                 joins (lookup_env e "sessions_speakers"
                                          "speaker_id")
                                       (cell (r_cells r3) "id") = true) prows))
               (flat_map
                  (fun e : env =>
                     map (fun r2 => e ++ [("sessions_speakers", r2)])
                         (filter (fun r2 =>
                                    joins (lookup_env e "sessions" "id")
                                          (cell (r_cells r2) "session_id")
                                    = true) lrows))
                  (map (fun r => [("sessions", r)]) srows)))).
  cbn [sbind].
  assert (Hw : eval_where srcs (sel_where (primary_query "speaker" (VStr v)))
               = inr (fun e : env =>
                        (negb (is_null (lookup_env e "speakers" "name"))
                         && bool_decide (lookup_env e "speakers" "name"
                                         = SText (strip v)))
                        && true)).
  { change (sel_where (primary_query "speaker" (VStr v)))
      with [CEq "name" (str (preprocess_value (VStr v)))].
    unfold eval_where, eval_cond.
    change (split " " "name") with ["name"]. cbv beta iota.
    change (resolve srcs "name") with (@inr exn _ ("speakers", AffText)).
    cbn [sbind]. rewrite (unquote_literal (VStr v)). reflexivity. }
  rewrite Hw. cbn [sbind]. clear Hw. f_equal.
  rewrite flat_map_map, flat_map_flat_map, filter_flat_map, map_flat_map.
  unfold attended. rewrite map_flat_map.
  apply flat_map_agree. intros s.
  rewrite flat_map_map, filter_flat_map, !map_flat_map.
  change (lookup_env [("sessions", s)] "sessions" "id")
    with (cell (r_cells s) "id").
  apply flat_map_agree. intros lk.
  rewrite filter_map_bool, filter_filter_bool, !map_map.
  rewrite (filter_agree _
             (fun sp => joins (cell (r_cells lk) "speaker_id")
                              (cell (r_cells sp) "id")
                        && bool_decide (cell (r_cells sp) "name"
                                        = SText (strip v)))).
  - reflexivity.
  - intros x _.
    change (lookup_env ([("sessions", s)] ++ [("sessions_speakers", lk)])
              "sessions_speakers" "speaker_id")
      with (cell (r_cells lk) "speaker_id").
    change (lookup_env (([("sessions", s)] ++ [("sessions_speakers", lk)])
                        ++ [("speakers", x)]) "speakers" "name")
      with (cell (r_cells x) "name").
    rewrite andb_true_r. destruct (cell (r_cells x) "name"); reflexivity.
Qed.

(** [get_all_matches] once the rows of its primary statement are known. *)
Lemma get_all_matches_run (st : state) (t : table) (c : string)
  (v : Py.value) (primary : list row) :
  db st !! "sessions" = Some t ->
  t_schema t = sessions_sch ->
  (forall r, r ∈ primary -> cell (r_cells r) "id" = SInt (r_id r)) ->
  select_rows (db st) (primary_query c v) = inr (map session_values primary) ->
  get_all_matches c v
    (handle "sessions" Models.sessions_schema)
    (handle "sessions_speakers" Models.sessions_speakers_schema)
    (handle "speakers" Models.speakers_schema) st
  = match primary with
    | [] =>
        (Raise (ValueError "No matches found for the given query."),
         logged (SSelect (primary_query c v)) st)
    | _ =>
        (Ok (map session_dict
               (primary
                ++ filter (fun r => expansion_test (map r_id primary) r = true)
                          (t_rows t))),
         logged (SSelect (expansion_query (map r_id primary)))
           (logged (SSelect (primary_query c v)) st))
    end.
Proof.
  intros Hdb Hsch Hids Hsel.
  unfold get_all_matches. unfold bind at 1.
  rewrite (primary_select c v st), Hsel. rewrite map_map.
  change (map (fun x => result_row sessions_columns (session_values x)) primary)
    with (map session_dict primary).
  destruct primary as [|r0 rest] eqn:Hprimary; [reflexivity|].
  rewrite <- Hprimary in *.
  assert (Hmatch : forall (A : Type) (x y : A),
             match map session_dict primary with
             | [] => x | _ :: _ => y end = y).
  { intros A x y. rewrite Hprimary. reflexivity. }
  rewrite Hmatch. clear Hmatch.
  unfold bind at 1. rewrite selected_ids by exact Hids.
  unfold bind at 1. rewrite select_run. cbv zeta.
  set (ids := map r_id primary).
  assert (Hq : select_of (handle "sessions" Models.sessions_schema) [] []
                 [("supersession_id", Many (map (fun r => VInt (r_id r)) primary));
                  ("id NOT", Many (map (fun r => VInt (r_id r)) primary))]
               = expansion_query ids).
  { unfold select_of, expansion_query, where_cond. cbn [map fst snd].
    subst ids. rewrite !map_map. reflexivity. }
  rewrite Hq. clear Hq.
  assert (Hids_ne : exists z zs, ids = z :: zs).
  { subst ids. rewrite Hprimary. cbn [map]. eauto. }
  destruct Hids_ne as (z & zs & Hzs).
  destruct (where_expansion t z zs Hsch) as (p' & Hp' & Hpr').
  rewrite <- Hzs in Hp', Hpr'.
  cbn [db logged].
  rewrite (select_rows_single (db st) (expansion_query ids) t
             (map (pair "sessions") sessions_columns) p' eq_refl Hdb
             (sessions_result_columns t [] _ Hsch) Hp').
  cbn [sel_table expansion_query sel_columns]. rewrite map_map.
  assert (Hfilter' : filter (fun r => p' [("sessions", r)] = true) (t_rows t)
                     = filter (fun r => expansion_test ids r = true) (t_rows t)).
  { apply list_filter_iff. intros r. rewrite Hpr'. reflexivity. }
  rewrite Hfilter'. unfold ret. rewrite map_app. reflexivity.
Qed.

Lemma joins_ids (a b : Z) : joins (SInt a) (SInt b) = bool_decide (a = b).
Proof.
  unfold joins, compare_eq. cbn [coerce is_null negb andb].
  apply bool_decide_ext. split; [intros [= ->]|intros ->]; reflexivity.
Qed.

Lemma attended_elem (n : string) (t l p : table) (s : row) :
  rowids_ok t -> rowids_ok p -> links_are_ids l ->
  s ∈ attended n (t_rows t) (t_rows l) (t_rows p)
  <-> s ∈ t_rows t /\ attends n (t_rows l) (t_rows p) s.
Proof.
  intros [_ Hst] [_ Hsp] Hlk. unfold attended, attends.
  rewrite list_elem_of_In, in_flat_map. split.
  - intros (s' & Hs' & Hin). apply in_flat_map in Hin as (lk & Hlkin & Hin).
    apply in_map_iff in Hin as (sp & -> & Hspin).
    apply list_elem_of_In, list_elem_of_filter in Hlkin as [Hj1 Hlkin].
    apply list_elem_of_In, list_elem_of_filter in Hspin as [Hj2 Hspin].
    apply list_elem_of_In in Hs'.
    rewrite (Hst _ Hs') in Hj1. rewrite (Hsp _ Hspin) in Hj2.
    destruct (Hlk _ Hlkin) as (a & b & Ha & Hb).
    rewrite Ha in Hj1. rewrite Hb in Hj2.
    rewrite joins_ids in Hj1, Hj2.
    apply andb_true_iff in Hj2 as [Hj2 Hname].
    apply bool_decide_eq_true in Hj1, Hj2, Hname.
    split; [exact Hs'|]. exists lk, sp. subst a b. auto.
  - intros (Hs & lk & sp & Hlkin & Hspin & Ha & Hb & Hname).
    exists s. split; [apply list_elem_of_In, Hs|].
    apply in_flat_map. exists lk. split.
    + apply list_elem_of_In, list_elem_of_filter. split; [|exact Hlkin].
      rewrite (Hst _ Hs), Ha, joins_ids. apply bool_decide_eq_true. reflexivity.
    + apply in_map_iff. exists sp. split; [reflexivity|].
      apply list_elem_of_In, list_elem_of_filter. split; [|exact Hspin].
      rewrite (Hsp _ Hspin), Hb, joins_ids, Hname.
      apply andb_true_iff. split; apply bool_decide_eq_true; reflexivity.
Qed.

Lemma attended_rows (n : string) (srows lrows prows : list row) (s : row) :
  s ∈ attended n srows lrows prows -> s ∈ srows.
Proof.
  unfold attended. rewrite list_elem_of_In, in_flat_map.
  intros (s' & Hs' & Hin). apply in_flat_map in Hin as (lk & _ & Hin).
  apply in_map_iff in Hin as (sp & -> & _). apply list_elem_of_In, Hs'.
Qed.

(** The sessions listed from any primary result. *)
Lemma listing_elem (primary : list row) (t : table) (r : row) :
  rowids_ok t ->
  (forall s, s ∈ primary -> s ∈ t_rows t) ->
  r ∈ primary ++ filter (fun r => expansion_test (map r_id primary) r = true)
                        (t_rows t)
  <-> r ∈ t_rows t
      /\ (r ∈ primary
          \/ exists s, s ∈ primary
                       /\ cell (r_cells r) "supersession_id" = SInt (r_id s)).
Proof.
  intros [Hnd Hids] Hsub.
  rewrite elem_of_app, list_elem_of_filter.
  split.
  - intros [Hr|[Hexp Hr]]; [split; [apply Hsub, Hr|left; exact Hr]|].
    split; [exact Hr|]. right.
    apply (expansion_test_spec _ r (Hids r Hr)) in Hexp
      as [(z & Hz & Hsup) _].
    apply list_elem_of_fmap in Hz as (s & -> & Hs). exists s. auto.
  - intros [Hr [Hm|(s & Hs & Hsup)]]; [left; exact Hm|].
    destruct (decide (r_id r ∈ map r_id primary)) as [Hin|Hnot].
    + left. apply list_elem_of_fmap in Hin as (s' & Heq & Hs').
      rewrite (rowid_determines_row _ r s' Hnd Hr (Hsub _ Hs') Heq).
      exact Hs'.
    + right. split; [|exact Hr].
      apply (expansion_test_spec _ r (Hids r Hr)). split; [|exact Hnot].
      exists (r_id s). split; [|exact Hsup].
      apply list_elem_of_fmap. exists s. auto.
Qed.

Lemma speaker_primary (st : state) (t l p : table) (v : string) :
  store_ok (db st) ->
  db st !! "sessions" = Some t ->
  db st !! "sessions_speakers" = Some l ->
  db st !! "speakers" = Some p ->
  select_rows (db st) (primary_query "speaker" (VStr v))
  = inr (map session_values
           (attended (strip v) (t_rows t) (t_rows l) (t_rows p))).
Proof.
  intros [(t1 & Ht1 & Hsch & _) (p1 & Hp1 & Hps & _) (l1 & Hl1 & Hls)]
         Ht Hl Hp.
  rewrite Ht in Ht1. injection Ht1 as <-.
  rewrite Hl in Hl1. injection Hl1 as <-.
  rewrite Hp in Hp1. injection Hp1 as <-.
  apply select_attended.
  - rewrite (table_eta t sessions_sch Hsch). exact Ht.
  - rewrite (table_eta l sessions_speakers_sch Hls). exact Hl.
  - rewrite (table_eta p speakers_sch Hps). exact Hp.
Qed.




(** X15.  What [get_all_matches] returns for a speaker query, when it
    returns, on a store written by the import whose association rows hold
    ids: exactly the sessions associated with a speaker whose name is the
    trimmed query text, together with the sessions whose supersession is
    such a session. *)
Theorem speaker_lookup_lists_attended_sessions
  (v : string) (st st' : state) (t l p : table) (ds : list dict) :
  store_ok (db st) ->
  db st !! "sessions" = Some t ->
  db st !! "sessions_speakers" = Some l ->
  db st !! "speakers" = Some p ->
  links_are_ids l ->
  get_all_matches "speaker" (VStr v)
    (handle "sessions" Models.sessions_schema)
    (handle "sessions_speakers" Models.sessions_speakers_schema)
    (handle "speakers" Models.speakers_schema) st = (Ok ds, st') ->
  exists rows,
    ds = map session_dict rows
    /\ forall r,
         r ∈ rows
         <-> r ∈ t_rows t
             /\ (attends (strip v) (t_rows l) (t_rows p) r
                 \/ exists s, s ∈ t_rows t
                              /\ attends (strip v) (t_rows l) (t_rows p) s
                              /\ cell (r_cells r) "supersession_id"
                                 = SInt (r_id s)).
Proof.
  intros Hok Ht Hl Hp Hlinks Hrun.
  pose proof (speaker_primary st t l p v Hok Ht Hl Hp) as Hsel.
  destruct Hok as [(t1 & Ht1 & Hsch & Hrow & Hself)
                   (p1 & Hp1 & Hps & Hprow & _) (l1 & Hl1 & Hls)].
  rewrite Ht in Ht1. injection Ht1 as <-.
  rewrite Hp in Hp1. injection Hp1 as <-.
  set (primary := attended (strip v) (t_rows t) (t_rows l) (t_rows p)) in *.
  assert (Hsub : forall r, r ∈ primary -> r ∈ t_rows t).
  { intros r Hr. exact (attended_rows _ _ _ _ _ Hr). }
  rewrite (get_all_matches_run st t "speaker" (VStr v) primary Ht Hsch
             (fun r Hr => proj2 Hrow r (Hsub r Hr)) Hsel) in Hrun.
  destruct primary as [|r0 rest] eqn:Hprimary; [discriminate|].
  rewrite <- Hprimary in *. injection Hrun as <- _.
  eexists. split; [reflexivity|]. intros r.
  rewrite (listing_elem primary t r Hrow Hsub).
  subst primary.
  split.
  - intros [Hr [Hm|(s & Hs & Hsup)]]; (split; [exact Hr|]).
    + left. apply (attended_elem _ t l p r Hrow Hprow Hlinks) in Hm as [_ Hm].
      exact Hm.
    + right. apply (attended_elem _ t l p s Hrow Hprow Hlinks) in Hs
        as [Hs Hm].
      exists s. auto.
  - intros [Hr [Hm|(s & Hs & Hm & Hsup)]]; (split; [exact Hr|]).
    + left. apply (attended_elem _ t l p r Hrow Hprow Hlinks). auto.
    + right. exists s. split; [|exact Hsup].
      apply (attended_elem _ t l p s Hrow Hprow Hlinks). auto.
Qed.

Lemma nested_links_are_ids : links_are_ids nested_links.
Proof.
  intros r Hr. cbn in Hr.
  repeat (apply elem_of_cons in Hr as [->|Hr]);
    [eexists _, _; split; reflexivity..|inversion Hr].
Qed.

Lemma speaker_lookup_lists_attended_sessions_witness :
  exists rows,
    map session_dict [session_row 1 "Keynote" SNull;
                      session_row 2 "Part 1" (SInt 1);
                      session_row 3 "Part 2" (SInt 1)]
    = map session_dict rows
    /\ forall r,
         r ∈ rows
         <-> r ∈ t_rows nested_sessions
             /\ (attends (strip " Ada Lovelace") (t_rows nested_links)
                   (t_rows nested_speakers) r
                 \/ exists s, s ∈ t_rows nested_sessions
                              /\ attends (strip " Ada Lovelace")
                                   (t_rows nested_links)
                                   (t_rows nested_speakers) s
                              /\ cell (r_cells r) "supersession_id"
                                 = SInt (r_id s)).
Proof.
  apply (speaker_lookup_lists_attended_sessions " Ada Lovelace" nested
           (get_all_matches "speaker" (VStr " Ada Lovelace")
              (handle "sessions" Models.sessions_schema)
              (handle "sessions_speakers" Models.sessions_speakers_schema)
              (handle "speakers" Models.speakers_schema) nested).2
           nested_sessions nested_links nested_speakers).
  - exact nested_ok.
  - reflexivity.
  - reflexivity.
  - reflexivity.
  - exact nested_links_are_ids.
  - vm_compute. reflexivity.
Defined.

End SpeakerLookup.

(* ===================================================================== *)
(** * The speakers of a session *)
(* ===================================================================== *)

Section SpeakerNames.
Import Py Utils Sqlite Engine DbTable Constants LookupAgenda.

Lemma two_sources (d : store) (p l : table) (id : Z) :
  d !! "speakers" = Some p ->
  d !! "sessions_speakers" = Some l ->
  sources d (names_query id)
  = inr [("speakers", p); ("sessions_speakers", l)].
Proof.
  intros Hp Hl. unfold sources, names_query.
  cbn [sel_table sel_joins map fst snd].
  assert (Hf : filter (fun n : string => d !! n = None)
                      ["speakers"; "sessions_speakers"] = []).
  { rewrite filter_cons.
    destruct (decide (d !! "speakers" = None)) as [H|_];
      [rewrite Hp in H; discriminate|].
    rewrite filter_cons.
    destruct (decide (d !! "sessions_speakers" = None)) as [H|_];
      [rewrite Hl in H; discriminate|reflexivity]. }
  rewrite Hf. cbn [omap list_omap]. rewrite Hp, Hl. reflexivity.
Qed.

(** The statement of [get_speaker_names]: two tables, one join. *)
Lemma select_speakers_of (d : store) (prows lrows : list row) (id : Z) :
  d !! "speakers" = Some {| t_schema := speakers_sch; t_rows := prows |} ->
  d !! "sessions_speakers"
  = Some {| t_schema := sessions_speakers_sch; t_rows := lrows |} ->
  select_rows d (names_query id)
  = inr (map (fun sp => [cell (r_cells sp) "name"])
             (speakers_of id prows lrows)).
Proof.
  intros Hp Hl. unfold select_rows.
  rewrite (two_sources d _ _ id Hp Hl). cbn [sbind].
  set (srcs := [("speakers", {| t_schema := speakers_sch; t_rows := prows |});
                ("sessions_speakers",
                 {| t_schema := sessions_speakers_sch; t_rows := lrows |})]).
  change (result_columns srcs (names_query id))
    with (@inr exn _ [("speakers", "name")]).
  cbn [sbind].
  change (join_all srcs (sel_joins (names_query id)) _)
    with (@inr exn _
            (flat_map
               (fun e : env =>
                  map (fun r2 => e ++ [("sessions_speakers", r2)])
                      (filter (fun r2 =>
                                 joins (lookup_env e "speakers" "id")
                                       (cell (r_cells r2) "speaker_id") = true)
                              lrows))
               (map (fun r => [("speakers", r)]) prows))).
  cbn [sbind].
  assert (Hw : eval_where srcs (sel_where (names_query id))
               = inr (fun e : env =>
                        (negb (is_null (lookup_env e "sessions_speakers"
                                          "session_id"))
                         && bool_decide (lookup_env e "sessions_speakers"
                                           "session_id" = SInt id))
                        && true)).
  { change (sel_where (names_query id)) with [CEq "session_id" (str_of_Z id)].
    unfold eval_where, eval_cond.
    change (split " " "session_id") with ["session_id"]. cbv beta iota.
    change (resolve srcs "session_id")
      with (@inr exn _ ("sessions_speakers", AffInteger)).
    cbn [sbind]. rewrite (unquote_plain _ (str_of_Z_plain id)).
    cbn [sbind fst snd]. rewrite coerce_integer_text. reflexivity. }
  rewrite Hw. cbn [sbind]. clear Hw. f_equal.
  rewrite flat_map_map, filter_flat_map, map_flat_map.
  unfold speakers_of. rewrite map_flat_map.
  apply flat_map_agree. intros sp.
  rewrite filter_map_bool, filter_filter_bool, !map_map.
  rewrite (filter_agree _
             (fun lk => joins (cell (r_cells sp) "id")
                              (cell (r_cells lk) "speaker_id")
                        && bool_decide (cell (r_cells lk) "session_id"
                                        = SInt id))).
  - reflexivity.
  - intros x _.
    change (lookup_env [("speakers", sp)] "speakers" "id")
      with (cell (r_cells sp) "id").
    change (lookup_env ([("speakers", sp)] ++ [("sessions_speakers", x)])
              "sessions_speakers" "session_id")
      with (cell (r_cells x) "session_id").
    rewrite andb_true_r.
    destruct (cell (r_cells x) "session_id"); reflexivity.
Qed.

Lemma speakers_of_elem (id : Z) (p l : table) (sp : row) :
  rowids_ok p -> links_are_ids l ->
  sp ∈ speakers_of id (t_rows p) (t_rows l)
  <-> sp ∈ t_rows p
      /\ exists lk, lk ∈ t_rows l
                    /\ cell (r_cells lk) "session_id" = SInt id
                    /\ cell (r_cells lk) "speaker_id" = SInt (r_id sp).
Proof.
  intros [_ Hsp] Hlk. unfold speakers_of.
  rewrite list_elem_of_In, in_flat_map. split.
  - intros (sp' & Hsp' & Hin).
    apply in_map_iff in Hin as (lk & -> & Hlkin).
    apply list_elem_of_In, list_elem_of_filter in Hlkin as [Hj Hlkin].
    apply list_elem_of_In in Hsp'.
    rewrite (Hsp _ Hsp') in Hj.
    destruct (Hlk _ Hlkin) as (a & b & Ha & Hb).
    rewrite Hb, joins_ids in Hj.
    apply andb_true_iff in Hj as [Hj Hid].
    apply bool_decide_eq_true in Hj, Hid.
    split; [exact Hsp'|]. exists lk. subst b. auto.
  - intros (Hin & lk & Hlkin & Ha & Hb).
    exists sp. split; [apply list_elem_of_In, Hin|].
    apply in_map_iff. exists lk. split; [reflexivity|].
    apply list_elem_of_In, list_elem_of_filter. split; [|exact Hlkin].
    rewrite (Hsp _ Hin), Hb, joins_ids, Ha.
    apply andb_true_iff. split; apply bool_decide_eq_true; reflexivity.
Qed.

(** X16.  [get_speaker_names] on a session of a store written by the
    import, whose association rows hold ids: it returns, and the names
    returned are exactly the names of the speakers that an association row
    joins with the session, each with its pairs of adjacent apostrophes
    collapsed; a session without an association row gets the empty list. *)
Theorem speaker_names_are_those_of_the_associates
  (st : state) (p l : table) (r : row) :
  store_ok (db st) ->
  db st !! "speakers" = Some p ->
  db st !! "sessions_speakers" = Some l ->
  links_are_ids l ->
  cell (r_cells r) "id" = SInt (r_id r) ->
  exists names,
    get_speaker_names (session_dict r)
      (handle "speakers" Models.speakers_schema)
      (handle "sessions_speakers" Models.sessions_speakers_schema) st
    = (Ok (map VStr names), logged (SSelect (names_query (r_id r))) st)
    /\ (forall x,
          x ∈ names
          <-> exists lk sp n,
                lk ∈ t_rows l /\ sp ∈ t_rows p
                /\ cell (r_cells lk) "session_id" = SInt (r_id r)
                /\ cell (r_cells lk) "speaker_id" = SInt (r_id sp)
                /\ cell (r_cells sp) "name" = SText n
                /\ x = replace "''" "'" n)
    /\ ((forall lk, lk ∈ t_rows l ->
                    cell (r_cells lk) "session_id" <> SInt (r_id r)) ->
        names = []).
Proof.
  intros [_ (p1 & Hp1 & Hps & Hprow & Htext & _) (l1 & Hl1 & Hls)]
         Hp Hl Hlinks Hid.
  rewrite Hp in Hp1. injection Hp1 as <-.
  rewrite Hl in Hl1. injection Hl1 as <-.
  exists (attendee_names (db st) (r_id r)).
  split; [apply (get_speaker_names_run st p l r); assumption|].
  unfold attendee_names.
  rewrite (select_speakers_of (db st) (t_rows p) (t_rows l) (r_id r))
    by (rewrite ?(table_eta p speakers_sch Hps),
                ?(table_eta l sessions_speakers_sch Hls); assumption).
  set (found := speakers_of (r_id r) (t_rows p) (t_rows l)).
  assert (Hfound : forall sp, sp ∈ found ->
                     sp ∈ t_rows p
                     /\ exists lk, lk ∈ t_rows l
                          /\ cell (r_cells lk) "session_id" = SInt (r_id r)
                          /\ cell (r_cells lk) "speaker_id" = SInt (r_id sp)).
  { intros sp Hsp. apply (speakers_of_elem _ p l sp Hprow Hlinks), Hsp. }
  assert (Hback : forall sp, sp ∈ t_rows p ->
                    (exists lk, lk ∈ t_rows l
                       /\ cell (r_cells lk) "session_id" = SInt (r_id r)
                       /\ cell (r_cells lk) "speaker_id" = SInt (r_id sp)) ->
                    sp ∈ found).
  { intros sp Hsp Hex. apply (speakers_of_elem _ p l sp Hprow Hlinks). auto. }
  clearbody found.
  split.
  - intros x. rewrite list_elem_of_omap. split.
    + intros (row & Hrow & Hx).
      apply list_elem_of_fmap in Hrow as (sp & -> & Hsp).
      destruct (Hfound sp Hsp) as (Hin & lk & Hlk & Ha & Hb).
      destruct (Htext sp Hin) as (n & Hn). rewrite Hn in Hx.
      injection Hx as <-. exists lk, sp, n. repeat split; assumption.
    + intros (lk & sp & n & Hlk & Hsp & Ha & Hb & Hn & ->).
      exists [cell (r_cells sp) "name"]. split.
      * apply list_elem_of_fmap. exists sp. split; [reflexivity|].
        apply Hback; [exact Hsp|]. exists lk. auto.
      * rewrite Hn. reflexivity.
  - intros Hnone. destruct found as [|sp found]; [reflexivity|].
    destruct (Hfound sp ltac:(left)) as (_ & lk & Hlk & Ha & _).
    exfalso. exact (Hnone lk Hlk Ha).
Qed.

Lemma speaker_names_are_those_of_the_associates_witness :
  let r := session_row 1 "Keynote" SNull in
  exists names,
    get_speaker_names (session_dict r)
      (handle "speakers" Models.speakers_schema)
      (handle "sessions_speakers" Models.sessions_speakers_schema) nested
    = (Ok (map VStr names), logged (SSelect (names_query (r_id r))) nested)
    /\ (forall x,
          x ∈ names
          <-> exists lk sp n,
                lk ∈ t_rows nested_links /\ sp ∈ t_rows nested_speakers
                /\ cell (r_cells lk) "session_id" = SInt (r_id r)
                /\ cell (r_cells lk) "speaker_id" = SInt (r_id sp)
                /\ cell (r_cells sp) "name" = SText n
                /\ x = replace "''" "'" n)
    /\ ((forall lk, lk ∈ t_rows nested_links ->
                    cell (r_cells lk) "session_id" <> SInt (r_id r)) ->
        names = []).
Proof.
  intros r.
  apply (speaker_names_are_those_of_the_associates nested nested_speakers
           nested_links r).
  - exact nested_ok.
  - reflexivity.
  - reflexivity.
  - exact nested_links_are_ids.
  - reflexivity.
Defined.

End SpeakerNames.

(* ===================================================================== *)
(** * The associations a completed import adds *)
(* ===================================================================== *)

Section NewLinks.
Import Py Utils Sqlite Engine DbTable ImportAgenda.

(** When the final loop comes to its end it has appended one row per
    pending pair, in order, under consecutive rowids. *)
Lemma link_all_rows (cache : gmap string value) (pending : list (Z * string)) :
  forall rows,
  (link_all cache pending rows).2 = true ->
  exists news,
    (link_all cache pending rows).1 = rows ++ news
    /\ length news = length pending
    /\ forall (k : nat) (sid : Z) (name : string),
         pending !! k = Some (sid, name) ->
         exists b, cache !! name = Some (VInt b)
                   /\ news !! k
                      = Some (link_row (next_rowid rows + Z.of_nat k) sid b).
Proof.
  induction pending as [|[sid name] pending IH]; intros rows Hdone.
  - exists []. cbn. rewrite app_nil_r. repeat split. intros k ? ? Hk.
    rewrite lookup_nil in Hk. discriminate.
  - cbn [link_all] in *.
    destruct (cache !! name) as [[| |b|]|] eqn:Hcache; try discriminate.
    destruct (linked sid b rows) eqn:Hlinked; [|discriminate].
    destruct (IH _ Hdone) as (news & Hrows & Hlen & Hnews).
    exists (link_row (next_rowid rows) sid b :: news).
    split; [rewrite Hrows, <- app_assoc; reflexivity|].
    split; [cbn [length]; rewrite Hlen; reflexivity|].
    intros [|k] sid' name' Hk.
    + injection Hk as <- <-. exists b. split; [exact Hcache|].
      rewrite Z.add_0_r. reflexivity.
    + change (pending !! k = Some (sid', name')) in Hk.
      destruct (Hnews k sid' name' Hk) as (b' & Hb' & Hk').
      exists b'. split; [exact Hb'|].
      change (news !! k
              = Some (link_row (next_rowid rows + Z.of_nat (S k)) sid' b')).
      rewrite Hk'.
      rewrite (next_rowid_app rows (link_row (next_rowid rows) sid b))
        by reflexivity.
      do 2 f_equal. lia.
Qed.

(** X17.  The associations of a completed import.  Each name of each
    present speakers cell gives one pending pair (id of the session of
    that row, name), in spreadsheet order.  When the import comes to its
    end, the association table has gained exactly one row per pending
    pair, in that order and under consecutive rowids after the rows it
    had; the row of a pair joins the session id with the id of the one
    stored speaker of that name. *)
Theorem completed_import_links_every_pair
  (rows : list excel_row) (st st' : state) (p l : table) :
  store_ok (db st) ->
  db st !! "speakers" = Some p ->
  db st !! "sessions_speakers" = Some l ->
  import_rows rows st = (Ok tt, st') ->
  exists (ids : list Z) (p' l' : table) (news : list row),
    (process_session_data rows (handle "sessions" Models.sessions_schema)
       (opened st)).1 = Ok ids
    /\ db st' !! "speakers" = Some p'
    /\ db st' !! "sessions_speakers" = Some l'
    /\ t_rows l' = t_rows l ++ news
    /\ length news = length (import_pending rows ids)
    /\ forall (k : nat) (sid : Z) (name : string),
         import_pending rows ids !! k = Some (sid, name) ->
         exists sp,
           named name (t_rows p') = [sp]
           /\ news !! k
              = Some (link_row (next_rowid (t_rows l) + Z.of_nat k) sid
                        (r_id sp)).
Proof.
  intros Hok Hp Hl Hrun.
  destruct (process_session_data rows
              (handle "sessions" Models.sessions_schema) (opened st))
    as [[ids|e] st1] eqn:Hsess.
  2:{ rewrite (import_rows_stops rows st st1 e Hsess) in Hrun. discriminate. }
  destruct (import_rows_run rows st st1 p l ids Hok Hp Hl Hsess)
    as (st'' & Himp & Hdb' & _ & _).
  rewrite Hrun in Himp.
  destruct (import_links rows ids (t_rows p) (t_rows l)).2 eqn:Hlinks;
    [|discriminate].
  injection Himp as <-.
  destruct (speakers_of_store _ Hok) as (p0 & Hp0 & Hps & Hrows).
  rewrite Hp in Hp0. injection Hp0 as <-.
  destruct (link_all_rows _ _ _ Hlinks) as (news & Hnews & Hlen & Hk).
  exists ids,
    {| t_schema := speakers_sch;
       t_rows := ensure_all (import_names rows) (t_rows p) |},
    {| t_schema := sessions_speakers_sch;
       t_rows := (import_links rows ids (t_rows p) (t_rows l)).1 |},
    news.
  split; [reflexivity|].
  split; [rewrite Hdb', lookup_insert_ne by discriminate;
          apply lookup_insert_eq|].
  split; [rewrite Hdb'; apply lookup_insert_eq|].
  split; [exact Hnews|]. split; [exact Hlen|].
  intros k sid name Hpend.
  destruct (Hk k sid name Hpend) as (b & Hb & Hrow).
  assert (Hin : (sid, name) ∈ import_pending rows ids).
  { apply list_elem_of_lookup. exists k. exact Hpend. }
  assert (Hname : name ∈ import_names rows).
  { exact (pending_names ids (map speakers rows) sid name 0 Hin). }
  destruct (cache_all_named (import_names rows) name (t_rows p) ∅ Hrows Hname)
    as (sp & Hsp & Hcache).
  unfold import_cache in Hb. rewrite Hcache in Hb. injection Hb as <-.
  assert (Htrim : strip name = name).
  { clear -Hin. unfold import_pending in Hin.
    revert Hin. generalize 0%nat. generalize (map speakers rows).
    intros cells. induction cells as [|c cells IH]; intros index Hin;
      [inversion Hin|].
    cbn [pending_from] in Hin. apply elem_of_app in Hin as [Hin|Hin];
      [|exact (IH _ Hin)].
    destruct (ids !! index); [|inversion Hin].
    apply list_elem_of_fmap in Hin as (n & [= _ ->] & Hn).
    unfold names_of_cell in Hn. destruct (isna c); [inversion Hn|].
    exact (speaker_names_trimmed c n Hn). }
  rewrite Htrim in Hsp. exists sp. split; [exact Hsp|exact Hrow].
Qed.

Lemma completed_import_links_every_pair_witness :
  exists (ids : list Z) (p' l' : table) (news : list row),
    (process_session_data agenda (handle "sessions" Models.sessions_schema)
       (opened fresh)).1 = Ok ids
    /\ db (import_rows agenda fresh).2 !! "speakers" = Some p'
    /\ db (import_rows agenda fresh).2 !! "sessions_speakers" = Some l'
    /\ t_rows l' = t_rows (empty_table sessions_speakers_sch) ++ news
    /\ length news = length (import_pending agenda ids)
    /\ forall (k : nat) (sid : Z) (name : string),
         import_pending agenda ids !! k = Some (sid, name) ->
         exists sp,
           named name (t_rows p') = [sp]
           /\ news !! k
              = Some (link_row
                        (next_rowid (t_rows (empty_table sessions_speakers_sch))
                         + Z.of_nat k) sid (r_id sp)).
Proof.
  apply (completed_import_links_every_pair agenda fresh
           (import_rows agenda fresh).2 (empty_table speakers_sch)
           (empty_table sessions_speakers_sch)).
  - exact fresh_ok.
  - reflexivity.
  - reflexivity.
  - vm_compute. reflexivity.
Defined.

End NewLinks.

(* ===================================================================== *)
(** * The names of a speakers cell *)
(* ===================================================================== *)

Section ListedNames.
Import Py Utils Sqlite Engine DbTable ImportAgenda.

Lemma split_trailing (sep : ascii) (s : string) :
  exists pre, split sep (s +:+ String sep EmptyString) = pre ++ [EmptyString]
              /\ pre <> [].
Proof.
  induction s as [|c s (pre & IH & Hne)].
  - exists [EmptyString]. split; [|discriminate].
    change (EmptyString +:+ String sep EmptyString)
      with (String sep EmptyString).
    cbn [split]. rewrite Ascii.eqb_refl. reflexivity.
  - change (String c s +:+ String sep EmptyString)
      with (String c (s +:+ String sep EmptyString)).
    cbn [split]. rewrite IH.
    destruct (Ascii.eqb c sep).
    + exists (EmptyString :: pre). split; [reflexivity|discriminate].
    + destruct pre as [|h pre]; [contradiction|].
      exists (String c h :: pre). split; [reflexivity|discriminate].
Qed.

(** A cell that ends with the separator lists the empty name. *)
Lemma trailing_separator_name (s : string) :
  EmptyString ∈ speaker_names (VStr (s +:+ ";")).
Proof.
  unfold speaker_names. cbn [str].
  destruct (split_trailing ";" s) as (pre & Hsplit & _).
  rewrite Hsplit, map_app. apply elem_of_app. right. left.
Qed.

Lemma names_from_elem (cells : list value) (i : nat) (c : value) (n : string) :
  cells !! i = Some c ->
  isna c = false ->
  n ∈ speaker_names c ->
  n ∈ names_from cells.
Proof.
  revert i. induction cells as [|c0 cells IH]; intros i Hi Hna Hn;
    [rewrite lookup_nil in Hi; discriminate|].
  cbn [names_from]. apply elem_of_app. destruct i as [|i].
  - injection Hi as ->. left. unfold names_of_cell. rewrite Hna. exact Hn.
  - right. exact (IH i Hi Hna Hn).
Qed.

(** X18.  On a store written by the import, let every row be insertable
    as a session and hold no NUL character in a cell (a statement with one
    is refused before it is executed).  Then, however the import ends, every name listed in a
    present speakers cell (the pieces between semicolons, trimmed) is the
    name of exactly one stored speaker afterwards.  The empty piece is no
    exception: a cell that ends with a semicolon leaves a speaker whose
    name is the empty text. *)
Theorem every_listed_name_has_one_speaker
  (rows : list excel_row) (st : state) (i : nat) (row : excel_row) :
  store_ok (db st) ->
  Forall insertable rows ->
  Forall (fun row => nul_free row = true) rows ->
  rows !! i = Some row ->
  isna (speakers row) = false ->
  exists p',
    db (import_rows rows st).2 !! "speakers" = Some p'
    /\ (forall n, n ∈ speaker_names (speakers row) ->
                  exists sp, named n (t_rows p') = [sp])
    /\ (forall s, speakers row = VStr (s +:+ ";") ->
                  exists sp, named EmptyString (t_rows p') = [sp]).
Proof.
  intros Hok Hall _ Hi Hna.
  pose proof (opened_db st Hok) as Hopen.
  destruct (speakers_of_store _ Hok) as (p & Hp & Hps & Hprows).
  pose proof Hok as [(t & Ht & Hts & _) _ (l & Hl & Hls)].
  destruct (session_loop_completes (handle "sessions" Models.sessions_schema)
              rows eq_refl Hall VNone (opened st) t)
    as (ids & st1 & Hsess); [rewrite Hopen; exact Ht|exact Hts|].
  destruct (import_rows_run rows st st1 p l ids Hok Hp Hl Hsess)
    as (st' & Himp & Hdb' & _).
  rewrite Himp. cbn [snd].
  exists {| t_schema := speakers_sch;
            t_rows := ensure_all (import_names rows) (t_rows p) |}.
  split; [rewrite Hdb', lookup_insert_ne by discriminate;
          apply lookup_insert_eq|].
  assert (Hnames : forall n, n ∈ speaker_names (speakers row) ->
                     exists sp, named n (ensure_all (import_names rows)
                                           (t_rows p)) = [sp]).
  { intros n Hn.
    assert (Hin : n ∈ import_names rows).
    { apply (names_from_elem _ i (speakers row) n);
        [rewrite list_lookup_fmap, Hi; reflexivity|assumption..]. }
    destruct (cache_all_named (import_names rows) n (t_rows p) ∅ Hprows Hin)
      as (sp & Hsp & _).
    rewrite (speaker_names_trimmed _ n Hn) in Hsp. exists sp. exact Hsp. }
  split; [exact Hnames|].
  intros s Hs. apply Hnames. rewrite Hs. apply trailing_separator_name.
Qed.

Lemma every_listed_name_has_one_speaker_witness :
  let rows := [agenda_row (VStr "Session") (VStr "Keynote") (VStr "Ada;")] in
  exists p',
    db (import_rows rows fresh).2 !! "speakers" = Some p'
    /\ (forall n, n ∈ speaker_names (VStr "Ada;") ->
                  exists sp, named n (t_rows p') = [sp])
    /\ (forall s, VStr "Ada;" = VStr (s +:+ ";") ->
                  exists sp, named EmptyString (t_rows p') = [sp]).
Proof.
  intros rows.
  apply (every_listed_name_has_one_speaker rows fresh 0
           (agenda_row (VStr "Session") (VStr "Keynote") (VStr "Ada;"))).
  - exact fresh_ok.
  - repeat (constructor; [right; vm_compute; discriminate|]). constructor.
  - repeat (constructor; [reflexivity|]). constructor.
  - reflexivity.
  - reflexivity.
Defined.

End ListedNames.

(* ===================================================================== *)
(** * A lookup before any import *)
(* ===================================================================== *)

Section NewDatabase.
Import Py Utils Sqlite Engine DbTable Constants LookupAgenda.

Lemma opened_empty (st : state) :
  db st = ∅ -> db (opened st) = db fresh.
Proof.
  intros Hdb. unfold opened, open_table. cbn [db]. rewrite Hdb.
  rewrite lookup_empty.
  rewrite lookup_insert_ne by discriminate. rewrite lookup_empty.
  rewrite lookup_insert_ne by discriminate.
  rewrite lookup_insert_ne by discriminate. rewrite lookup_empty.
  apply map_eq. intros k. unfold fresh. cbn [db].
  destruct (decide (k = "sessions")) as [->|H1].
  { rewrite !lookup_insert_ne by discriminate.
    rewrite !lookup_insert_eq. reflexivity. }
  destruct (decide (k = "speakers")) as [->|H2].
  { rewrite lookup_insert_ne by discriminate. rewrite lookup_insert_eq.
    rewrite lookup_insert_ne by discriminate. rewrite lookup_insert_eq.
    reflexivity. }
  destruct (decide (k = "sessions_speakers")) as [->|H3].
  { rewrite lookup_insert_eq.
    rewrite !lookup_insert_ne by discriminate. rewrite lookup_insert_eq.
    reflexivity. }
  rewrite !lookup_insert_ne by congruence. reflexivity.
Qed.

(** X19.  A lookup on a database that has no table yet, with any well
    formed query: the three tables are created empty, the primary
    statement is the only query sent, the no-matches message is printed
    and the status is 1.  So a lookup before any import leaves a database
    with the three empty tables behind. *)
Theorem lookup_on_new_database_creates_tables
  (argv : list string) (st : state) :
  (3 <= length argv)%nat ->
  nth 1 argv EmptyString ∈ QUERY_COLUMNS ->
  db st = ∅ ->
  let column := nth 1 argv EmptyString in
  let value := VStr (join " " (drop 2 argv)) in
  main argv st
  = (1, {| db := db fresh;
           log := log st
                  ++ [SCreate "sessions" Models.sessions_schema;
                      SCreate "speakers" Models.speakers_schema;
                      SCreate "sessions_speakers"
                        Models.sessions_speakers_schema;
                      SSelect (primary_query column value)];
           out := out st
                  ++ ["Error occured: No matches found for the given query."] |}).
Proof.
  intros Hlen Hcol Hdb column value.
  pose proof (opened_empty st Hdb) as Hopen.
  unfold main, body, validate_query.
  destruct (Nat.ltb_spec (length argv) 3) as [|_]; [lia|].
  fold column. rewrite bool_decide_eq_true_2 by exact Hcol. cbn [negb].
  unfold bind at 1. unfold ret at 1.
  unfold bind at 1.
  rewrite (init_run "sessions" _ sessions_sch) by reflexivity.
  unfold bind at 1.
  rewrite (init_run "speakers" _ speakers_sch) by reflexivity.
  unfold bind at 1.
  rewrite (init_run "sessions_speakers" _ sessions_speakers_sch) by reflexivity.
  fold (opened st). fold value.
  assert (Hall : get_all_matches column value
                   (handle "sessions" Models.sessions_schema)
                   (handle "sessions_speakers" Models.sessions_speakers_schema)
                   (handle "speakers" Models.speakers_schema) (opened st)
                 = (Raise (ValueError "No matches found for the given query."),
                    logged (SSelect (primary_query column value)) (opened st))).
  { assert (Hsel : select_rows (db (opened st)) (primary_query column value)
                   = inr (map session_values [])).
    { rewrite Hopen.
      assert (Hcases : column ∈ SESSIONS_COLUMNS \/ column = "speaker").
      { revert Hcol. unfold QUERY_COLUMNS, SESSIONS_COLUMNS.
        rewrite !elem_of_cons. tauto. }
      destruct Hcases as [Hc| ->].
      - destruct (where_text (empty_table sessions_sch) column
                    (str (preprocess_value value))
                    (strip (join " " (drop 2 argv))) Hc eq_refl
                    (unquote_literal value)) as (p & Hp & _).
        rewrite (primary_query_text column value Hc).
        rewrite (select_rows_single (db fresh)
                   {| sel_table := "sessions"; sel_columns := sessions_columns;
                      sel_joins := [];
                      sel_where := [CEq column (str (preprocess_value value))] |}
                   (empty_table sessions_sch)
                   (map (pair "sessions") sessions_columns) p eq_refl eq_refl
                   (sessions_result_columns (empty_table sessions_sch) [] _
                      eq_refl) Hp).
        reflexivity.
      - exact (select_attended (db fresh) [] [] [] _ eq_refl eq_refl eq_refl). }
    apply (get_all_matches_run (opened st) (empty_table sessions_sch) column
             value []); [rewrite Hopen; reflexivity|reflexivity| |exact Hsel].
    intros r Hr. inversion Hr. }
  unfold bind at 1. rewrite Hall.
  unfold print, logged. cbn [db log out]. rewrite Hopen.
  unfold opened, open_table. cbn [log out].
  rewrite <- !app_assoc. reflexivity.
Qed.

Lemma lookup_on_new_database_creates_tables_witness :
  main ["lookup_agenda.py"; "speaker"; "Ada"]
    {| db := ∅; log := []; out := [] |}
  = (1, {| db := db fresh;
           log := []
                  ++ [SCreate "sessions" Models.sessions_schema;
                      SCreate "speakers" Models.speakers_schema;
                      SCreate "sessions_speakers"
                        Models.sessions_speakers_schema;
                      SSelect (primary_query "speaker" (VStr "Ada"))];
           out := []
                  ++ ["Error occured: No matches found for the given query."] |}).
Proof.
  apply (lookup_on_new_database_creates_tables
           ["lookup_agenda.py"; "speaker"; "Ada"]
           {| db := ∅; log := []; out := [] |}).
  - simpl. lia.
  - cbn. repeat constructor.
  - reflexivity.
Defined.

End NewDatabase.

(* ===================================================================== *)
(** * Importing the same spreadsheet again *)
(* ===================================================================== *)

Section SecondImport.
Import Py Utils Sqlite Engine DbTable Constants ImportAgenda.

(** The sessions and speakers tables after an import whose rows are all
    insertable, however its last phase ends. *)
Lemma import_rows_tables (rows : list excel_row) (st : state) (t p : table) :
  store_ok (db st) ->
  db st !! "sessions" = Some t ->
  db st !! "speakers" = Some p ->
  Forall insertable rows ->
  db (import_rows rows st).2 !! "sessions"
  = Some {| t_schema := sessions_sch;
            t_rows := t_rows t
                      ++ expected_rows rows VNone (next_rowid (t_rows t)) |}
  /\ db (import_rows rows st).2 !! "speakers"
     = Some {| t_schema := speakers_sch;
               t_rows := ensure_all (import_names rows) (t_rows p) |}.
Proof.
  intros Hok Ht Hp Hall.
  pose proof (opened_db st Hok) as Hopen.
  pose proof Hok as [(t0 & Ht0 & Hts & _) _ (l & Hl & Hls)].
  rewrite Ht in Ht0. injection Ht0 as <-.
  destruct (session_loop_completes (handle "sessions" Models.sessions_schema)
              rows eq_refl Hall VNone (opened st) t)
    as (ids & st1 & Hsess); [rewrite Hopen; exact Ht|exact Hts|].
  assert (Hloop := Hsess).
  apply (session_loop_ok (handle "sessions" Models.sessions_schema) rows
           eq_refl _ _ _ t) in Hloop as (_ & Hdb1 & _);
    [|rewrite Hopen; exact Ht|exact Hts].
  destruct (import_rows_run rows st st1 p l ids Hok Hp Hl Hsess)
    as (st' & Himp & Hdb' & _).
  rewrite Himp. cbn [snd]. rewrite Hdb'. split.
  - rewrite !lookup_insert_ne by discriminate.
    rewrite Hdb1. apply lookup_insert_eq.
  - rewrite lookup_insert_ne by discriminate. apply lookup_insert_eq.
Qed.

Lemma ensure_all_present (names : list string) (rows : list row) :
  (forall n, n ∈ names -> named (strip n) rows <> []) ->
  ensure_all names rows = rows.
Proof.
  induction names as [|n names IH]; intros Hall; [reflexivity|].
  cbn [ensure_all].
  assert (Hn : ensure (strip n) rows = rows).
  { unfold ensure. specialize (Hall n ltac:(left)).
    destruct (named (strip n) rows); [contradiction|reflexivity]. }
  rewrite Hn. apply IH. intros m Hm. apply Hall. right. exact Hm.
Qed.

Lemma ensure_all_again (names : list string) (rows : list row) :
  speakers_rows_ok rows ->
  ensure_all names (ensure_all names rows) = ensure_all names rows.
Proof.
  intros Hrows. apply ensure_all_present. intros n Hn.
  destruct (cache_all_named names n rows ∅ Hrows Hn) as (r & Hr & _).
  rewrite Hr. discriminate.
Qed.

Lemma expected_rows_stored (rows : list excel_row) (n : Z) (i : nat)
  (row : excel_row) :
  rows !! i = Some row ->
  exists r, expected_rows rows VNone n !! i = Some r
            /\ forall key, key ∈ SESSIONS_COLUMNS ->
                           cell (r_cells r) key = stored_of (row_get row key).
Proof.
  intros Hi. eexists. split; [apply expected_rows_lookup, Hi|].
  intros key Hkey. apply session_cells_get, Hkey.
Qed.

(** X21.  Importing the same rows a second time, on a store written by
    the import, all rows being insertable and without a NUL character in
    a cell (a statement with one is refused before it is executed).  However the two imports end,
    every session is stored a second time: the sessions table gains one
    row per input row in each run, and the two rows of an input row hold
    the same cells in the six session columns.  No speaker is stored a
    second time: the speakers table after the second run is the one after
    the first. *)
Theorem second_import_doubles_sessions_not_speakers
  (rows : list excel_row) (st : state) (t p : table) :
  store_ok (db st) ->
  db st !! "sessions" = Some t ->
  db st !! "speakers" = Some p ->
  Forall insertable rows ->
  Forall (fun row => nul_free row = true) rows ->
  let st1 := (import_rows rows st).2 in
  let st2 := (import_rows rows st1).2 in
  exists (p1 : table) (news1 news2 : list row),
    (t_rows <$> db st1 !! "sessions") = Some (t_rows t ++ news1)
    /\ (t_rows <$> db st2 !! "sessions") = Some (t_rows t ++ news1 ++ news2)
    /\ length news1 = length rows
    /\ length news2 = length rows
    /\ (forall i row,
          rows !! i = Some row ->
          exists r1 r2,
            news1 !! i = Some r1 /\ news2 !! i = Some r2
            /\ forall key, key ∈ SESSIONS_COLUMNS ->
                 cell (r_cells r1) key = stored_of (row_get row key)
                 /\ cell (r_cells r2) key = stored_of (row_get row key))
    /\ db st1 !! "speakers" = Some p1
    /\ db st2 !! "speakers" = Some p1.
Proof.
  intros Hok Ht Hp Hall _ st1 st2.
  destruct (import_rows_tables rows st t p Hok Ht Hp Hall) as [Hs1 Hp1].
  fold st1 in Hs1, Hp1.
  assert (Hok1 : store_ok (db st1)).
  { apply (import_rows_store_ok rows st st1 (import_rows rows st).1 Hok).
    subst st1. destruct (import_rows rows st); reflexivity. }
  destruct (import_rows_tables rows st1 _ _ Hok1 Hs1 Hp1 Hall) as [Hs2 Hp2].
  fold st2 in Hs2, Hp2. cbn [t_rows] in Hs2, Hp2.
  destruct (speakers_of_store _ Hok) as (p0 & Hp0 & _ & Hprows).
  rewrite Hp in Hp0. injection Hp0 as <-.
  rewrite (ensure_all_again _ _ Hprows) in Hp2.
  set (n1 := next_rowid (t_rows t)) in *.
  set (n2 := next_rowid (t_rows t ++ expected_rows rows VNone n1)) in *.
  exists {| t_schema := speakers_sch;
            t_rows := ensure_all (import_names rows) (t_rows p) |},
    (expected_rows rows VNone n1), (expected_rows rows VNone n2).
  split; [rewrite Hs1; reflexivity|].
  split; [rewrite Hs2; cbn; rewrite <- app_assoc; reflexivity|].
  split; [apply rows_ids_length|]. split; [apply rows_ids_length|].
  split; [|split; assumption].
  intros i row Hi.
  destruct (expected_rows_stored rows n1 i row Hi) as (r1 & Hr1 & Hc1).
  destruct (expected_rows_stored rows n2 i row Hi) as (r2 & Hr2 & Hc2).
  exists r1, r2. split; [exact Hr1|]. split; [exact Hr2|].
  intros key Hkey. split; [apply Hc1|apply Hc2]; exact Hkey.
Qed.

Lemma second_import_doubles_sessions_not_speakers_witness :
  let st1 := (import_rows agenda fresh).2 in
  let st2 := (import_rows agenda st1).2 in
  exists (p1 : table) (news1 news2 : list row),
    (t_rows <$> db st1 !! "sessions")
    = Some (t_rows (empty_table sessions_sch) ++ news1)
    /\ (t_rows <$> db st2 !! "sessions")
       = Some (t_rows (empty_table sessions_sch) ++ news1 ++ news2)
    /\ length news1 = length agenda
    /\ length news2 = length agenda
    /\ (forall i row,
          agenda !! i = Some row ->
          exists r1 r2,
            news1 !! i = Some r1 /\ news2 !! i = Some r2
            /\ forall key, key ∈ SESSIONS_COLUMNS ->
                 cell (r_cells r1) key = stored_of (row_get row key)
                 /\ cell (r_cells r2) key = stored_of (row_get row key))
    /\ db st1 !! "speakers" = Some p1
    /\ db st2 !! "speakers" = Some p1.
Proof.
  apply (second_import_doubles_sessions_not_speakers agenda fresh
           (empty_table sessions_sch) (empty_table speakers_sch)).
  - exact fresh_ok.
  - reflexivity.
  - reflexivity.
  - repeat (constructor; [right; vm_compute; discriminate|]). constructor.
  - repeat (constructor; [reflexivity|]). constructor.
Defined.

End SecondImport.

(* ===================================================================== *)
(** * How an import can end *)
(* ===================================================================== *)

Section ImportOutcomes.
Import Py Utils Sqlite Engine DbTable Constants ImportAgenda.

(** X22.  On a store written by the import, an import of rows without a
    NUL character in a cell (a statement with one is refused before it is
    executed, which is a fourth way to end) ends in one of three ways: it completes; or it stops in the session phase
    with the syntax error of an insert that names no column, which happens
    exactly when some row is not of type "Sub" and has none of the six
    session cells; or it stops in the last phase with the violation of the
    composite key of the association table.  In particular it never ends
    with an index or key error of the two accumulators. *)
Theorem import_ends_in_one_of_three_ways
  (rows : list excel_row) (st : state) :
  store_ok (db st) ->
  Forall (fun row => nul_free row = true) rows ->
  ((import_rows rows st).1 = Ok tt
   \/ (import_rows rows st).1 = Raise (syntax_error ")")
   \/ (import_rows rows st).1
      = Raise (IntegrityError
                 "UNIQUE constraint failed: sessions_speakers.session_id, sessions_speakers.speaker_id"))
  /\ ((import_rows rows st).1 = Raise (syntax_error ")")
      <-> ~ Forall insertable rows).
Proof.
  intros Hok _.
  pose proof (opened_db st Hok) as Hopen.
  destruct (speakers_of_store _ Hok) as (p & Hp & _ & _).
  pose proof Hok as [(t & Ht & Hts & _) _ (l & Hl & Hls)].
  destruct (@Forall_dec _ insertable insertable_dec rows) as [Hall|Hnot].
  - destruct (session_loop_completes
                (handle "sessions" Models.sessions_schema)
                rows eq_refl Hall VNone (opened st) t)
      as (ids & st1 & Hsess); [rewrite Hopen; exact Ht|exact Hts|].
    destruct (import_rows_run rows st st1 p l ids Hok Hp Hl Hsess)
      as (st' & Himp & _).
    rewrite Himp. cbn [fst].
    destruct (import_links rows ids (t_rows p) (t_rows l)).2.
    + split; [left; reflexivity|]. split; [discriminate|tauto].
    + split; [right; right; reflexivity|]. split; [discriminate|tauto].
  - destruct (first_not_insertable rows Hnot)
      as (pre & blank & post & -> & Hpre & Hblank).
    destruct (session_loop_stops (handle "sessions" Models.sessions_schema)
                blank post eq_refl Hblank pre VNone (opened st) t Hpre)
      as (st1 & Hsess & _); [rewrite Hopen; exact Ht|exact Hts|].
    rewrite (import_rows_stops _ st st1 _ Hsess). cbn [fst].
    split; [right; left; reflexivity|]. split; [intros _; exact Hnot|reflexivity].
Qed.

Lemma import_ends_in_one_of_three_ways_witness :
  ((import_rows twice fresh).1 = Ok tt
   \/ (import_rows twice fresh).1 = Raise (syntax_error ")")
   \/ (import_rows twice fresh).1
      = Raise (IntegrityError
                 "UNIQUE constraint failed: sessions_speakers.session_id, sessions_speakers.speaker_id"))
  /\ ((import_rows twice fresh).1 = Raise (syntax_error ")")
      <-> ~ Forall insertable twice).
Proof.
  apply (import_ends_in_one_of_three_ways twice fresh).
  - exact fresh_ok.
  - repeat (constructor; [reflexivity|]). constructor.
Defined.

End ImportOutcomes.
